(** * stremio_to_trakt: the markup scanner and the format transformer

    A shallow embedding of [stremio_to_trakt.py].

    - Python [str] values are Rocq [string]s, read as sequences of code
      points below 256; the character classes below ([\d], [\s], [\w],
      [str.lower], [str.strip]) are the ones Python uses on that range.
    - A [dict] is a [gmap string pyval]; key order is not modelled.
    - Exceptions are the [Raise] results of a small error monad.
    - A [float] is a binary64 ([spec_float]); [float()] of a decimal rounds
      to nearest, ties to even.  [int()] is unbounded (the limit CPython
      puts on the number of digits is not modelled).
    - The HTML tokenizer of [html.parser], [urllib.parse.unquote] and the
      clock are library code: the scanner is modelled on the event stream
      the tokenizer delivers, and the three are parameters of [Section
      Program]. *)

From Stdlib Require Import ZArith String Ascii List Lia.
From Stdlib Require Import Floats.SpecFloat.
From stdpp Require Import gmap strings list fin_maps.

Open Scope string_scope.
Open Scope Z_scope.

(** ** Characters and strings *)

Module Str.

Definition code (c : ascii) : Z := Z.of_N (N_of_ascii c).

Definition between (lo hi : Z) (c : ascii) : bool :=
  (lo <=? code c) && (code c <=? hi).

(** [\d] of [re] on [str] patterns: the decimal digits. *)
Definition is_digit (c : ascii) : bool := between 48 57 c.

(** [str.isspace], also [\s] of [re]: 0x09-0x0d, 0x1c-0x20, 0x85, 0xa0. *)
Definition is_space (c : ascii) : bool :=
  between 9 13 c || between 28 32 c || (code c =? 133) || (code c =? 160).

(** [\w] of [re]: alphanumeric code points and the underscore. *)
Definition is_word (c : ascii) : bool :=
  between 48 57 c || between 65 90 c || (code c =? 95) || between 97 122 c
  || (code c =? 170) || between 178 179 c || (code c =? 181)
  || between 185 186 c || between 188 190 c
  || between 192 214 c || between 216 246 c || between 248 255 c.

Definition lower_char (c : ascii) : ascii :=
  if between 65 90 c || between 192 214 c || between 216 222 c
  then ascii_of_N (Z.to_N (code c + 32)) else c.

(** [s.lower()] *)
Fixpoint lower (s : string) : string :=
  match s with
  | EmptyString => EmptyString
  | String c r => String (lower_char c) (lower r)
  end.

(** [s.startswith(pre)], returning the rest of [s] after [pre]. *)
Fixpoint strip_prefix (pre s : string) : option string :=
  match pre with
  | EmptyString => Some s
  | String a pre' =>
      match s with
      | EmptyString => None
      | String b s' => if Ascii.eqb a b then strip_prefix pre' s' else None
      end
  end.

Definition startswith (pre s : string) : bool :=
  match strip_prefix pre s with Some _ => true | None => false end.

(** The leftmost position of [s] at which [m] succeeds: [re.search] for a
    pattern whose match at a given position is [m]. *)
Fixpoint search {A} (m : string -> option A) (s : string) : option A :=
  match m s with
  | Some a => Some a
  | None =>
      match s with
      | EmptyString => None
      | String _ r => search m r
      end
  end.

(** [needle in s] *)
Definition contains (needle s : string) : bool :=
  match search (strip_prefix needle) s with Some _ => true | None => false end.

(** The longest prefix of characters satisfying [p], and the rest. *)
Fixpoint span (p : ascii -> bool) (s : string) : string * string :=
  match s with
  | EmptyString => (EmptyString, EmptyString)
  | String c r =>
      if p c then let '(a, b) := span p r in (String c a, b)
      else (EmptyString, s)
  end.

Definition nonempty (s : string) : bool :=
  match s with EmptyString => false | _ => true end.

(** [p+], greedy. *)
Definition some_of (p : ascii -> bool) (s : string) : option (string * string) :=
  let '(a, b) := span p s in if nonempty a then Some (a, b) else None.

Fixpoint lstrip (s : string) : string :=
  match s with
  | EmptyString => EmptyString
  | String c r => if is_space c then lstrip r else s
  end.

Fixpoint rstrip (s : string) : string :=
  match s with
  | EmptyString => EmptyString
  | String c r =>
      match rstrip r with
      | EmptyString => if is_space c then EmptyString else String c EmptyString
      | r' => String c r'
      end
  end.

(** [s.strip()] *)
Definition strip (s : string) : string := rstrip (lstrip s).

Definition digit_val (c : ascii) : Z := code c - 48.

(** [int(s)] on a string of decimal digits. *)
Definition int_of_digits (s : string) : Z :=
  fold_left (fun acc c => 10 * acc + digit_val c) (list_ascii_of_string s) 0.

End Str.

(** ** The regular expressions of the source

    Each pattern is a sequence of literals, greedy classes and optional
    characters in which a greedy run is always followed by a character
    outside its class, so the first attempt at a position is the only one
    that can succeed; [Str.search] then gives [re.search]. *)

Module Re.
Import Str.

Definition opt_char (p : ascii -> bool) (s : string) : string :=
  match s with
  | String c r => if p c then r else s
  | EmptyString => s
  end.

Definition is_quote (c : ascii) : bool := (code c =? 34) || (code c =? 39).

(** [#/detail/(movie|series)/(tt\d+)]: groups 1 and 2. *)
Definition imdb_at (s : string) : option (string * string) :=
  r ← strip_prefix "#/detail/" s;
  '(media, r) ← match strip_prefix "movie" r with
                | Some r' => Some ("movie", r')
                | None => r' ← strip_prefix "series" r; Some ("series", r')
                end;
  r ← strip_prefix "/tt" r;
  '(ds, _) ← some_of is_digit r;
  Some (media, "tt" +:+ ds).

Definition imdb (href : string) : option (string * string) :=
  search imdb_at href.

(** [(tt\d+):(\d+):(\d+)]: groups 2 and 3. *)
Definition episode_at (s : string) : option (string * string) :=
  r ← strip_prefix "tt" s;
  '(_, r) ← some_of is_digit r;
  r ← strip_prefix ":" r;
  '(se, r) ← some_of is_digit r;
  r ← strip_prefix ":" r;
  '(ep, _) ← some_of is_digit r;
  Some (se, ep).

Definition episode (href : string) : option (string * string) :=
  search episode_at href.

(** [width:\s*([\d.]+)%]: group 1. *)
Definition width_at (s : string) : option string :=
  r ← strip_prefix "width:" s;
  '(num, r) ← some_of (fun c => is_digit c || (code c =? 46)) (lstrip r);
  _ ← strip_prefix "%" r;
  Some num.

Definition width (style : string) : option string := search width_at style.

(** The background-image pattern: [background-image:], [\s*], [url(], an
    optional quote, one or more characters that are no quote, closing
    parenthesis or space (group 1), an optional quote, [)]. *)
Definition bg_url_at (s : string) : option string :=
  r ← strip_prefix "background-image:" s;
  r ← strip_prefix "url(" (lstrip r);
  '(url, r) ← some_of (fun c => negb (is_quote c || (code c =? 41) || is_space c))
                      (opt_char is_quote r);
  _ ← strip_prefix ")" (opt_char is_quote r);
  Some url.

Definition bg_url (style : string) : option string := search bg_url_at style.

(** [poster-shape-(\w+)]: group 1. *)
Definition poster_shape_at (s : string) : option string :=
  r ← strip_prefix "poster-shape-" s;
  '(shape, _) ← some_of is_word r;
  Some shape.

Definition poster_shape (classes : string) : option string :=
  search poster_shape_at classes.

(** [\b(19|20)\d{2}\b]: group 0.  [prev] is whether the character before the
    position is a word character. *)
Definition year_at (prev : bool) (s : string) : option string :=
  match s with
  | String a (String b (String c (String d r))) =>
      if negb prev
         && ((code a =? 49) && (code b =? 57) || (code a =? 50) && (code b =? 48))
         && is_digit c && is_digit d
         && match r with String e _ => negb (is_word e) | EmptyString => true end
      then Some (String a (String b (String c (String d EmptyString))))
      else None
  | _ => None
  end.

Fixpoint year_from (prev : bool) (s : string) : option string :=
  match year_at prev s with
  | Some y => Some y
  | None =>
      match s with
      | EmptyString => None
      | String c r => year_from (is_word c) r
      end
  end.

Definition year (text : string) : option string := year_from false text.

End Re.

(** ** Python values *)

Inductive exn := TypeError | ValueError | AttributeError | KeyError.

Inductive res (A : Type) : Type :=
  | Ok (a : A)
  | Raise (e : exn).
Arguments Ok {A} a.
Arguments Raise {A} e.

#[global] Instance res_ret : MRet res := fun _ a => Ok a.
#[global] Instance res_bind : MBind res :=
  fun _ _ f m => match m with Ok a => f a | Raise e => Raise e end.

(** A [float] is a binary64. *)
Definition prec : Z := 53.
Definition emax : Z := 1024.

Inductive pyval :=
  | VNone
  | VBool (b : bool)
  | VInt (z : Z)
  | VFloat (f : spec_float)
  | VStr (s : string).

#[global] Instance exn_eq_dec : EqDecision exn.
Proof. solve_decision. Defined.
#[global] Instance spec_float_eq_dec : EqDecision spec_float.
Proof. solve_decision. Defined.
#[global] Instance pyval_eq_dec : EqDecision pyval.
Proof. solve_decision. Defined.

(** [bool(v)] *)
Definition truthy (v : pyval) : bool :=
  match v with
  | VNone => false
  | VBool b => b
  | VInt z => negb (z =? 0)
  | VFloat (S754_zero _) => false
  | VFloat _ => true
  | VStr s => Str.nonempty s
  end.

(** The number a value denotes: [m * 2^e], an infinity, or not a number. *)
Inductive num :=
  | NFin (m e : Z)
  | NInf (neg : bool)
  | NNaN.

Definition num_of (v : pyval) : option num :=
  match v with
  | VBool b => Some (NFin (if b then 1 else 0) 0)
  | VInt z => Some (NFin z 0)
  | VFloat (S754_zero _) => Some (NFin 0 0)
  | VFloat (S754_infinity s) => Some (NInf s)
  | VFloat S754_nan => Some NNaN
  | VFloat (S754_finite s m e) => Some (NFin (cond_Zopp s (Zpos m)) e)
  | VNone | VStr _ => None
  end.

Definition num_compare (x y : num) : option comparison :=
  match x, y with
  | NNaN, _ | _, NNaN => None
  | NInf a, NInf b => Some (if a then (if b then Eq else Lt) else (if b then Gt else Eq))
  | NInf a, NFin _ _ => Some (if a then Lt else Gt)
  | NFin _ _, NInf b => Some (if b then Gt else Lt)
  | NFin m1 e1, NFin m2 e2 =>
      let e := Z.min e1 e2 in
      Some (m1 * 2 ^ (e1 - e) ?= m2 * 2 ^ (e2 - e))
  end.

(** Comparisons of a value with a number; a [str] or [None] operand is a
    [TypeError]. *)
Definition py_cmp (test : option comparison -> bool) (a b : pyval) : res bool :=
  match num_of a, num_of b with
  | Some x, Some y => Ok (test (num_compare x y))
  | _, _ => Raise TypeError
  end.

Definition py_gt : pyval -> pyval -> res bool :=
  py_cmp (fun c => match c with Some Gt => true | _ => false end).
Definition py_ge : pyval -> pyval -> res bool :=
  py_cmp (fun c => match c with Some Gt | Some Eq => true | _ => false end).
Definition py_le : pyval -> pyval -> res bool :=
  py_cmp (fun c => match c with Some Lt | Some Eq => true | _ => false end).

(** [float(s)] for [s] made of digits and dots, as [width:\s*([\d.]+)%]
    captures it: the binary64 nearest to the decimal, ties to even; a
    string with no digit or with two dots is a [ValueError]. *)
Fixpoint pow10 (k : nat) : positive :=
  match k with
  | O => 1%positive
  | S k' => (10 * pow10 k')%positive
  end.

(** The binary64 nearest to [m / 10^k]. *)
Definition float_of_decimal (m : Z) (k : nat) : spec_float :=
  match m with
  | Zpos p => SFdiv prec emax (S754_finite false p 0) (S754_finite false (pow10 k) 0)
  | _ => S754_zero false
  end.

Definition py_float (s : string) : res spec_float :=
  let '(ip, r) := Str.span Str.is_digit s in
  match r with
  | EmptyString =>
      if Str.nonempty ip then Ok (float_of_decimal (Str.int_of_digits ip) 0)
      else Raise ValueError
  | String c fp =>
      let '(fd, r') := Str.span Str.is_digit fp in
      if (Str.code c =? 46) && negb (Str.nonempty r') && Str.nonempty (ip +:+ fd)
      then Ok (float_of_decimal (Str.int_of_digits (ip +:+ fd))
                 (String.length fd))
      else Raise ValueError
  end.

(** ** Dictionaries and attributes *)

Abbreviation dict := (gmap string pyval).

(** The [attrs] of a start tag, as [html.parser] delivers them: an attribute
    written without a value has the value [None]. *)
Abbreviation attrs := (list (string * option string)).

(** [dict(attrs)]: a later duplicate replaces an earlier one. *)
Definition dict_of_attrs (a : attrs) : gmap string (option string) :=
  foldl (fun m kv => <[kv.1 := kv.2]> m) ∅ a.

Definition has_key {V} (k : string) (d : gmap string V) : bool :=
  match d !! k with Some _ => true | None => false end.

(** [attrs_dict.get(k, '')] *)
Definition get_attr (k : string) (d : gmap string (option string)) : option string :=
  default (Some "") (d !! k).

Definition of_attr (v : option string) : pyval :=
  match v with Some s => VStr s | None => VNone end.

(** [needle in v]: a [TypeError] on [None]. *)
Definition py_in (needle : string) (v : option string) : res bool :=
  match v with
  | Some s => Ok (Str.contains needle s)
  | None => Raise TypeError
  end.

(** [v.lower()]: an [AttributeError] on [None]. *)
Definition py_lower (v : option string) : res string :=
  match v with
  | Some s => Ok (Str.lower s)
  | None => Raise AttributeError
  end.

(** [re.search(pattern, v)]: a [TypeError] on [None]. *)
Definition re_search {A} (pat : string -> option A) (v : option string) : res (option A) :=
  match v with
  | Some s => Ok (pat s)
  | None => Raise TypeError
  end.

(** [d.get(k, dflt)] and [d[k]] *)
Definition get (k : string) (dflt : pyval) (d : dict) : pyval :=
  default dflt (d !! k).

Definition getitem (k : string) (d : dict) : res pyval :=
  match d !! k with Some v => Ok v | None => Raise KeyError end.

(** [bool(d)] for a dict: [len(d) != 0] *)
Definition dict_truthy (d : dict) : bool := negb (Nat.eqb (size d) 0).

(** [{k: v for k, v in d.items() if v is not None}] *)
Definition strip_none (d : dict) : dict := filter (fun kv => kv.2 <> VNone) d.

(** ** The scanner *)

Record parser := mkParser {
  items : list dict;
  current_item : option dict;
  in_meta_item : bool;
  in_title_label : bool;
  capture_text : bool;
  current_text_field : option string;
}.

(** [StremioHTMLParser.__init__] *)
Definition init : parser := mkParser [] None false false false None.

Definition set_items (v : list dict) (p : parser) : parser :=
  mkParser v (current_item p) (in_meta_item p) (in_title_label p)
           (capture_text p) (current_text_field p).
Definition set_current_item (v : option dict) (p : parser) : parser :=
  mkParser (items p) v (in_meta_item p) (in_title_label p)
           (capture_text p) (current_text_field p).
Definition set_in_meta_item (v : bool) (p : parser) : parser :=
  mkParser (items p) (current_item p) v (in_title_label p)
           (capture_text p) (current_text_field p).
Definition set_capture (field : option string) (v : bool) (p : parser) : parser :=
  mkParser (items p) (current_item p) (in_meta_item p) (in_title_label p)
           v field.

(** [if self.current_item] *)
Definition open_item (p : parser) : option dict :=
  match current_item p with
  | Some it => if dict_truthy it then Some it else None
  | None => None
  end.

(** A block guarded by [self.current_item and guard] that updates the item. *)
Definition on_item (guard : bool) (f : dict -> res dict) (p : parser) : res parser :=
  match open_item p with
  | Some it =>
      if guard then it' ← f it; Ok (set_current_item (Some it') p) else Ok p
  | None => Ok p
  end.

Definition is_text_tag (tag : string) : bool :=
  String.eqb tag "div" || String.eqb tag "span" || String.eqb tag "p".

Section Program.

(** [urllib.parse.unquote] *)
Variable unquote : string -> string.

Abbreviation adict := (gmap string (option string)).

(** The dict literal of a new item. *)
Definition new_item (imdb_id media_type : string) (title href : option string) : dict :=
  <["release_info" := VNone]> (
  <["episode_title" := VNone]> (
  <["duration" := VNone]> (
  <["year" := VNone]> (
  <["poster_shape" := VNone]> (
  <["poster_url" := VNone]> (
  <["episode" := VNone]> (
  <["season" := VNone]> (
  <["progress" := VInt 0]> (
  <["is_watched" := VBool false]> (
  <["href" := of_attr href]> (
  <["type" := VStr (if String.eqb media_type "series" then "show" else "movie")]> (
  <["title" := of_attr title]> (
  <["imdb_id" := VStr imdb_id]> ∅))))))))))))).

(** [if episode_match: season and episode from groups 2 and 3] *)
Definition set_episode (episode_match : option (string * string)) (it : dict) : dict :=
  match episode_match with
  | Some (se, ep) =>
      <["episode" := VInt (Str.int_of_digits ep)]> (
      <["season" := VInt (Str.int_of_digits se)]> it)
  | None => it
  end.

(** [for key, value in attrs_dict.items(): if key.startswith('data-'): ...] *)
Definition store_data_attrs (ad : adict) (it : dict) : dict :=
  map_fold (fun key value it =>
              if Str.startswith "data-" key then <[key := of_attr value]> it else it)
           it ad.

(** Lines 44-87: a meta item container starts a new item. *)
Definition start_container (tag : string) (ad : adict) (p : parser) : res parser :=
  if String.eqb tag "a" && has_key "class" ad then
    is_container ← py_in "meta-item-container" (get_attr "class" ad);
    if is_container : bool then
      let p := set_in_meta_item true p in
      let href := get_attr "href" ad in
      let title := get_attr "title" ad in
      imdb_match ← re_search Re.imdb href;
      match imdb_match with
      | Some (media_type, imdb_id) =>
          episode_match ← re_search Re.episode href;
          let it := new_item imdb_id media_type title href in
          let it := set_episode episode_match it in
          Ok (set_current_item (Some (store_data_attrs ad it)) p)
      | None => Ok p
      end
    else Ok p
  else Ok p.

(** Lines 89-92: the watched icon. *)
Definition watched_icon (ad : adict) (it : dict) : res dict :=
  b ← py_in "watched-icon-layer" (get_attr "class" ad);
  Ok (if b : bool then <["is_watched" := VBool true]> it else it).

(** Lines 94-101: the progress bar. *)
Definition progress_bar (ad : adict) (it : dict) : res dict :=
  let classes := get_attr "class" ad in
  b1 ← py_in "progress-bar" classes;
  b ← (if b1 : bool then Ok true
       else l ← py_lower classes; Ok (Str.contains "progressBar" l));
  if b : bool then
    progress_match ← re_search Re.width (get_attr "style" ad);
    match progress_match with
    | Some g1 => f ← py_float g1; Ok (<["progress" := VFloat f]> it)
    | None => Ok it
    end
  else Ok it.

(** Lines 103-116: the poster from a background-image style. *)
Definition poster_style (ad : adict) (it : dict) : res dict :=
  let classes := get_attr "class" ad in
  let style := get_attr "style" ad in
  l ← py_lower classes;
  if Str.contains "poster" l || Str.contains "thumbnail" l || Str.contains "image" l then
    url_match ← re_search Re.bg_url style;
    let it := match url_match with
              | Some g1 => <["poster_url" := VStr (unquote g1)]> it
              | None => it
              end in
    has_shape ← py_in "poster-shape" classes;
    if has_shape : bool then
      shape_match ← re_search Re.poster_shape classes;
      Ok (match shape_match with
          | Some g1 => <["poster_shape" := VStr g1]> it
          | None => it
          end)
    else Ok it
  else Ok it.

(** [v and not item[k]] for an attribute value [v] *)
Definition attr_and_unset (v : option string) (k : string) (it : dict) : res bool :=
  if truthy (of_attr v) then cur ← getitem k it; Ok (negb (truthy cur))
  else Ok false.

(** Lines 118-125: the poster and the title from an [img]. *)
Definition img_tag (ad : adict) (it : dict) : res dict :=
  let src := get_attr "src" ad in
  b ← attr_and_unset src "poster_url" it;
  let it := if b : bool
            then <["poster_url" := VStr (unquote (default "" src))]> it else it in
  let alt := get_attr "alt" ad in
  b ← attr_and_unset alt "title" it;
  Ok (if b : bool then <["title" := of_attr alt]> it else it).

(** Lines 127-153: the four text capture rules, one [if] each. *)
Definition capture_rule (words : string -> bool) (field : string)
    (tag : string) (ad : adict) (p : parser) : res parser :=
  match open_item p with
  | Some _ =>
      if is_text_tag tag && has_key "class" ad then
        l ← py_lower (get_attr "class" ad);
        Ok (if words l then set_capture (Some field) true p else p)
      else Ok p
  | None => Ok p
  end.

Definition title_words (l : string) : bool :=
  Str.contains "title" l || Str.contains "name" l || Str.contains "label" l.
Definition release_words (l : string) : bool :=
  Str.contains "year" l || Str.contains "release" l || Str.contains "date" l.
Definition duration_words (l : string) : bool :=
  Str.contains "duration" l || Str.contains "runtime" l || Str.contains "time" l.
Definition episode_title_words (l : string) : bool :=
  Str.contains "episode" l && Str.contains "title" l.

(** Lines 155-162: a background image in any inline style. *)
Definition inline_style (ad : adict) (it : dict) : res dict :=
  let style := get_attr "style" ad in
  has_bg ← py_in "background-image" style;
  b ← (if has_bg : bool then cur ← getitem "poster_url" it; Ok (negb (truthy cur))
       else Ok false);
  if b : bool then
    url_match ← re_search Re.bg_url style;
    Ok (match url_match with
        | Some g1 => <["poster_url" := VStr (unquote g1)]> it
        | None => it
        end)
  else Ok it.

Definition handle_starttag (tag : string) (a : attrs) (p : parser) : res parser :=
  let ad := dict_of_attrs a in
  let is_div_class := String.eqb tag "div" && has_key "class" ad in
  p ← start_container tag ad p;
  p ← on_item is_div_class (watched_icon ad) p;
  p ← on_item is_div_class (progress_bar ad) p;
  p ← on_item is_div_class (poster_style ad) p;
  p ← on_item (String.eqb tag "img") (img_tag ad) p;
  p ← capture_rule title_words "title_text" tag ad p;
  p ← capture_rule release_words "release_info" tag ad p;
  p ← capture_rule duration_words "duration" tag ad p;
  p ← capture_rule episode_title_words "episode_title" tag ad p;
  on_item (has_key "style" ad) (inline_style ad) p.

(** The body of [handle_data] once the guard holds. *)
Definition store_text (field : option string) (text : string) (it : dict) : res dict :=
  if bool_decide (field = Some "release_info") then
    let it := <["release_info" := VStr text]> it in
    Ok (match Re.year text with
        | Some g0 => <["year" := VInt (Str.int_of_digits g0)]> it
        | None => it
        end)
  else if bool_decide (field = Some "duration") then
    Ok (<["duration" := VStr text]> it)
  else if bool_decide (field = Some "episode_title") then
    Ok (<["episode_title" := VStr text]> it)
  else if bool_decide (field = Some "title_text") then
    cur ← getitem "title" it;
    Ok (if truthy cur then it else <["title" := VStr text]> it)
  else Ok it.

Definition handle_data (data : string) (p : parser) : res parser :=
  on_item (capture_text p && Str.nonempty (Str.strip data))
          (store_text (current_text_field p) (Str.strip data)) p.

Definition handle_endtag (tag : string) (p : parser) : res parser :=
  let p := if is_text_tag tag then set_capture None false p else p in
  if String.eqb tag "a" && in_meta_item p then
    let p :=
      match open_item p with
      | Some it => set_current_item None (set_items (items p ++ [strip_none it]) p)
      | None => p
      end in
    Ok (set_in_meta_item false p)
  else Ok p.

(** The handler calls [HTMLParser.feed] makes. *)
Inductive event :=
  | StartTag (tag : string) (a : attrs)
  | EndTag (tag : string)
  | Data (data : string).

Definition handle (e : event) (p : parser) : res parser :=
  match e with
  | StartTag tag a => handle_starttag tag a p
  | EndTag tag => handle_endtag tag p
  | Data data => handle_data data p
  end.

Fixpoint feed (evs : list event) (p : parser) : res parser :=
  match evs with
  | [] => Ok p
  | e :: evs' => p' ← handle e p; feed evs' p'
  end.

(** The tokenizer of [html.parser]: the events of a document, in order. *)
Variable tokenize : string -> list event.

Definition parse_stremio_html (html_content : string) : res (list dict) :=
  p ← feed (tokenize html_content) init; Ok (items p).

(** ** The transformer *)

(** [datetime.now().isoformat()] at the n-th reading of the clock. *)
Variable now_isoformat : nat -> string.

(** [a or b] where [b] may raise. *)
Definition py_or (a : pyval) (b : res pyval) : res pyval :=
  if truthy a then Ok a else b.

(** [item.get('is_watched', False) or item.get('progress', 0) > 90] *)
Definition is_watched (item : dict) : res pyval :=
  py_or (get "is_watched" (VBool false) item)
        (b ← py_gt (get "progress" (VInt 0) item) (VInt 90); Ok (VBool b)).

(** [if item.get(k): out[k'] = item[k]] *)
Definition copy_if_truthy (k k' : string) (item out : dict) : dict :=
  if truthy (get k VNone item) then <[k' := get k VNone item]> out else out.

Definition is_not_none (v : pyval) : bool := negb (bool_decide (v = VNone)).

(** The body of the loop of [convert_to_trakt_format]; [tick] counts the
    readings of the clock. *)
Definition convert_item (add_watchlist mark_unknown_dates : bool)
    (item : dict) (tick : nat) : res (dict * nat) :=
  let t := <["type" := get "type" VNone item]> (
           <["imdb_id" := get "imdb_id" VNone item]> ∅) in
  let t := copy_if_truthy "title" "title" item t in
  let t :=
    if is_not_none (get "season" VNone item) && is_not_none (get "episode" VNone item)
    then <["episode" := get "episode" VNone item]> (
         <["season" := get "season" VNone item]> (
         <["type" := VStr "episode"]> t))
    else t in
  let '(t, tick) :=
    if add_watchlist
    then (<["watchlisted_at" := VStr (now_isoformat tick +:+ "Z")]> t, S tick)
    else (t, tick) in
  w ← is_watched item;
  let '(t, tick) :=
    if truthy w then
      if mark_unknown_dates then (<["watched_at" := VStr "unknown"]> t, tick)
      else (<["watched_at" := VStr (now_isoformat tick +:+ "Z")]> t, S tick)
    else (t, tick) in
  let t := copy_if_truthy "href" "_href" item t in
  let t := copy_if_truthy "poster_url" "_poster_url" item t in
  has_progress ← py_gt (get "progress" (VInt 0) item) (VInt 0);
  let t := if has_progress : bool
           then <["_progress" := get "progress" (VInt 0) item]> t else t in
  let t := copy_if_truthy "year" "_year" item t in
  let t := copy_if_truthy "duration" "_duration" item t in
  let t := copy_if_truthy "episode_title" "_episode_title" item t in
  Ok (t, tick).

Fixpoint convert_from (add_watchlist mark_unknown_dates : bool)
    (l : list dict) (tick : nat) : res (list dict * nat) :=
  match l with
  | [] => Ok ([], tick)
  | item :: l' =>
      '(t, tick) ← convert_item add_watchlist mark_unknown_dates item tick;
      '(ts, tick) ← convert_from add_watchlist mark_unknown_dates l' tick;
      Ok (t :: ts, tick)
  end.

Definition convert_to_trakt_format (l : list dict)
    (add_watchlist mark_unknown_dates : bool) : res (list dict) :=
  '(ts, _) ← convert_from add_watchlist mark_unknown_dates l 0%nat; Ok ts.

(** [if k in item: entry[k] = item[k]] *)
Definition copy_if_present (k : string) (item entry : dict) : dict :=
  match item !! k with Some v => <[k := v]> entry | None => entry end.

(** The body of the loop of [format_for_trakt_import]. *)
Definition format_item (item : dict) : res dict :=
  imdb_id ← getitem "imdb_id" item;
  type ← getitem "type" item;
  let e := <["type" := type]> (<["imdb_id" := imdb_id]> ∅) in
  let e := copy_if_truthy "title" "title" item e in
  let e := copy_if_present "watched_at" item e in
  let e := copy_if_present "watchlisted_at" item e in
  let e := if has_key "rating" item
           then copy_if_present "rated_at" item (copy_if_present "rating" item e)
           else e in
  let e := if bool_decide (type = VStr "episode")
           then <["episode" := get "episode" VNone item]> (
                <["season" := get "season" VNone item]> e)
           else e in
  Ok (map_fold (fun key value e =>
                  if Str.startswith "_" key && is_not_none value
                  then <[key := value]> e else e)
               e item).

Fixpoint map_res {A B} (f : A -> res B) (l : list A) : res (list B) :=
  match l with
  | [] => Ok []
  | a :: l' => b ← f a; bs ← map_res f l'; Ok (b :: bs)
  end.

Definition format_for_trakt_import (l : list dict) : res (list dict) :=
  map_res format_item l.

(** [[x for x in l if f x]] where the test may raise. *)
Fixpoint filter_res {A} (f : A -> res bool) (l : list A) : res (list A) :=
  match l with
  | [] => Ok []
  | a :: l' =>
      b ← f a; r ← filter_res f l'; Ok (if b : bool then a :: r else r)
  end.

(** ** The command *)

(** The parsed arguments.  [min_progress] is a float; its default, the int
    [0], compares like the float zero. *)
Record args := mkArgs {
  no_watchlist : bool;
  use_current_date : bool;
  watched_only : bool;
  min_progress : spec_float;
}.

(** What the run writes on the diagnostic stream. *)
Inductive diag :=
  | EmptyInput
  | NoItemsFound
  | Found (n movies shows episodes watched : nat)
  | Exported (n : nat).

Inductive outcome :=
  | Exit (status : Z) (stderr : list diag)
  | Traceback (e : exn)
  | Written (stderr : list diag) (output : list dict).

Definition count_res (f : dict -> res bool) (l : list dict) : res nat :=
  r ← filter_res f l; Ok (length r).

(** [main] after the empty-input and no-items checks. *)
Definition export (a : args) (l : list dict) : res (list diag * list dict) :=
  movies ← count_res (fun i => Ok (bool_decide (get "type" VNone i = VStr "movie"))) l;
  shows ← count_res (fun i => Ok (bool_decide (get "type" VNone i = VStr "show")
                                   && negb (truthy (get "season" VNone i)))) l;
  episodes ← count_res (fun i => Ok (is_not_none (get "season" VNone i))) l;
  watched ← count_res (fun i => w ← py_or (get "is_watched" VNone i)
                                     (b ← py_gt (get "progress" (VInt 0) i) (VInt 90);
                                      Ok (VBool b));
                                   Ok (truthy w)) l;
  let found := Found (length l) movies shows episodes watched in
  apply_min ← py_gt (VFloat (min_progress a)) (VInt 0);
  l ← (if apply_min : bool
       then filter_res (fun item => py_ge (get "progress" (VInt 0) item)
                                          (VFloat (min_progress a))) l
       else Ok l);
  l ← (if watched_only a
       then filter_res (fun item => w ← is_watched item; Ok (truthy w)) l
       else Ok l);
  trakt_items ← convert_to_trakt_format l (negb (no_watchlist a))
                                          (negb (use_current_date a));
  output ← format_for_trakt_import trakt_items;
  Ok ([found; Exported (length output)], output).

Definition main (a : args) (html_content : string) : outcome :=
  if negb (Str.nonempty (Str.strip html_content)) then Exit 1 [EmptyInput]
  else
    match parse_stremio_html html_content with
    | Raise e => Traceback e
    | Ok [] => Exit 1 [NoItemsFound]
    | Ok l =>
        match export a l with
        | Raise e => Traceback e
        | Ok (stderr, output) => Written stderr output
        end
    end.

End Program.

(** ** Definitions used by the statements *)

(** An input document that is empty or has only whitespace. *)
Definition whitespace_only (s : string) : bool :=
  forallb Str.is_space (list_ascii_of_string s).

(** A field is present when the dict has a value for it that is not [None]. *)
Definition present (k : string) (item : dict) : bool :=
  match item !! k with
  | Some VNone | None => false
  | Some _ => true
  end.

(** An item whose progress is a number, as the scanner leaves it. *)
Definition numeric_progress (item : dict) : bool :=
  match num_of (get "progress" (VInt 0) item) with Some _ => true | None => false end.

(** [e] is the output entry of [item]: converted, then formatted. *)
Definition entry_of (now_isoformat : nat -> string) (a : args) (item e : dict) : Prop :=
  exists tick t tick',
    convert_item now_isoformat (negb (no_watchlist a)) (negb (use_current_date a))
                 item tick = Ok (t, tick')
    /\ format_item t = Ok e.

(** An item passes the filters of the run. *)
Definition passes_filters (a : args) (item : dict) : Prop :=
  (py_gt (VFloat (min_progress a)) (VInt 0) = Ok true ->
   py_ge (get "progress" (VInt 0) item) (VFloat (min_progress a)) = Ok true)
  /\ (watched_only a = true ->
      exists w, is_watched item = Ok w /\ truthy w = true).

(** The class test of the progress bar block: the second alternative, an
    upper-case letter looked for in a lower-cased string, never holds. *)
Definition progress_class (ad : gmap string (option string)) : bool :=
  match get_attr "class" ad with
  | Some classes => Str.contains "progress-bar" classes
  | None => false
  end.

(** An event the scanner takes for progress-bar markup. *)
Definition progress_markup (e : event) : bool :=
  match e with
  | StartTag tag a =>
      String.eqb tag "div" && has_key "class" (dict_of_attrs a)
      && progress_class (dict_of_attrs a)
  | _ => false
  end.

(** What a handler may store in the open item: a field and its value.
    [pb] tells whether the event is progress-bar markup. *)
Inductive write (pb : bool) : string -> pyval -> Prop :=
  | W_is_watched : write pb "is_watched" (VBool true)
  | W_progress s f : pb = true -> py_float s = Ok f -> write pb "progress" (VFloat f)
  | W_poster_url s : write pb "poster_url" (VStr s)
  | W_poster_shape s : write pb "poster_shape" (VStr s)
  | W_title s : write pb "title" (VStr s)
  | W_release_info s : write pb "release_info" (VStr s)
  | W_duration s : write pb "duration" (VStr s)
  | W_episode_title s : write pb "episode_title" (VStr s)
  | W_year s : write pb "year" (VInt (Str.int_of_digits s)).

Inductive writes (pb : bool) : dict -> dict -> Prop :=
  | writes_refl d : writes pb d d
  | writes_step d d' k v :
      writes pb d d' -> write pb k v -> writes pb d (<[k := v]> d').

(** A handler step that leaves the output sequence alone and at most
    stores fields in the open item. *)
Definition item_step (pb : bool) (p p' : parser) : Prop :=
  items p' = items p
  /\ in_meta_item p' = in_meta_item p
  /\ match current_item p, current_item p' with
     | Some it, Some it' => writes pb it it'
     | None, None => True
     | _, _ => False
     end.

(** The invariant of a scan that starts with the items [base]: every item
    appended since satisfies [Q] and the open item satisfies [P]. *)
Definition inv (base : list dict) (P Q : dict -> Prop) (p : parser) : Prop :=
  (exists new, items p = (base ++ new)%list /\ Forall Q new)
  /\ forall it, current_item p = Some it -> P it.

(** An event that is progress-bar markup only if [pb] allows it. *)
Definition allowed (pb : bool) (e : event) : Prop :=
  progress_markup e = true -> pb = true.

(** A float that is zero, positive or plus infinity. *)
Definition nonneg_float (f : spec_float) : Prop :=
  match f with
  | S754_zero _ | S754_infinity false | S754_finite false _ _ => True
  | _ => False
  end.

(** The progress of an item is a number that is at least 0. *)
Definition progress_nonneg (it : dict) : Prop :=
  exists v, it !! "progress" = Some v /\ py_ge v (VInt 0) = Ok true.

(** The progress of an item is the default. *)
Definition progress_default (it : dict) : Prop :=
  it !! "progress" = Some (VInt 0).

(** Season and episode are both [absent], or both integers that are at
    least 0. *)
Definition episode_fields (absent : option pyval) (it : dict) : Prop :=
  (it !! "season" = absent /\ it !! "episode" = absent)
  \/ (exists s e, it !! "season" = Some (VInt s) /\ it !! "episode" = Some (VInt e)
                 /\ 0 <= s /\ 0 <= e).

(** The fields every item has from its creation on. *)
Definition core_fields : list string :=
  ["imdb_id"; "type"; "href"; "is_watched"; "progress"].

Definition has_core (it : dict) : Prop :=
  Forall (fun k => present k it = true) core_fields.

(** No field of the item is [None]. *)
Definition no_none (it : dict) : Prop :=
  forall k, it !! k <> Some VNone.

(** A block of [handle_starttag] on the open item, under its guard. *)
Definition guarded (g : bool) (f : dict -> res dict) (it : dict) : res dict :=
  if g then f it else Ok it.

(** The text capture rules as the specification lists them, in its order
    of evaluation, and the target the last matching rule gives. *)
Definition spec_capture_rules : list ((string -> bool) * string) :=
  [(title_words, "title_text"); (release_words, "release_info");
   (duration_words, "duration"); (episode_title_words, "episode_title")].

Definition spec_last_match (l : string) : option string :=
  last (map snd (List.filter (fun r => fst r l) spec_capture_rules)).

(** The URL a start tag gives through the poster block: a [div] with a
    poster, thumbnail or image class whose style has a background image. *)
Definition poster_class_match (tag : string) (ad : gmap string (option string))
    : option string :=
  if String.eqb tag "div" && has_key "class" ad then
    match get_attr "class" ad, get_attr "style" ad with
    | Some classes, Some style =>
        let l := Str.lower classes in
        if Str.contains "poster" l || Str.contains "thumbnail" l || Str.contains "image" l
        then Re.bg_url style else None
    | _, _ => None
    end
  else None.

(** ** Example documents, as the events of their markup *)

(** [unquote] on a string that holds no percent escape. *)
Definition unquote_plain (s : string) : string := s.

(** [<a class="meta-item-container" href=...>] *)
Definition container (href : string) : event :=
  StartTag "a" [("class", Some "meta-item-container"); ("href", Some href)].

(** [<div class=... style=...>] *)
Definition styled_div (classes style : string) : event :=
  StartTag "div" [("class", Some classes); ("style", Some style)].

Definition doc_progress_150 : list event :=
  [container "#/detail/movie/tt1234567";
   styled_div "progress-bar" "width: 150%"; EndTag "div";
   EndTag "a"].

Definition doc_season_0 : list event :=
  [container "#/detail/series/tt7654321:0:0"; EndTag "a"].

Definition doc_no_title : list event :=
  [container "#/detail/movie/tt1234567"; EndTag "a"].

Definition doc_two_posters : list event :=
  [container "#/detail/movie/tt1234567";
   styled_div "poster" "background-image: url(http://img/first.png)"; EndTag "div";
   styled_div "poster" "background-image: url(http://img/second.png)"; EndTag "div";
   EndTag "a"].

Definition doc_open_item : list event :=
  [container "#/detail/movie/tt1234567"].

Definition doc_open_poster : list event :=
  [container "#/detail/movie/tt1234567";
   styled_div "poster" "background-image: url(http://img/first.png)"; EndTag "div"].

(** The state after a scan that raises nothing. *)
Definition scanned (evs : list event) : parser :=
  match feed unquote_plain evs init with
  | Ok p => p
  | Raise _ => init
  end.

Definition doc_episode : list event :=
  [container "#/detail/series/tt7654321:2:5";
   styled_div "progress-bar" "width: 45.5%"; EndTag "div";
   EndTag "a"].

Definition doc_progress_30 : list event :=
  [container "#/detail/movie/tt0000030";
   styled_div "progress-bar" "width: 30%"; EndTag "div";
   EndTag "a"].

Definition doc_progress_60 : list event :=
  [container "#/detail/movie/tt0000060";
   styled_div "progress-bar" "width: 60%"; EndTag "div";
   EndTag "a"].

Definition poster_attrs : attrs :=
  [("class", Some "poster"); ("style", Some "background-image: url(http://img/second.png)")].

Definition episode_title_attrs : attrs := [("class", Some "episode-title")].

Definition container_attrs : attrs :=
  [("class", Some "meta-item-container"); ("href", Some "#/detail/movie/tt7654321")].

(** A clock that always reads the same time. *)
Definition clock0 (n : nat) : string := "2024-01-01T00:00:00".

(** A tokenizer for one document. *)
Definition tokens_of (evs : list event) (html : string) : list event := evs.

(** [--min-progress 50] and the defaults. *)
Definition args_min_50 : args := mkArgs false false false (float_of_decimal 50 0).

(** The state after one more start tag, and the open item of a state. *)
Definition after_start (tag : string) (a : attrs) (p : parser) : parser :=
  match handle_starttag unquote_plain tag a p with
  | Ok p' => p'
  | Raise _ => p
  end.

Definition open_of (p : parser) : dict := default ∅ (open_item p).

Definition has_open_item (p : parser) : bool :=
  match open_item p with Some _ => true | None => false end.

(** The first item of a scan. *)
Definition first_item (evs : list event) : dict := hd ∅ (items (scanned evs)).

(** ** Definitions used by the further properties *)

(** [if b: t[k] = v] *)
Definition ins_if (b : bool) (k : string) (v : pyval) (t : dict) : dict :=
  if b then <[k := v]> t else t.

(** The entry [convert_to_trakt_format] builds for [item], given the watched
    status [w], whether the progress is above 0 ([hp]) and the clock
    readings. *)
Definition trakt_item_of (now_isoformat : nat -> string) (add mark : bool)
    (item : dict) (tick : nat) (w : pyval) (hp : bool) : dict :=
  let t := <["type" := get "type" VNone item]> (
           <["imdb_id" := get "imdb_id" VNone item]> ∅) in
  let t := copy_if_truthy "title" "title" item t in
  let ep := is_not_none (get "season" VNone item)
            && is_not_none (get "episode" VNone item) in
  let t := ins_if ep "episode" (get "episode" VNone item) (
           ins_if ep "season" (get "season" VNone item) (
           ins_if ep "type" (VStr "episode") t)) in
  let t := ins_if add "watchlisted_at" (VStr (now_isoformat tick +:+ "Z")) t in
  let t := ins_if (truthy w) "watched_at"
             (VStr (if mark then "unknown"
                    else now_isoformat (if add then S tick else tick) +:+ "Z")) t in
  let t := copy_if_truthy "href" "_href" item t in
  let t := copy_if_truthy "poster_url" "_poster_url" item t in
  let t := ins_if hp "_progress" (get "progress" (VInt 0) item) t in
  let t := copy_if_truthy "year" "_year" item t in
  let t := copy_if_truthy "duration" "_duration" item t in
  copy_if_truthy "episode_title" "_episode_title" item t.

(** The number of clock readings one item takes. *)
Definition clock_reads (add mark : bool) (w : pyval) : nat :=
  ((if add then 1 else 0) + (if truthy w && negb mark then 1 else 0))%nat.

(** The fields of the destination schema that [format_for_trakt_import]
    writes. *)
Definition schema_keys : list string :=
  ["imdb_id"; "type"; "title"; "watched_at"; "watchlisted_at"; "rating";
   "rated_at"; "season"; "episode"].

(** The diagnostic fields and the item fields they come from. *)
Definition diagnostic_fields : list (string * string) :=
  [("href", "_href"); ("poster_url", "_poster_url"); ("year", "_year");
   ("duration", "_duration"); ("episode_title", "_episode_title")].

(** A value with [None] read as no value. *)
Definition not_none (o : option pyval) : option pyval :=
  match o with Some VNone => None | _ => o end.

(** The entry [format_for_trakt_import] builds before it copies the
    diagnostic fields. *)
Definition format_base (t : dict) (imdb_id type : pyval) : dict :=
  let e := <["type" := type]> (<["imdb_id" := imdb_id]> ∅) in
  let e := copy_if_truthy "title" "title" t e in
  let e := copy_if_present "watched_at" t e in
  let e := copy_if_present "watchlisted_at" t e in
  let e := if has_key "rating" t
           then copy_if_present "rated_at" t (copy_if_present "rating" t e)
           else e in
  if bool_decide (type = VStr "episode")
  then <["episode" := get "episode" VNone t]> (<["season" := get "season" VNone t]> e)
  else e.

(** The fields that hold text. *)
Definition text_fields : list string :=
  ["poster_url"; "poster_shape"; "title"; "release_info"; "duration"; "episode_title"].

(** What the handlers store in the open item, with where the value comes
    from: the progress from [float()] of a width, the year from the year
    pattern. *)
Inductive fwrite : string -> pyval -> Prop :=
  | F_is_watched : fwrite "is_watched" (VBool true)
  | F_progress s f : py_float s = Ok f -> fwrite "progress" (VFloat f)
  | F_text k s : k ∈ text_fields -> fwrite k (VStr s)
  | F_year text g0 : Re.year text = Some g0 -> fwrite "year" (VInt (Str.int_of_digits g0)).

Inductive fwrites : dict -> dict -> Prop :=
  | fwrites_refl d : fwrites d d
  | fwrites_step d d' k v : fwrites d d' -> fwrite k v -> fwrites d (<[k := v]> d').

Definition fstep (p p' : parser) : Prop :=
  items p' = items p
  /\ in_meta_item p' = in_meta_item p
  /\ match current_item p, current_item p' with
     | Some it, Some it' => fwrites it it'
     | None, None => True
     | _, _ => False
     end.

(** The item a container start tag creates from its attributes and the
    matches of the identifier pattern on its link target. *)
Definition root_item (ad : gmap string (option string))
    (href media_type imdb_id : string) : dict :=
  store_data_attrs ad
    (set_episode (Re.episode href)
       (new_item imdb_id media_type (get_attr "title" ad) (Some href))).

(** A start tag that starts an item: an [a] whose class has the container
    marker and whose link target has an identifier. *)
Definition container_start (e : event) : bool :=
  match e with
  | StartTag tag a =>
      String.eqb tag "a"
      && match get_attr "class" (dict_of_attrs a), get_attr "href" (dict_of_attrs a) with
         | Some classes, Some href =>
             Str.contains "meta-item-container" classes
             && match Re.imdb href with Some _ => true | None => false end
         | _, _ => false
         end
  | _ => false
  end.

(** [1] when an item is open. *)
Definition open_count (p : parser) : nat :=
  match current_item p with Some _ => 1%nat | None => 0%nat end.

(** [show] for a series, [movie] otherwise. *)
Definition kind_of (media_type : string) : string :=
  if String.eqb media_type "series" then "show" else "movie".

(** The identifier, the kind, the season and the episode of an item are the
    ones its link target gives. *)
Definition from_link_target (absent : option pyval) (it : dict) : Prop :=
  exists href media_type imdb_id,
    it !! "href" = Some (VStr href)
    /\ Re.imdb href = Some (media_type, imdb_id)
    /\ it !! "imdb_id" = Some (VStr imdb_id)
    /\ it !! "type" = Some (VStr (kind_of media_type))
    /\ match Re.episode href with
       | Some (se, ep) =>
           it !! "season" = Some (VInt (Str.int_of_digits se))
           /\ it !! "episode" = Some (VInt (Str.int_of_digits ep))
       | None => it !! "season" = absent /\ it !! "episode" = absent
       end.

(** The year of an item, when it has one, is an integer from 1900 to 2099. *)
Definition year_in_range (absent : option pyval) (it : dict) : Prop :=
  it !! "year" = absent
  \/ exists y, it !! "year" = Some (VInt y) /\ 1900 <= y <= 2099.

(** A string of one or more decimal digits. *)
Definition digits (s : string) : bool :=
  Str.nonempty s && forallb Str.is_digit (list_ascii_of_string s).

(** The fields the handlers read with [item[k]]. *)
Definition keyed (it : dict) : Prop :=
  is_Some (it !! "title") /\ is_Some (it !! "poster_url").

Definition keyed_open (p : parser) : Prop :=
  forall it, current_item p = Some it -> keyed it.

(** An event whose attributes all have a value, whose width, if its style
    has one, is a decimal number, and whose season and episode, if its link
    target has them, have at most 640 digits each: [int()] returns on such a
    string whatever limit on the digits of an integer is configured (the
    limit is none, or at least 640; 4300 unless configured). *)
Definition plain_event (e : event) : bool :=
  match e with
  | StartTag _ a =>
      forallb (fun kv : string * option string =>
                 match kv.2 with Some _ => true | None => false end) a
      && match get_attr "style" (dict_of_attrs a) with
         | Some style =>
             match Re.width style with
             | Some g1 => match py_float g1 with Ok _ => true | Raise _ => false end
             | None => true
             end
         | None => true
         end
      && match get_attr "href" (dict_of_attrs a) with
         | Some href =>
             match Re.episode href with
             | Some (se, ep) =>
                 (String.length se <=? 640)%nat && (String.length ep <=? 640)%nat
             | None => true
             end
         | None => true
         end
  | _ => true
  end.

(** The open item, if any, has the title [t]. *)
Definition title_open (t : pyval) (p : parser) : Prop :=
  forall it, current_item p = Some it -> it !! "title" = Some t.

(** A start tag of a [div] whose class has the watched icon marker. *)
Definition watched_markup (e : event) : bool :=
  match e with
  | StartTag tag a =>
      String.eqb tag "div"
      && match get_attr "class" (dict_of_attrs a) with
         | Some classes => Str.contains "watched-icon-layer" classes
         | None => false
         end
  | _ => false
  end.

(** The watched flag of an item is the boolean [b]. *)
Definition watched_is (b : bool) (it : dict) : Prop :=
  it !! "is_watched" = Some (VBool b).

Definition unwatched_open (p : parser) : Prop :=
  forall it, current_item p = Some it -> watched_is false it.

(** The text fields of an item are strings, where they have a value. *)
Definition text_typed (absent : option pyval) (it : dict) : Prop :=
  forall k, k ∈ text_fields -> it !! k = absent \/ exists s, it !! k = Some (VStr s).

(** ** Further examples *)

(** The result of a computation that raises nothing. *)
Definition is_ok {A} (r : res A) : bool :=
  match r with Ok _ => true | Raise _ => false end.

Definition value_or {A} (d : A) (r : res A) : A :=
  match r with Ok a => a | Raise _ => d end.

(** The defaults of the command line. *)
Definition args_default : args := mkArgs false false false (S754_zero false).

(** A converted item with a diagnostic field and a field of neither kind. *)
Definition converted_episode : dict :=
  <["_href" := VStr "#/detail/series/tt7654321:2:5"]> (
  <["note" := VStr "kept out"]> (
  <["episode" := VInt 5]> (
  <["season" := VInt 2]> (
  <["type" := VStr "episode"]> (
  <["imdb_id" := VStr "tt7654321"]> ∅))))).

(** [<a class="meta-item-container" title="Dune" data-id="7" href=...>] and
    markup with other titles inside it. *)
Definition titled_attrs : attrs :=
  [("class", Some "meta-item-container"); ("title", Some "Dune");
   ("data-id", Some "7"); ("data-seen", None);
   ("href", Some "#/detail/movie/tt1160419")].

Definition doc_other_titles : list event :=
  [StartTag "img" [("alt", Some "Another")];
   StartTag "span" [("class", Some "title-label")]; Data "A third"; EndTag "span"].

Definition doc_year : list event :=
  [container "#/detail/movie/tt1160419";
   StartTag "span" [("class", Some "release-date")]; Data " 2021 "; EndTag "span";
   EndTag "a"].

(** [<a class>], [<div class="progress-bar" style="width: 1.2.3%">] and a
    container whose link target has no identifier. *)
Definition valueless_class : attrs := [("class", None)].

Definition malformed_width : attrs :=
  [("class", Some "progress-bar"); ("style", Some "width: 1.2.3%")].

Definition addons_link : attrs :=
  [("class", Some "meta-item-container"); ("href", Some "#/addons")].

(** ** The markup span of an entity *)

(** The span of an entity: the attributes of its container start tag and
    the events that follow it, up to the end tag that finalizes the
    entity. *)
Definition span : Type := attrs * list event.

Definition extend (e : event) (cur : option span) : option span :=
  match cur with
  | Some (a, body) => Some (a, (body ++ [e])%list)
  | None => None
  end.

(** The spans of the entities of a document, in the order of the output.
    [cur] is the span of the open entity.  A container start tag (an [a]
    with the container class and an identifier in its link target) starts a
    span and drops the one that was open; the end tag of an [a] closes the
    open span; every other event belongs to the open span. *)
Fixpoint spans (cur : option span) (evs : list event) : list span :=
  match evs with
  | [] => []
  | e :: evs' =>
      match e with
      | StartTag _ a =>
          if container_start e then spans (Some (a, [])) evs'
          else spans (extend e cur) evs'
      | EndTag tag =>
          if String.eqb tag "a"
          then match cur with
               | Some s => s :: spans None evs'
               | None => spans None evs'
               end
          else spans (extend e cur) evs'
      | Data _ => spans (extend e cur) evs'
      end
  end.

(** The scanner follows the open span: an item is open exactly when a span
    is, and [R] relates the two. *)
Definition tracks (R : dict -> span -> Prop) (p : parser) (cur : option span) : Prop :=
  match cur with
  | Some s => in_meta_item p = true /\ exists it, open_item p = Some it /\ R it s
  | None => current_item p = None
  end.

(** *** The poster URL of a span *)

(** A poster URL that is unset: empty or [None]. *)
Definition poster_unset (cur : pyval) : bool := negb (truthy cur).

(** The source of an image element, when it is not empty. *)
Definition image_source (tag : string) (ad : gmap string (option string))
    : option string :=
  if String.eqb tag "img" then
    match get_attr "src" ad with
    | Some src => if Str.nonempty src then Some src else None
    | None => None
    end
  else None.

(** The URL of the background image of the inline style of an element. *)
Definition inline_background (ad : gmap string (option string)) : option string :=
  match get_attr "style" ad with
  | Some style => Re.bg_url style
  | None => None
  end.

(** The poster URL after a start tag, from the one before it: a [div] with
    a poster, thumbnail or image class and a background image always sets
    it; then an image source, then the background image of any inline
    style, each only while the poster URL is unset. *)
Definition spec_poster (unquote : string -> string) (tag : string)
    (ad : gmap string (option string)) (cur : pyval) : pyval :=
  let cur := match poster_class_match tag ad with
             | Some u => VStr (unquote u)
             | None => cur
             end in
  let cur := match image_source tag ad with
             | Some src => if poster_unset cur then VStr (unquote src) else cur
             | None => cur
             end in
  match inline_background ad with
  | Some u => if poster_unset cur then VStr (unquote u) else cur
  | None => cur
  end.

Definition spec_poster_event (unquote : string -> string) (cur : pyval) (e : event)
    : pyval :=
  match e with
  | StartTag tag a => spec_poster unquote tag (dict_of_attrs a) cur
  | _ => cur
  end.

(** The poster URL of the entity of a span: [None] at first, then updated
    by every start tag of the span in order, the container's own first. *)
Definition span_poster (unquote : string -> string) (s : span) : pyval :=
  fold_left (spec_poster_event unquote) (StartTag "a" s.1 :: s.2) VNone.

Definition has_poster (unquote : string -> string) (it : dict) (s : span) : Prop :=
  it !! "poster_url" = Some (span_poster unquote s).

(** *** The defaults of a span *)

(** An event that can give an entity a title: an image with an alt text
    that is not empty, or a text that is not blank. *)
Definition title_source (e : event) : bool :=
  match e with
  | StartTag tag a =>
      String.eqb tag "img"
      && match get_attr "alt" (dict_of_attrs a) with
         | Some alt => Str.nonempty alt
         | None => false
         end
  | Data data => Str.nonempty (Str.strip data)
  | EndTag _ => false
  end.

(** The title attribute of a container: the empty string when there is no
    such attribute, [None] when it is written without a value. *)
Definition root_title (a : attrs) : pyval := of_attr (get_attr "title" (dict_of_attrs a)).

(** The fields of an item that keep their default when the span of the
    item has nothing to set them: the title of the container, the watched
    flag [False], the progress [0].  [absent] is what a title of [None]
    reads as. *)
Definition span_defaults (absent : option pyval -> option pyval) (it : dict) (s : span)
    : Prop :=
  (Forall (fun e => title_source e = false) s.2 ->
   it !! "title" = absent (Some (root_title s.1)))
  /\ (Forall (fun e => watched_markup e = false) s.2 ->
      it !! "is_watched" = Some (VBool false))
  /\ (Forall (fun e => progress_markup e = false) s.2 ->
      it !! "progress" = Some (VInt 0)).

(** *** Examples *)

(** A container with a background image in its own style and an image
    inside it; a container whose title attribute has no value. *)
Definition doc_root_style : list event :=
  [StartTag "a" [("class", Some "meta-item-container");
                 ("href", Some "#/detail/movie/tt1234567");
                 ("style", Some "background-image: url(http://img/root.png)")];
   StartTag "img" [("src", Some "http://img/late.png")];
   EndTag "a"].

Definition doc_valueless_title : list event :=
  [StartTag "a" [("class", Some "meta-item-container"); ("title", None);
                 ("href", Some "#/detail/movie/tt1234567")];
   EndTag "a"].

(** * Properties *)

(** ** Strings *)

Lemma lstrip_whitespace s :
  whitespace_only s = true -> Str.lstrip s = "".
Proof.
  unfold whitespace_only. induction s as [|c r IH]; simpl; [done|].
  intros [Hc Hr]%andb_prop. rewrite Hc. auto.
Qed.

Lemma lstrip_other s :
  whitespace_only s = false ->
  exists c r, Str.lstrip s = String c r /\ Str.is_space c = false.
Proof.
  unfold whitespace_only. induction s as [|c r IH]; simpl; [done|].
  destruct (Str.is_space c) eqn:Hc; simpl; eauto.
Qed.

Lemma rstrip_other c r :
  Str.is_space c = false -> Str.rstrip (String c r) <> "".
Proof.
  intros Hc. simpl. destruct (Str.rstrip r); [rewrite Hc|]; discriminate.
Qed.

Lemma strip_empty_iff s :
  Str.nonempty (Str.strip s) = false <-> whitespace_only s = true.
Proof.
  unfold Str.strip. destruct (whitespace_only s) eqn:Hw.
  - rewrite (lstrip_whitespace s Hw). done.
  - destruct (lstrip_other s Hw) as (c & r & -> & Hc).
    pose proof (rstrip_other c r Hc) as Hne.
    destruct (Str.rstrip (String c r)); [done|]. simpl. split; discriminate.
Qed.

(** ** The command *)

(** C9: the run ends with the EmptyInput failure (exit status 1, the
    diagnostic alone, nothing written) exactly when the input document is
    empty or whitespace-only, whatever the scanner would do on it. *)
Theorem main_empty_input unquote tokenize now_isoformat a html_content :
  main unquote tokenize now_isoformat a html_content = Exit 1 [EmptyInput]
  <-> whitespace_only html_content = true.
Proof.
  rewrite <- strip_empty_iff. unfold main.
  destruct (Str.nonempty (Str.strip html_content)); simpl.
  - split; [|discriminate].
    destruct (parse_stremio_html _ _ _) as [[|it l]|e]; try discriminate.
    destruct (export _ _ _) as [[? ?]|?]; discriminate.
  - done.
Qed.

(** ** The transformer *)

Lemma dict_insert_ne (d : dict) k j v : k <> j -> <[k := v]> d !! j = d !! j.
Proof. apply lookup_insert_ne. Qed.

Lemma dict_insert_eq (d : dict) k v : <[k := v]> d !! k = Some v.
Proof. apply lookup_insert_eq. Qed.

Lemma lookup_copy_if_truthy_ne k k' item t j :
  k' <> j -> copy_if_truthy k k' item t !! j = t !! j.
Proof.
  intros Hne. unfold copy_if_truthy.
  destruct (truthy _); [rewrite lookup_insert_ne|]; done.
Qed.

Lemma lookup_copy_if_present_ne k item t j :
  k <> j -> copy_if_present k item t !! j = t !! j.
Proof.
  intros Hne. unfold copy_if_present.
  destruct (item !! k); [rewrite lookup_insert_ne|]; done.
Qed.

Lemma lookup_copy_if_present_eq k item t :
  t !! k = None -> copy_if_present k item t !! k = item !! k.
Proof.
  intros Hk. unfold copy_if_present.
  destruct (item !! k); [rewrite lookup_insert_eq|]; done.
Qed.

Ltac lookups :=
  repeat first
    [ rewrite lookup_copy_if_truthy_ne by discriminate
    | rewrite lookup_copy_if_present_ne by discriminate
    | rewrite dict_insert_ne by discriminate
    | rewrite dict_insert_eq ].

Lemma map_fold_insert_lookup {V} (cond : string -> V -> bool) (val : V -> pyval)
    (e : dict) (m : gmap string V) j :
  (forall v, cond j v = false) ->
  map_fold (fun key value e => if cond key value then <[key := val value]> e else e)
           e m !! j = e !! j.
Proof.
  intros Hj.
  apply (map_fold_weak_ind (fun r _ => r !! j = e !! j)); [done|].
  intros i x m' r _ IH.
  destruct (cond i x) eqn:Hi; [|done].
  rewrite lookup_insert_ne; [done|]. intros ->. by rewrite Hj in Hi.
Qed.

Lemma present_get k item :
  present k item = is_not_none (get k VNone item).
Proof.
  unfold present, get, is_not_none.
  destruct (item !! k) as [[]|]; done.
Qed.

Lemma numeric_progress_num item :
  numeric_progress item = true -> is_Some (num_of (get "progress" (VInt 0) item)).
Proof. unfold numeric_progress. destruct (num_of _); [eauto|done]. Qed.

Lemma py_cmp_total test v w :
  is_Some (num_of v) -> is_Some (num_of w) -> exists b, py_cmp test v w = Ok b.
Proof.
  intros [x Hx] [y Hy]. unfold py_cmp. rewrite Hx, Hy. eauto.
Qed.

Lemma py_gt_int_total item n :
  numeric_progress item = true ->
  exists b, py_gt (get "progress" (VInt 0) item) (VInt n) = Ok b.
Proof.
  intros Hn%numeric_progress_num. apply py_cmp_total; [done|by eexists].
Qed.

Lemma py_ge_float_total item f :
  numeric_progress item = true ->
  exists b, py_ge (get "progress" (VInt 0) item) (VFloat f) = Ok b.
Proof.
  intros Hn%numeric_progress_num. apply py_cmp_total; [done|].
  destruct f; by eexists.
Qed.

Lemma is_watched_total item :
  numeric_progress item = true -> exists w, is_watched item = Ok w.
Proof.
  intros Hn. unfold is_watched, py_or.
  destruct (truthy _); [eauto|].
  destruct (py_gt_int_total item 90 Hn) as [b ->]. cbn. eauto.
Qed.

(** The watched status is the marker or a progress above 90. *)
Lemma is_watched_spec item w :
  is_watched item = Ok w ->
  truthy w = true <->
  truthy (get "is_watched" (VBool false) item) = true
  \/ py_gt (get "progress" (VInt 0) item) (VInt 90) = Ok true.
Proof.
  unfold is_watched, py_or.
  destruct (truthy (get "is_watched" _ item)) eqn:Hm.
  - intros [= <-]. rewrite Hm. tauto.
  - destruct (py_gt _ _) as [b|]; cbn; [|done].
    intros [= <-]. simpl. split; [intros ->; by right|].
    intros [|[= ->]]; done.
Qed.

Section Transformer.
Variable now_isoformat : nat -> string.

Ltac convert_cases H :=
  (destruct (is_watched _) as [?w|]; cbn in H;
     [destruct (truthy _) eqn:?Hw; cbn in H|done]);
  (destruct (py_gt _ _) as [[]|]; cbn in H; [| |done]);
  injection H as <- <-.

Lemma convert_item_total add mark item tick :
  numeric_progress item = true ->
  exists t tick', convert_item now_isoformat add mark item tick = Ok (t, tick').
Proof.
  intros Hn. unfold convert_item.
  destruct (is_watched_total item Hn) as [w ->].
  destruct (py_gt_int_total item 0 Hn) as [b ->].
  destruct add, mark, (is_not_none _ && is_not_none _); cbn;
    destruct (truthy w); cbn; eauto.
Qed.

Lemma convert_item_type add mark item tick t tick' :
  convert_item now_isoformat add mark item tick = Ok (t, tick') ->
  t !! "type" = Some (if present "season" item && present "episode" item
                      then VStr "episode" else get "type" VNone item).
Proof.
  rewrite !present_get. unfold convert_item. intros H.
  destruct add, mark, (is_not_none _ && is_not_none _);
    convert_cases H; lookups; done.
Qed.

Lemma convert_item_imdb_id add mark item tick t tick' :
  convert_item now_isoformat add mark item tick = Ok (t, tick') ->
  t !! "imdb_id" = Some (get "imdb_id" VNone item).
Proof.
  unfold convert_item. intros H.
  destruct add, mark, (is_not_none _ && is_not_none _);
    convert_cases H; lookups; done.
Qed.

Lemma convert_item_watched_at add mark item tick t tick' w :
  convert_item now_isoformat add mark item tick = Ok (t, tick') ->
  is_watched item = Ok w ->
  t !! "watched_at" =
    if truthy w
    then Some (VStr (if mark then "unknown"
                     else now_isoformat (if add then S tick else tick) +:+ "Z"))
    else None.
Proof.
  unfold convert_item. intros H Hw. rewrite Hw in H. cbn in H.
  destruct add, mark, (is_not_none _ && is_not_none _), (truthy w);
    cbn in H; (destruct (py_gt _ _) as [[]|]; cbn in H; [| |done]);
    injection H as <- <-; lookups; done.
Qed.

Lemma format_item_total t :
  is_Some (t !! "imdb_id") -> is_Some (t !! "type") -> exists e, format_item t = Ok e.
Proof.
  intros [i Hi] [ty Ht]. unfold format_item, getitem. rewrite Hi, Ht. cbn. eauto.
Qed.

(** The fields the formatter copies unchanged. *)
Lemma format_item_lookup t e j :
  format_item t = Ok e ->
  j = "type" \/ j = "watched_at" \/ j = "imdb_id" ->
  e !! j = t !! j.
Proof.
  unfold format_item, getitem. intros H Hj.
  destruct (t !! "imdb_id") as [i|] eqn:Hi; cbn in H; [|done].
  destruct (t !! "type") as [ty|] eqn:Ht; cbn in H; [|done].
  injection H as <-.
  rewrite (map_fold_insert_lookup
             (fun key value => Str.startswith "_" key && is_not_none value) id)
    by (destruct Hj as [->|[->| ->]]; reflexivity).
  destruct Hj as [->|[->| ->]];
    destruct (has_key "rating" t), (bool_decide _); lookups;
    try rewrite lookup_copy_if_present_eq by (lookups; done); congruence.
Qed.

(** C2: the output kind is [episode] when both season and episode are
    present on the entity, and its original classification otherwise; so,
    for a movie or show, it is [episode] exactly when both are present.  The
    formatter keeps the kind. *)
Theorem transformer_kind add mark item tick :
  numeric_progress item = true ->
  exists t tick' e,
    convert_item now_isoformat add mark item tick = Ok (t, tick')
    /\ format_item t = Ok e
    /\ t !! "type" = Some (if present "season" item && present "episode" item
                           then VStr "episode" else get "type" VNone item)
    /\ e !! "type" = t !! "type"
    /\ (get "type" VNone item <> VStr "episode" ->
        e !! "type" = Some (VStr "episode")
        <-> present "season" item && present "episode" item = true).
Proof.
  intros Hn.
  destruct (convert_item_total add mark item tick Hn) as (t & tick' & Hc).
  pose proof (convert_item_type _ _ _ _ _ _ Hc) as Ht.
  pose proof (convert_item_imdb_id _ _ _ _ _ _ Hc) as Hi.
  destruct (format_item_total t) as [e He]; [by eexists..|].
  pose proof (format_item_lookup t e "type" He (or_introl eq_refl)) as Hty.
  exists t, tick', e. repeat split; try done.
  - rewrite Hty, Ht. destruct (present "season" item && present "episode" item);
      [done|congruence].
  - rewrite Hty, Ht. by intros ->.
Qed.

(** C1: the watched status is (watched marker, or progress above 90); a
    watched entry gets [watched_at = "unknown"] when unknown dates are to be
    marked and the clock reading followed by [Z] otherwise; an entry that is
    not watched has no [watched_at].  The formatter keeps the field. *)
Theorem transformer_watched_at add mark item tick :
  numeric_progress item = true ->
  exists t tick' w,
    convert_item now_isoformat add mark item tick = Ok (t, tick')
    /\ is_watched item = Ok w
    /\ (truthy w = true <->
        truthy (get "is_watched" (VBool false) item) = true
        \/ py_gt (get "progress" (VInt 0) item) (VInt 90) = Ok true)
    /\ t !! "watched_at" =
         (if truthy w
          then Some (VStr (if mark then "unknown"
                           else now_isoformat (if add then S tick else tick) +:+ "Z"))
          else None)
    /\ exists e, format_item t = Ok e /\ e !! "watched_at" = t !! "watched_at".
Proof.
  intros Hn.
  destruct (convert_item_total add mark item tick Hn) as (t & tick' & Hc).
  destruct (is_watched_total item Hn) as [w Hw].
  exists t, tick', w. split; [done|]. split; [done|].
  split; [by apply is_watched_spec|].
  split; [by eapply convert_item_watched_at|].
  pose proof (convert_item_type _ _ _ _ _ _ Hc) as Ht.
  pose proof (convert_item_imdb_id _ _ _ _ _ _ Hc) as Hi.
  destruct (format_item_total t) as [e He]; [by eexists..|].
  exists e. split; [done|]. apply format_item_lookup; auto.
Qed.

Lemma convert_from_spec add mark l tick :
  Forall (fun i => numeric_progress i = true) l ->
  exists ts tick',
    convert_from now_isoformat add mark l tick = Ok (ts, tick')
    /\ Forall2 (fun item t => exists k k',
                  convert_item now_isoformat add mark item k = Ok (t, k')) l ts.
Proof.
  intros Hl. revert tick. induction Hl as [|item l Hn _ IH]; intros tick.
  - exists [], tick. split; [done|constructor].
  - destruct (convert_item_total add mark item tick Hn) as (t & tick1 & Hc).
    destruct (IH tick1) as (ts & tick2 & Hcs & Hall).
    exists (t :: ts), tick2. cbn. rewrite Hc. cbn. rewrite Hcs. cbn.
    split; [done|]. constructor; eauto.
Qed.

Lemma format_converted add mark l ts :
  Forall2 (fun item t => exists k k',
             convert_item now_isoformat add mark item k = Ok (t, k')) l ts ->
  exists out,
    format_for_trakt_import ts = Ok out
    /\ Forall2 (fun item e => exists k t k',
                  convert_item now_isoformat add mark item k = Ok (t, k')
                  /\ format_item t = Ok e) l out.
Proof.
  induction 1 as [|item t l ts (k & k' & Hc) _ (out & Ho & Hall)].
  - exists []. split; [done|constructor].
  - pose proof (convert_item_type _ _ _ _ _ _ Hc) as Ht.
    pose proof (convert_item_imdb_id _ _ _ _ _ _ Hc) as Hi.
    destruct (format_item_total t) as [e He]; [by eexists..|].
    exists (e :: out). unfold format_for_trakt_import in *. cbn.
    rewrite He. cbn. rewrite Ho. cbn. split; [done|].
    constructor; [|done]. eauto.
Qed.

End Transformer.

Lemma filter_res_spec {A} (P : A -> Prop) (f : A -> res bool) (l : list A) :
  Forall P l ->
  (forall a, P a -> exists b, f a = Ok b) ->
  exists r, filter_res f l = Ok r
            /\ r `sublist_of` l
            /\ Forall P r
            /\ Forall (fun a => f a = Ok true) r.
Proof.
  intros Hl Hf. induction Hl as [|a l Ha _ (r & Hr & Hsub & HP & Hall)].
  - exists []. repeat split; constructor.
  - destruct (Hf a Ha) as [b Hb]. cbn. rewrite Hb, Hr. cbn. destruct b.
    + exists (a :: r). repeat split; try constructor; done.
    + exists r. repeat split; try done. by constructor.
Qed.

Lemma count_res_total (P : dict -> Prop) f l :
  Forall P l -> (forall a, P a -> exists b, f a = Ok b) ->
  exists n, count_res f l = Ok n.
Proof.
  intros Hl Hf. destruct (filter_res_spec P f l Hl Hf) as (r & Hr & _).
  unfold count_res. rewrite Hr. cbn. eauto.
Qed.

(** C5: the filters run before the conversion, and what they drop has no
    entry at all: the output entries are, in order, the entries of the
    items that are kept, and every kept item has a progress of at least
    [min_progress] (when that is above 0) and is watched (marker, or
    progress above 90) when [watched_only] is set. *)
Theorem export_filters now_isoformat a l :
  Forall (fun i => numeric_progress i = true) l ->
  exists stderr output kept,
    export now_isoformat a l = Ok (stderr, output)
    /\ kept `sublist_of` l
    /\ Forall2 (entry_of now_isoformat a) kept output
    /\ Forall (passes_filters a) kept.
Proof.
  set (P := fun i : dict => numeric_progress i = true).
  intros Hl. unfold export.
  destruct (count_res_total P
    (fun i => Ok (bool_decide (get "type" VNone i = VStr "movie"))) l Hl)
    as [n1 ->]; [eauto|]. cbn.
  destruct (count_res_total P
    (fun i => Ok (bool_decide (get "type" VNone i = VStr "show")
                  && negb (truthy (get "season" VNone i)))) l Hl)
    as [n2 ->]; [eauto|]. cbn.
  destruct (count_res_total P
    (fun i => Ok (is_not_none (get "season" VNone i))) l Hl)
    as [n3 ->]; [eauto|]. cbn.
  destruct (count_res_total P
    (fun i => w ← py_or (get "is_watched" VNone i)
                  (b ← py_gt (get "progress" (VInt 0) i) (VInt 90); Ok (VBool b));
              Ok (truthy w)) l Hl) as [n4 ->].
  { intros i Hi. unfold py_or. destruct (truthy (get "is_watched" VNone i)).
    - cbn. eauto.
    - destruct (py_gt_int_total i 90 Hi) as [b ->]. cbn. eauto. }
  cbn.
  assert (exists b, py_gt (VFloat (min_progress a)) (VInt 0) = Ok b) as [bm Hbm].
  { apply py_cmp_total; [destruct (min_progress a)|]; by eexists. }
  rewrite Hbm. cbn.
  assert (exists l1, (if bm then filter_res (fun item => py_ge (get "progress" (VInt 0) item)
                                   (VFloat (min_progress a))) l else Ok l) = Ok l1
            /\ l1 `sublist_of` l /\ Forall P l1
            /\ Forall (fun item => bm = true ->
                 py_ge (get "progress" (VInt 0) item) (VFloat (min_progress a)) = Ok true) l1)
    as (l1 & -> & Hs1 & HP1 & Hm1).
  { destruct bm.
    - destruct (filter_res_spec P (fun item => py_ge (get "progress" (VInt 0) item)
                  (VFloat (min_progress a))) l Hl) as (r & Hr & ? & ? & Hall).
      { intros i Hi. by apply py_ge_float_total. }
      exists r. repeat split; try done.
      eapply Forall_impl; [exact Hall|]. auto.
    - exists l. repeat split; try done. apply Forall_forall. done. }
  cbn.
  assert (exists l2, (if watched_only a
                      then filter_res (fun item => w ← is_watched item; Ok (truthy w)) l1
                      else Ok l1) = Ok l2
            /\ l2 `sublist_of` l1 /\ Forall P l2
            /\ Forall (fun item => watched_only a = true ->
                 exists w, is_watched item = Ok w /\ truthy w = true) l2)
    as (l2 & -> & Hs2 & HP2 & Hw2).
  { destruct (watched_only a).
    - destruct (filter_res_spec P (fun item => w ← is_watched item; Ok (truthy w))
                  l1 HP1) as (r & Hr & ? & ? & Hall).
      { intros i Hi. destruct (is_watched_total i Hi) as [w ->]. cbn. eauto. }
      exists r. repeat split; try done.
      eapply Forall_impl; [exact Hall|]. cbn. intros i Hi _.
      destruct (is_watched i) as [w|]; cbn in Hi; [|done].
      exists w. split; congruence.
    - exists l1. repeat split; try done. apply Forall_forall. done. }
  cbn. unfold convert_to_trakt_format.
  destruct (convert_from_spec now_isoformat (negb (no_watchlist a))
              (negb (use_current_date a)) l2 0%nat HP2) as (ts & tk & -> & Hts).
  cbn.
  destruct (format_converted now_isoformat _ _ _ _ Hts) as (out & -> & Hout).
  cbn. eexists _, out, l2. split; [done|].
  split; [by etrans|]. split.
  - eapply Forall2_impl; [exact Hout|]. intros item e (k & t & k' & ? & ?).
    by exists k, t, k'.
  - apply Forall_forall. intros item Hin. split.
    + intros Hgt. assert (bm = true) as Hb by congruence.
      assert (item ∈ l1) as Hin1 by (eapply elem_of_sublist; eauto).
      by apply (proj1 (Forall_forall _ _) Hm1 item Hin1).
    + by apply (proj1 (Forall_forall _ _) Hw2 item Hin).
Qed.

(** ** The scanner: how handlers change the state *)

Lemma bind_Ok {A B} (m : res A) (f : A -> res B) b :
  m ≫= f = Ok b -> exists a, m = Ok a /\ f a = Ok b.
Proof. destruct m as [a|e]; cbn; [eauto|done]. Qed.

Ltac inv_bind H :=
  let x := fresh "x" in
  let Hx := fresh "Hx" in
  apply bind_Ok in H; destruct H as (x & Hx & H).

Lemma writes_trans pb d1 d2 d3 : writes pb d1 d2 -> writes pb d2 d3 -> writes pb d1 d3.
Proof.
  intros H12 H23. induction H23 as [|d d' k v _ IH Hw]; [done|].
  econstructor; [by apply IH|done].
Qed.

Lemma writes_one pb d k v : write pb k v -> writes pb d (<[k := v]> d).
Proof. intros. econstructor; [constructor|done]. Qed.

Lemma writes_if pb d k v (b : bool) :
  write pb k v -> writes pb d (if b then <[k := v]> d else d).
Proof. destruct b; [apply writes_one|constructor]. Qed.

Lemma writes_nonempty pb d d' : writes pb d d' -> d <> ∅ -> d' <> ∅.
Proof. intros H Hd. destruct H; [done|]. apply insert_non_empty. Qed.

Lemma write_mono pb k v : write pb k v -> write true k v.
Proof. destruct 1; econstructor; eauto. Qed.

(** ** Strings: a lower-cased string has no upper-case letter *)

Lemma lower_char_not_B c : Str.lower_char c <> "B"%char.
Proof. destruct c as [[] [] [] [] [] [] [] []]; vm_compute; discriminate. Qed.

Lemma strip_prefix_In pre s r c :
  Str.strip_prefix pre s = Some r ->
  In c (list_ascii_of_string pre) -> In c (list_ascii_of_string s).
Proof.
  revert s. induction pre as [|a pre IH]; intros s; [done|].
  destruct s as [|b s]; cbn; [done|].
  destruct (Ascii.eqb_spec a b) as [->|]; [|done].
  intros H [->|Hin]; [by left|right; eauto].
Qed.

Lemma contains_In needle s c :
  Str.contains needle s = true ->
  In c (list_ascii_of_string needle) -> In c (list_ascii_of_string s).
Proof.
  unfold Str.contains. intros H Hc. induction s as [|b s IH].
  - cbn in H. destruct (Str.strip_prefix needle "") eqn:Hp; [|done].
    eauto using strip_prefix_In.
  - cbn in H. destruct (Str.strip_prefix needle (String b s)) eqn:Hp.
    + eauto using strip_prefix_In.
    + right. auto.
Qed.

Lemma lower_In s c :
  In c (list_ascii_of_string (Str.lower s)) -> exists c0, c = Str.lower_char c0.
Proof.
  induction s as [|b s IH]; cbn; [done|]. intros [<-|Hin]; eauto.
Qed.

Lemma contains_progressBar_lower s :
  Str.contains "progressBar" (Str.lower s) = false.
Proof.
  destruct (Str.contains _ _) eqn:H; [|done].
  apply (contains_In _ _ "B"%char) in H; [|cbn; tauto].
  apply lower_In in H as [c0 H]. symmetry in H. by apply lower_char_not_B in H.
Qed.

(** ** Floats: a decimal converts to a float that is not negative *)

Lemma shr_1_nonneg mrs : 0 <= shr_m mrs -> 0 <= shr_m (shr_1 mrs).
Proof. destruct mrs as [[|[p|p|]|p] r s]; cbn; lia. Qed.

Lemma iter_shr_1_nonneg n mrs :
  0 <= shr_m mrs -> 0 <= shr_m (SpecFloat.iter_pos shr_1 n mrs).
Proof.
  revert mrs. induction n as [n IH|n IH|]; cbn; intros mrs H;
    auto using shr_1_nonneg.
Qed.

Lemma shr_fexp_nonneg m e l :
  0 <= m -> 0 <= shr_m (fst (shr_fexp prec emax m e l)).
Proof.
  intros Hm. unfold shr_fexp, shr.
  assert (0 <= shr_m (shr_record_of_loc m l)) by (by destruct l as [|[]]).
  destruct (_ - e); cbn; auto using iter_shr_1_nonneg.
Qed.

Lemma round_nearest_even_nonneg m l : 0 <= m -> 0 <= round_nearest_even m l.
Proof.
  intros Hm. destruct l as [|[]]; cbn; try lia. destruct (Z.even m); lia.
Qed.

Lemma binary_round_aux_nonneg mx ex lx :
  0 <= mx -> nonneg_float (binary_round_aux prec emax false mx ex lx).
Proof.
  intros Hm. unfold binary_round_aux.
  pose proof (shr_fexp_nonneg mx ex lx Hm) as H1.
  destruct (shr_fexp prec emax mx ex lx) as [mrs' e']. cbn in H1.
  pose proof (shr_fexp_nonneg _ e' loc_Exact
                (round_nearest_even_nonneg _ (loc_of_shr_record mrs') H1)) as H2.
  destruct (shr_fexp prec emax _ e' loc_Exact) as [mrs'' e'']. cbn in H2.
  destruct (shr_m mrs''); [done| |lia].
  by destruct (_ <=? _).
Qed.

Lemma float_of_decimal_nonneg m k : nonneg_float (float_of_decimal m k).
Proof.
  unfold float_of_decimal. destruct m as [|p|p]; [done| |done].
  unfold SFdiv, SFdiv_core_binary.
  set (m' := match _ - _ with Z0 => Z.pos p | Z.pos _ => _ | Z.neg _ => 0 end).
  assert (0 <= m') as Hm'.
  { subst m'. destruct (_ - _); [lia| |lia]. apply Z.shiftl_nonneg. lia. }
  pose proof (Z.div_pos m' (Z.pos (pow10 k)) Hm' eq_refl) as Hq.
  unfold Z.div in Hq. destruct (Z.div_eucl m' _) as [q r]. cbn in Hq.
  by apply binary_round_aux_nonneg.
Qed.

Lemma py_float_nonneg s f : py_float s = Ok f -> nonneg_float f.
Proof.
  unfold py_float. destruct (Str.span Str.is_digit s) as [ip r].
  destruct r as [|c fp].
  - destruct (Str.nonempty ip); [|done]. intros [= <-]. apply float_of_decimal_nonneg.
  - destruct (Str.span Str.is_digit fp) as [fd r'].
    destruct (_ && _); [|done]. intros [= <-]. apply float_of_decimal_nonneg.
Qed.

Lemma nonneg_float_ge f : nonneg_float f -> py_ge (VFloat f) (VInt 0) = Ok true.
Proof.
  destruct f as [s|[]| |[] m e]; try done. intros _.
  unfold py_ge, py_cmp. cbn [num_of num_compare cond_Zopp].
  assert (0 < Z.pos m * 2 ^ (e - e `min` 0)) as H.
  { apply Z.mul_pos_pos; [lia|]. apply Z.pow_pos_nonneg; lia. }
  rewrite Z.mul_0_l. apply Z.compare_gt_iff in H. by rewrite H.
Qed.

Section Blocks.
Variable unquote : string -> string.

Lemma watched_icon_writes pb ad it it' :
  watched_icon ad it = Ok it' -> writes pb it it'.
Proof.
  unfold watched_icon. intros H. inv_bind H. injection H as <-.
  apply writes_if. constructor.
Qed.

Lemma progress_bar_writes ad it it' :
  progress_bar ad it = Ok it' -> writes (progress_class ad) it it'.
Proof.
  unfold progress_bar, progress_class. intros H. inv_bind H. inv_bind H.
  destruct x0; [|injection H as <-; constructor].
  inv_bind H. destruct x0 as [g1|]; [|injection H as <-; constructor].
  inv_bind H. injection H as <-. apply writes_one.
  apply (W_progress _ g1); [|done].
  destruct (get_attr "class" ad) as [classes|]; [|done]. injection Hx as <-.
  destruct (Str.contains "progress-bar" classes); [done|].
  cbn in Hx0. rewrite contains_progressBar_lower in Hx0. done.
Qed.

Lemma poster_style_writes pb ad it it' :
  poster_style unquote ad it = Ok it' -> writes pb it it'.
Proof.
  unfold poster_style. intros H. inv_bind H.
  destruct (_ || _); [|injection H as <-; constructor].
  inv_bind H. inv_bind H.
  assert (writes pb it (match x0 with
                     | Some g1 => <["poster_url" := VStr (unquote g1)]> it
                     | None => it end)) as Hw.
  { destruct x0; [apply writes_one|]; constructor. }
  destruct x1; [|by injection H as <-].
  inv_bind H. injection H as <-.
  destruct x1; [|done]. econstructor; [exact Hw|constructor].
Qed.

Lemma img_tag_writes pb ad it it' :
  img_tag unquote ad it = Ok it' -> writes pb it it'.
Proof.
  unfold img_tag. intros H. inv_bind H. inv_bind H. injection H as <-.
  assert (writes pb it (if x then <["poster_url" := VStr (unquote (default "" (get_attr "src" ad)))]> it
                     else it)) as Hw by (apply writes_if; constructor).
  destruct x0; [|done].
  unfold attr_and_unset in Hx0.
  destruct (get_attr "alt" ad) as [alt|]; [|done].
  econstructor; [exact Hw|constructor].
Qed.

Lemma inline_style_writes pb ad it it' :
  inline_style unquote ad it = Ok it' -> writes pb it it'.
Proof.
  unfold inline_style. intros H. inv_bind H. inv_bind H.
  destruct x0; [|injection H as <-; constructor].
  inv_bind H. injection H as <-.
  destruct x0; [apply writes_one|]; constructor.
Qed.

Lemma store_text_writes pb field text it it' :
  store_text field text it = Ok it' -> writes pb it it'.
Proof.
  unfold store_text. intros H.
  repeat case_bool_decide.
  - injection H as <-.
    destruct (Re.year text); repeat econstructor.
  - injection H as <-. apply writes_one. constructor.
  - injection H as <-. apply writes_one. constructor.
  - inv_bind H. injection H as <-.
    destruct (truthy x); [constructor|apply writes_one; constructor].
  - injection H as <-. constructor.
Qed.

Lemma item_step_refl pb p : item_step pb p p.
Proof.
  unfold item_step. destruct (current_item p); repeat split; constructor.
Qed.

Lemma item_step_trans pb p1 p2 p3 :
  item_step pb p1 p2 -> item_step pb p2 p3 -> item_step pb p1 p3.
Proof.
  unfold item_step. intros (Hi & Hm & Hc) (Hi' & Hm' & Hc').
  split; [congruence|]. split; [congruence|].
  destruct (current_item p1), (current_item p2), (current_item p3); try done.
  by eapply writes_trans.
Qed.

Lemma open_item_Some p it : open_item p = Some it -> current_item p = Some it /\ it <> ∅.
Proof.
  unfold open_item, dict_truthy. destruct (current_item p) as [d|]; [|done].
  destruct (Nat.eqb_spec (size d) 0) as [|Hne]; [done|].
  intros [= ->]. split; [done|]. by apply map_size_non_empty_iff.
Qed.

Lemma open_item_intro p it : current_item p = Some it -> it <> ∅ -> open_item p = Some it.
Proof.
  unfold open_item, dict_truthy. intros -> Hne%map_size_non_empty_iff.
  by destruct (Nat.eqb_spec (size it) 0).
Qed.

Lemma on_item_step pb (g : bool) f p p' :
  (g = true -> forall it it', f it = Ok it' -> writes pb it it') ->
  on_item g f p = Ok p' -> item_step pb p p'.
Proof.
  intros Hf. unfold on_item.
  destruct (open_item p) as [it|] eqn:Ho; [|intros [= <-]; apply item_step_refl].
  destruct g; [|intros [= <-]; apply item_step_refl].
  intros H. inv_bind H. injection H as <-.
  apply open_item_Some in Ho as [Hc _].
  unfold item_step. cbn. rewrite Hc. auto.
Qed.

Lemma capture_rule_step pb words field tag ad p p' :
  capture_rule words field tag ad p = Ok p' -> item_step pb p p'.
Proof.
  unfold capture_rule. intros H.
  destruct (open_item p); [|injection H as <-; apply item_step_refl].
  destruct (_ && _); [|injection H as <-; apply item_step_refl].
  inv_bind H. injection H as <-.
  destruct (words x); [|apply item_step_refl].
  unfold item_step. cbn. destruct (current_item p); repeat split; constructor.
Qed.

Lemma start_container_cases tag ad p p' :
  start_container tag ad p = Ok p' ->
  items p' = items p
  /\ (current_item p' = current_item p
      \/ exists imdb_id media_type href,
           current_item p' =
             Some (store_data_attrs ad
                     (set_episode (Re.episode href)
                        (new_item imdb_id media_type (get_attr "title" ad) (Some href))))).
Proof.
  unfold start_container. intros H.
  destruct (_ && _); [|injection H as <-; auto].
  inv_bind H. destruct x; [|injection H as <-; auto].
  inv_bind H. destruct x as [[media_type imdb_id]|]; [|injection H as <-; auto].
  inv_bind H. injection H as <-. cbn. split; [done|]. right.
  destruct (get_attr "href" ad) as [href|]; [|done].
  injection Hx1 as <-. eauto.
Qed.

Lemma handle_starttag_steps tag a p p' :
  handle_starttag unquote tag a p = Ok p' ->
  exists p1, start_container tag (dict_of_attrs a) p = Ok p1
             /\ item_step (progress_markup (StartTag tag a)) p1 p'.
Proof.
  unfold handle_starttag. intros H. inv_bind H. exists x. split; [done|].
  set (pb := progress_markup (StartTag tag a)).
  repeat (inv_bind H;
          match goal with
          | Hs : on_item _ _ ?a = Ok ?b |- item_step _ ?a _ =>
              apply (item_step_trans _ a b); [eapply on_item_step; [|exact Hs]|]
          | Hs : capture_rule _ _ _ _ ?a = Ok ?b |- item_step _ ?a _ =>
              apply (item_step_trans _ a b); [eapply capture_rule_step; exact Hs|]
          end);
    eauto using watched_icon_writes, poster_style_writes, img_tag_writes.
  - intros Hg it it' Hp. apply progress_bar_writes in Hp.
    subst pb. cbn. rewrite Hg. cbn. done.
  - eapply on_item_step; [|exact H]. intros _. apply inline_style_writes.
Qed.

Lemma handle_data_step data p p' :
  handle_data data p = Ok p' -> item_step false p p'.
Proof. apply on_item_step. intros _. apply store_text_writes. Qed.

Lemma handle_endtag_cases tag p p' :
  handle_endtag tag p = Ok p' ->
  (items p' = items p /\ current_item p' = current_item p)
  \/ (exists it, current_item p = Some it
                 /\ items p' = (items p ++ [strip_none it])%list
                 /\ current_item p' = None).
Proof.
  unfold handle_endtag. intros H.
  set (q := if is_text_tag tag then set_capture None false p else p) in *.
  assert (items q = items p /\ current_item q = current_item p) as [Hi Hc]
    by (subst q; destruct (is_text_tag tag); done).
  destruct (_ && _); [|injection H as <-; auto].
  injection H as <-.
  destruct (open_item q) as [it|] eqn:Ho; [|cbn; auto].
  apply open_item_Some in Ho as [Ho _]. right. exists it. cbn.
  rewrite <- Hc, Hi. done.
Qed.

End Blocks.

(** ** Invariants of the scanner *)

Section Invariant.
Variable unquote : string -> string.
(** [pb]: whether the events may be progress-bar markup; [base]: the items
    the scanner starts with. *)
Variable pb : bool.
Variable base : list dict.
Variables P Q : dict -> Prop.
Hypothesis P_new : forall ad imdb_id media_type title href,
  P (store_data_attrs ad
       (set_episode (Re.episode href) (new_item imdb_id media_type title (Some href)))).
Hypothesis P_write : forall d k v, write pb k v -> P d -> P (<[k := v]> d).
Hypothesis P_Q : forall d, P d -> Q (strip_none d).

Lemma write_allowed b k v : (b = true -> pb = true) -> write b k v -> write pb k v.
Proof. intros Hb. destruct 1; econstructor; eauto. Qed.

Lemma P_writes b d d' : (b = true -> pb = true) -> writes b d d' -> P d -> P d'.
Proof. intros Hb. induction 1; eauto using write_allowed. Qed.

Lemma item_step_inv b p p' :
  (b = true -> pb = true) -> item_step b p p' -> inv base P Q p -> inv base P Q p'.
Proof.
  unfold item_step, inv. intros Hb (Hi & _ & Hc) [HQ HP]. rewrite Hi. split; [done|].
  intros it' Hit'. rewrite Hit' in Hc.
  destruct (current_item p) as [it|]; [|done]. eauto using P_writes.
Qed.

Lemma handle_inv e p p' :
  allowed pb e -> handle unquote e p = Ok p' -> inv base P Q p -> inv base P Q p'.
Proof.
  destruct e as [tag a|tag|data]; cbn; intros Ha H Hinv.
  - apply handle_starttag_steps in H as (p1 & H1 & Hs).
    apply (item_step_inv _ p1 p' Ha); [done|].
    apply start_container_cases in H1 as [Hi [Hc|(i & m & h & Hc)]];
      destruct Hinv as [HQ HP]; (split; [by rewrite Hi|]); rewrite Hc; [done|].
    intros it [= <-]. apply P_new.
  - apply handle_endtag_cases in H as [[Hi Hc]|(it & Hit & Hi & Hc)];
      destruct Hinv as [(new & Hn & HQ) HP]; split; rewrite ?Hi, ?Hc; try done;
      [eauto|].
    exists (new ++ [strip_none it])%list. rewrite Hn, app_assoc. split; [done|].
    apply Forall_app. split; [done|]. repeat constructor. auto.
  - apply handle_data_step in H. by apply (item_step_inv false p).
Qed.

Lemma feed_inv evs p p' :
  Forall (allowed pb) evs -> feed unquote evs p = Ok p' -> inv base P Q p -> inv base P Q p'.
Proof.
  intros Ha. revert p. induction Ha as [|e evs He _ IH]; cbn; intros p H Hinv.
  - by injection H as <-.
  - inv_bind H. eauto using handle_inv.
Qed.

End Invariant.

(** ** What a new item holds *)

Lemma store_data_attrs_lookup ad it j :
  Str.startswith "data-" j = false -> store_data_attrs ad it !! j = it !! j.
Proof.
  intros Hj. unfold store_data_attrs.
  by apply (map_fold_insert_lookup (fun key _ => Str.startswith "data-" key) of_attr).
Qed.

Lemma set_episode_lookup_ne em it j :
  j <> "season" -> j <> "episode" -> set_episode em it !! j = it !! j.
Proof.
  intros H1 H2. unfold set_episode. destruct em as [[se ep]|]; [|done].
  by rewrite !dict_insert_ne.
Qed.

Lemma strip_none_lookup d k :
  strip_none d !! k = match d !! k with Some VNone => None | o => o end.
Proof.
  unfold strip_none. rewrite map_lookup_filter.
  destruct (d !! k) as [v|]; [|done]. cbn.
  case_guard as Hg; cbn in Hg; destruct v; done.
Qed.

Lemma write_key pb k v :
  write pb k v ->
  k <> "season" /\ k <> "episode" /\ v <> VNone
  /\ (k = "progress" -> pb = true /\ exists s f, py_float s = Ok f /\ v = VFloat f).
Proof.
  destruct 1; repeat split; try discriminate; try done. eauto.
Qed.

(** ** Digits *)

Lemma search_Some {A} (m : string -> option A) s a :
  Str.search m s = Some a -> exists s', m s' = Some a.
Proof.
  induction s as [|c s IH]; cbn.
  - destruct (m "") eqn:E; [|done]. intros [= <-]. eauto.
  - destruct (m (String c s)) eqn:E; [intros [= <-]; eauto|auto].
Qed.

Lemma span_forallb p s a b :
  Str.span p s = (a, b) -> forallb p (list_ascii_of_string a) = true.
Proof.
  revert a b. induction s as [|c s IH]; cbn; intros a b.
  - by intros [= <- <-].
  - destruct (p c) eqn:Hc; [|by intros [= <- <-]].
    destruct (Str.span p s) as [a' b']. intros [= <- <-]. cbn.
    rewrite Hc. eauto.
Qed.

Lemma some_of_forallb p s a b :
  Str.some_of p s = Some (a, b) -> forallb p (list_ascii_of_string a) = true.
Proof.
  unfold Str.some_of. destruct (Str.span p s) as [a' b'] eqn:E.
  destruct (Str.nonempty a'); [|done]. intros [= <- <-]. eauto using span_forallb.
Qed.

Lemma int_of_digits_nonneg s :
  forallb Str.is_digit (list_ascii_of_string s) = true -> 0 <= Str.int_of_digits s.
Proof.
  unfold Str.int_of_digits.
  assert (forall l acc, forallb Str.is_digit l = true -> 0 <= acc ->
            0 <= fold_left (fun acc c => 10 * acc + Str.digit_val c) l acc) as H.
  { induction l as [|c l IH]; cbn; intros acc Hl Hacc; [done|].
    apply andb_prop in Hl as [Hc Hl]. apply IH; [done|].
    unfold Str.is_digit, Str.between, Str.digit_val in *. lia. }
  intros Hs. by apply H.
Qed.

Lemma episode_nonneg href se ep :
  Re.episode href = Some (se, ep) ->
  0 <= Str.int_of_digits se /\ 0 <= Str.int_of_digits ep.
Proof.
  unfold Re.episode. intros (s' & H)%search_Some. unfold Re.episode_at in H.
  apply bind_Some in H as (r & _ & H).
  apply bind_Some in H as ([d1 r1] & _ & H).
  apply bind_Some in H as (r2 & _ & H).
  apply bind_Some in H as ([d2 r3] & H2 & H).
  apply bind_Some in H as (r4 & _ & H).
  apply bind_Some in H as ([d3 r5] & H3 & H).
  injection H as <- <-.
  split; eapply int_of_digits_nonneg, some_of_forallb; eassumption.
Qed.

(** ** The three invariants *)

Lemma new_item_lookups ad em imdb_id media_type title href :
  let it := store_data_attrs ad
              (set_episode em (new_item imdb_id media_type title (Some href))) in
  it !! "imdb_id" = Some (VStr imdb_id)
  /\ it !! "type" = Some (VStr (if String.eqb media_type "series" then "show" else "movie"))
  /\ it !! "href" = Some (VStr href)
  /\ it !! "is_watched" = Some (VBool false)
  /\ it !! "progress" = Some (VInt 0)
  /\ it !! "title" = Some (of_attr title)
  /\ it !! "season" = set_episode em (new_item imdb_id media_type title (Some href)) !! "season"
  /\ it !! "episode" = set_episode em (new_item imdb_id media_type title (Some href)) !! "episode".
Proof.
  cbv zeta.
  rewrite !store_data_attrs_lookup by reflexivity.
  rewrite !set_episode_lookup_ne by discriminate.
  unfold new_item. repeat split; lookups; done.
Qed.

Lemma new_item_episode_fields ad imdb_id media_type title href :
  episode_fields (Some VNone)
    (store_data_attrs ad
       (set_episode (Re.episode href) (new_item imdb_id media_type title (Some href)))).
Proof.
  destruct (new_item_lookups ad (Re.episode href) imdb_id media_type title href)
    as (_ & _ & _ & _ & _ & _ & Hs & He).
  unfold episode_fields. rewrite Hs, He. unfold set_episode.
  destruct (Re.episode href) as [[se ep]|] eqn:E.
  - right. apply episode_nonneg in E as [? ?].
    exists (Str.int_of_digits se), (Str.int_of_digits ep).
    lookups. done.
  - left. unfold new_item. lookups. done.
Qed.

Lemma episode_fields_write pb d k v :
  write pb k v -> episode_fields (Some VNone) d -> episode_fields (Some VNone) (<[k := v]> d).
Proof.
  intros (H1 & H2 & _)%write_key. unfold episode_fields.
  by rewrite !dict_insert_ne.
Qed.

Lemma episode_fields_strip d :
  episode_fields (Some VNone) d -> episode_fields None (strip_none d).
Proof.
  unfold episode_fields. rewrite !strip_none_lookup.
  intros [[-> ->]|(s & e & -> & -> & ?)]; [by left|right; eauto].
Qed.

Lemma new_item_progress ad imdb_id media_type title href :
  progress_default
    (store_data_attrs ad
       (set_episode (Re.episode href) (new_item imdb_id media_type title (Some href)))).
Proof. apply new_item_lookups. Qed.

Lemma progress_default_nonneg d : progress_default d -> progress_nonneg d.
Proof. intros H. by exists (VInt 0). Qed.

Lemma new_item_progress_nonneg ad imdb_id media_type title href :
  progress_nonneg
    (store_data_attrs ad
       (set_episode (Re.episode href) (new_item imdb_id media_type title (Some href)))).
Proof. apply progress_default_nonneg, new_item_progress. Qed.

Lemma progress_nonneg_write pb d k v :
  write pb k v -> progress_nonneg d -> progress_nonneg (<[k := v]> d).
Proof.
  intros (_ & _ & _ & Hp)%write_key (v0 & Hv0 & Hge). unfold progress_nonneg.
  destruct (decide (k = "progress")) as [->|Hne].
  - destruct Hp as (_ & s & f & Hf & ->); [done|].
    rewrite dict_insert_eq. eauto using nonneg_float_ge, py_float_nonneg.
  - rewrite dict_insert_ne by done. eauto.
Qed.

Lemma progress_default_write d k v :
  write false k v -> progress_default d -> progress_default (<[k := v]> d).
Proof.
  intros (_ & _ & _ & Hp)%write_key Hd. unfold progress_default.
  rewrite dict_insert_ne; [done|]. intros ->. by destruct Hp.
Qed.

Lemma progress_nonneg_strip d : progress_nonneg d -> progress_nonneg (strip_none d).
Proof.
  intros (v & Hv & Hge). exists v. rewrite strip_none_lookup, Hv.
  by destruct v.
Qed.

Lemma progress_default_strip d : progress_default d -> progress_default (strip_none d).
Proof.
  unfold progress_default. intros H. by rewrite strip_none_lookup, H.
Qed.

Lemma new_item_core ad imdb_id media_type title href :
  has_core
    (store_data_attrs ad
       (set_episode (Re.episode href) (new_item imdb_id media_type title (Some href)))).
Proof.
  destruct (new_item_lookups ad (Re.episode href) imdb_id media_type title href)
    as (H1 & H2 & H3 & H4 & H5 & _).
  unfold has_core, core_fields, present.
  repeat constructor; by rewrite ?H1, ?H2, ?H3, ?H4, ?H5.
Qed.

Lemma has_core_write pb d k v : write pb k v -> has_core d -> has_core (<[k := v]> d).
Proof.
  intros (_ & _ & Hv & _)%write_key Hc. unfold has_core.
  eapply Forall_impl; [exact Hc|]. intros j. unfold present.
  destruct (decide (k = j)) as [->|Hne].
  - rewrite dict_insert_eq. by destruct v.
  - by rewrite dict_insert_ne.
Qed.

Lemma has_core_strip d : has_core d -> no_none (strip_none d) /\ has_core (strip_none d).
Proof.
  intros Hc. split.
  - intros k. rewrite strip_none_lookup. by destruct (d !! k) as [[]|].
  - unfold has_core. eapply Forall_impl; [exact Hc|]. intros j. unfold present.
    rewrite strip_none_lookup. by destruct (d !! j) as [[]|].
Qed.
(** ** The items of a scan *)

Ltac by_computation :=
  repeat (apply conj; [vm_compute; reflexivity|]); vm_compute; reflexivity.

Lemma allowed_true e : allowed true e.
Proof. done. Qed.

Lemma allowed_false evs :
  existsb progress_markup evs = false -> Forall (allowed false) evs.
Proof.
  induction evs as [|e evs IH]; cbn; [constructor|].
  intros [He Hevs]%orb_false_elim. constructor; [|auto].
  unfold allowed. congruence.
Qed.

Lemma inv_init P Q : inv [] P Q init.
Proof. split; [exists []; split; [done|constructor]|done]. Qed.

Lemma inv_items base P Q p :
  inv base P Q p -> exists new, items p = (base ++ new)%list /\ Forall Q new.
Proof. by intros [? _]. Qed.

Lemma inv_restart P Q p base :
  inv base P Q p -> inv (items p) P Q p.
Proof.
  intros [_ HP]. split; [|done]. exists []. split; [by rewrite app_nil_r|constructor].
Qed.

(** C4 (amended): the progress of every item the scanner produces is a
    number that is at least 0 (the claim's upper bound of 100 does not
    hold), and it is the default 0 for every item produced by a stretch of
    events without progress-bar markup that starts with no item open, or
    with an open item whose progress is still the default. *)
Theorem scanner_progress unquote evs1 evs2 p1 p2 :
  feed unquote evs1 init = Ok p1 ->
  feed unquote evs2 p1 = Ok p2 ->
  Forall progress_nonneg (items p2)
  /\ ((forall it, current_item p1 = Some it -> progress_default it) ->
      existsb progress_markup evs2 = false ->
      exists new, items p2 = (items p1 ++ new)%list /\ Forall progress_default new).
Proof.
  intros H1 H2.
  assert (inv [] progress_nonneg progress_nonneg p2) as Hinv.
  { apply (feed_inv unquote true [] progress_nonneg progress_nonneg
             new_item_progress_nonneg (progress_nonneg_write true) progress_nonneg_strip
             evs2 p1 p2); [apply Forall_forall; intros; apply allowed_true|done|].
    apply (feed_inv unquote true [] progress_nonneg progress_nonneg
             new_item_progress_nonneg (progress_nonneg_write true) progress_nonneg_strip
             evs1 init p1); [apply Forall_forall; intros; apply allowed_true|done|].
    apply inv_init. }
  split.
  - by destruct (inv_items _ _ _ _ Hinv) as (new & -> & Hnew).
  - intros Hcur Hno.
    apply (inv_items (items p1) progress_default progress_default).
    apply (feed_inv unquote false (items p1) progress_default progress_default
             new_item_progress progress_default_write progress_default_strip
             evs2 p1 p2); [by apply allowed_false|done|].
    split; [|done]. exists []. split; [by rewrite app_nil_r|constructor].
Qed.

(** The claim C4 fails on a progress bar of width 150%: the progress of the
    item is 150, above 100. *)
Lemma progress_above_100 :
  exists it v,
    feed unquote_plain doc_progress_150 init = Ok (mkParser [it] None false false false None)
    /\ it !! "progress" = Some v
    /\ py_le v (VInt 100) = Ok false.
Proof. eexists _, _. by_computation. Qed.

Lemma scanner_progress_witness :
  feed unquote_plain doc_progress_150 init = Ok (scanned doc_progress_150)
  /\ feed unquote_plain doc_season_0 (scanned doc_progress_150)
     = Ok (scanned (doc_progress_150 ++ doc_season_0))
  /\ Forall progress_nonneg (items (scanned (doc_progress_150 ++ doc_season_0)))
  /\ ((forall it, current_item (scanned doc_progress_150) = Some it -> progress_default it) ->
      existsb progress_markup doc_season_0 = false ->
      exists new, items (scanned (doc_progress_150 ++ doc_season_0))
                  = (items (scanned doc_progress_150) ++ new)%list
                  /\ Forall progress_default new).
Proof.
  split; [vm_compute; reflexivity|]. split; [vm_compute; reflexivity|].
  apply (scanner_progress unquote_plain doc_progress_150 doc_season_0
           (scanned doc_progress_150) (scanned (doc_progress_150 ++ doc_season_0)));
    vm_compute; reflexivity.
Defined.

(** C6 (amended): on every item the scanner produces, season and episode
    are both present or both absent, and when present they are integers
    that are at least 0 (they need not be positive). *)
Theorem scanner_episode_fields unquote evs p :
  feed unquote evs init = Ok p -> Forall (episode_fields None) (items p).
Proof.
  intros H.
  destruct (inv_items [] (episode_fields (Some VNone)) (episode_fields None) p)
    as (new & -> & Hnew); [|done].
  apply (feed_inv unquote true [] _ _ new_item_episode_fields
           (episode_fields_write true) episode_fields_strip evs init p);
    [apply Forall_forall; intros; apply allowed_true|done|apply inv_init].
Qed.

(** The claim C6 fails on the link target [tt7654321:0:0]: season and
    episode are 0, not positive. *)
Lemma season_zero :
  exists it,
    feed unquote_plain doc_season_0 init = Ok (mkParser [it] None false false false None)
    /\ it !! "season" = Some (VInt 0)
    /\ it !! "episode" = Some (VInt 0).
Proof. eexists. by_computation. Qed.

Lemma scanner_episode_fields_witness :
  feed unquote_plain doc_season_0 init = Ok (scanned doc_season_0)
  /\ Forall (episode_fields None) (items (scanned doc_season_0)).
Proof.
  split; [vm_compute; reflexivity|].
  apply (scanner_episode_fields unquote_plain doc_season_0 (scanned doc_season_0)).
  vm_compute; reflexivity.
Defined.

(** The claim C7 fails on a root element without a title: the finalized
    item has the empty string as its title, and the defaults of the watched
    flag and of the progress. *)
Lemma title_placeholder :
  exists it,
    feed unquote_plain doc_no_title init = Ok (mkParser [it] None false false false None)
    /\ it !! "title" = Some (VStr "")
    /\ it !! "is_watched" = Some (VBool false)
    /\ it !! "progress" = Some (VInt 0).
Proof. eexists. by_computation. Qed.

(** ** One start tag on an open item *)

Lemma set_current_item_same p it :
  current_item p = Some it -> set_current_item (Some it) p = p.
Proof. destruct p. cbn. by intros ->. Qed.

Lemma text_tag_not_a tag : is_text_tag tag = true -> String.eqb tag "a" = false.
Proof.
  unfold is_text_tag.
  destruct (String.eqb_spec tag "div") as [->|]; [done|].
  destruct (String.eqb_spec tag "span") as [->|]; [done|].
  destruct (String.eqb_spec tag "p") as [->|]; done.
Qed.

Lemma start_container_other tag ad p :
  String.eqb tag "a" = false -> start_container tag ad p = Ok p.
Proof. unfold start_container. by intros ->. Qed.

Lemma on_item_open pb (g : bool) f p p' it :
  (g = true -> forall a b, f a = Ok b -> writes pb a b) ->
  open_item p = Some it ->
  on_item g f p = Ok p' ->
  exists it', guarded g f it = Ok it'
              /\ p' = set_current_item (Some it') p
              /\ open_item p' = Some it'.
Proof.
  intros Hf Ho. unfold on_item, guarded. rewrite Ho.
  apply open_item_Some in Ho as [Hc Hne].
  destruct g.
  - intros H. inv_bind H. injection H as <-. exists x. repeat split; [done|].
    apply open_item_intro; [done|]. eapply writes_nonempty; eauto.
  - intros [= <-]. exists it. rewrite set_current_item_same by done.
    repeat split. by apply open_item_intro.
Qed.

Lemma capture_rule_cases words field tag ad p p' :
  capture_rule words field tag ad p = Ok p' ->
  p' = p \/ p' = set_capture (Some field) true p.
Proof.
  unfold capture_rule. intros H.
  destruct (open_item p); [|injection H as <-; auto].
  destruct (_ && _); [|injection H as <-; auto].
  inv_bind H. injection H as <-. destruct (words x); auto.
Qed.

Lemma capture_rule_open words field tag ad p it classes :
  words (Str.lower "") = false ->
  open_item p = Some it ->
  is_text_tag tag = true ->
  get_attr "class" ad = Some classes ->
  capture_rule words field tag ad p
  = Ok (if words (Str.lower classes) then set_capture (Some field) true p else p).
Proof.
  intros Hw Ho Ht Hc. unfold capture_rule, has_key. rewrite Ho, Ht.
  unfold get_attr in *. destruct (ad !! "class") as [c|]; cbn in Hc |- *.
  - by rewrite Hc.
  - injection Hc as <-. by rewrite Hw.
Qed.

Lemma writes_mono pb d d' : writes pb d d' -> writes true d d'.
Proof. induction 1; econstructor; eauto using write_mono. Qed.

Ltac inv_bind_as H x Hx :=
  apply bind_Ok in H; destruct H as (x & Hx & H).

Section StartTag.
Variable unquote : string -> string.

(** The open item goes through the five item blocks, the capture rules
    leave it alone. *)
Lemma handle_starttag_open tag a p p' it :
  String.eqb tag "a" = false ->
  open_item p = Some it ->
  handle_starttag unquote tag a p = Ok p' ->
  let ad := dict_of_attrs a in
  let is_div_class := String.eqb tag "div" && has_key "class" ad in
  exists it1 it2 it3 it4 it5,
    guarded is_div_class (watched_icon ad) it = Ok it1
    /\ guarded is_div_class (progress_bar ad) it1 = Ok it2
    /\ guarded is_div_class (poster_style unquote ad) it2 = Ok it3
    /\ guarded (String.eqb tag "img") (img_tag unquote ad) it3 = Ok it4
    /\ guarded (has_key "style" ad) (inline_style unquote ad) it4 = Ok it5
    /\ current_item p' = Some it5
    /\ items p' = items p
    /\ in_meta_item p' = in_meta_item p.
Proof.
  intros Ha Ho H. cbv zeta. unfold handle_starttag in H.
  rewrite start_container_other in H by done. cbn in H.
  inv_bind_as H q1 Hq1.
  destruct (on_item_open true _ _ _ _ _ (fun _ => watched_icon_writes true _) Ho Hq1)
    as (it1 & H1 & -> & Ho1).
  inv_bind_as H q2 Hq2.
  destruct (on_item_open true _ _ _ _ _
              (fun _ a b Hp => writes_mono _ _ _ (progress_bar_writes _ a b Hp)) Ho1 Hq2)
    as (it2 & H2 & -> & Ho2).
  inv_bind_as H q3 Hq3.
  destruct (on_item_open true _ _ _ _ _
              (fun _ => poster_style_writes unquote true _) Ho2 Hq3)
    as (it3 & H3 & -> & Ho3).
  inv_bind_as H q4 Hq4.
  destruct (on_item_open true _ _ _ _ _
              (fun _ => img_tag_writes unquote true _) Ho3 Hq4)
    as (it4 & H4 & -> & Ho4).
  inv_bind_as H q5 Hq5. inv_bind_as H q6 Hq6.
  inv_bind_as H q7 Hq7. inv_bind_as H q8 Hq8.
  assert (open_item q8 = Some it4 /\ items q8 = items p
          /\ in_meta_item q8 = in_meta_item p) as (Ho5 & Hi5 & Hm5).
  { apply capture_rule_cases in Hq5, Hq6, Hq7, Hq8.
    destruct Hq5 as [->| ->], Hq6 as [->| ->], Hq7 as [->| ->], Hq8 as [->| ->];
      done. }
  destruct (on_item_open true _ _ _ _ _
              (fun _ => inline_style_writes unquote true _) Ho5 H)
    as (it5 & H5 & -> & Ho6).
  exists it1, it2, it3, it4, it5. done.
Qed.

End StartTag.

(** ** The capture target *)

Lemma open_item_set_capture field b p : open_item (set_capture field b p) = open_item p.
Proof. done. Qed.

Lemma spec_last_match_eq l :
  spec_last_match l
  = if episode_title_words l then Some "episode_title"
    else if duration_words l then Some "duration"
    else if release_words l then Some "release_info"
    else if title_words l then Some "title_text"
    else None.
Proof.
  unfold spec_last_match, spec_capture_rules.
  cbn -[title_words release_words duration_words episode_title_words].
  destruct (title_words l), (release_words l), (duration_words l),
           (episode_title_words l); reflexivity.
Qed.

(** C8: on a div, span or p met while an item is open, with the class
    [classes] (the empty string when the element has no class attribute),
    the capture rules are tried in the order title/name/label,
    year/release/date, duration/runtime/time, episode-and-title, and the
    last rule that matches gives the capture target; a class with both
    "episode" and "title" gives [episode_title].  When no rule matches the
    target stays as it was. *)
Theorem capture_target unquote tag a p p' it classes :
  is_text_tag tag = true ->
  get_attr "class" (dict_of_attrs a) = Some classes ->
  open_item p = Some it ->
  handle_starttag unquote tag a p = Ok p' ->
  current_text_field p'
  = match spec_last_match (Str.lower classes) with
    | Some field => Some field
    | None => current_text_field p
    end
  /\ capture_text p'
     = match spec_last_match (Str.lower classes) with
       | Some _ => true
       | None => capture_text p
       end
  /\ (Str.contains "episode" (Str.lower classes) = true ->
      Str.contains "title" (Str.lower classes) = true ->
      current_text_field p' = Some "episode_title").
Proof.
  intros Ht Hc Ho H. unfold handle_starttag in H.
  rewrite start_container_other in H by (by apply text_tag_not_a). cbn in H.
  inv_bind_as H q1 Hq1.
  destruct (on_item_open true _ _ _ _ _ (fun _ => watched_icon_writes true _) Ho Hq1)
    as (it1 & _ & -> & Ho1).
  inv_bind_as H q2 Hq2.
  destruct (on_item_open true _ _ _ _ _
              (fun _ a b Hp => writes_mono _ _ _ (progress_bar_writes _ a b Hp)) Ho1 Hq2)
    as (it2 & _ & -> & Ho2).
  inv_bind_as H q3 Hq3.
  destruct (on_item_open true _ _ _ _ _
              (fun _ => poster_style_writes unquote true _) Ho2 Hq3)
    as (it3 & _ & -> & Ho3).
  inv_bind_as H q4 Hq4.
  destruct (on_item_open true _ _ _ _ _
              (fun _ => img_tag_writes unquote true _) Ho3 Hq4)
    as (it4 & _ & Hq & Ho4).
  assert (current_text_field q4 = current_text_field p
          /\ capture_text q4 = capture_text p) as [Hf4 Hc4] by (by subst q4).
  clear Hq Hq1 Hq2 Hq3 Hq4 Ho Ho1 Ho2 Ho3.
  set (l := Str.lower classes) in *.
  inv_bind_as H q5 Hq5.
  rewrite (capture_rule_open _ _ _ _ _ _ _ eq_refl Ho4 Ht Hc) in Hq5. injection Hq5 as <-.
  fold l in H.
  assert (open_item (if title_words l then set_capture (Some "title_text") true q4
                     else q4) = Some it4) as Ho5 by (by destruct (title_words l)).
  inv_bind_as H q6 Hq6.
  rewrite (capture_rule_open _ _ _ _ _ _ _ eq_refl Ho5 Ht Hc) in Hq6. injection Hq6 as <-.
  fold l in H.
  assert (open_item
            (if release_words l
             then set_capture (Some "release_info") true
                    (if title_words l then set_capture (Some "title_text") true q4
                     else q4)
             else if title_words l then set_capture (Some "title_text") true q4
                  else q4) = Some it4) as Ho6
    by (by destruct (release_words l), (title_words l)).
  inv_bind_as H q7 Hq7.
  rewrite (capture_rule_open _ _ _ _ _ _ _ eq_refl Ho6 Ht Hc) in Hq7. injection Hq7 as <-.
  fold l in H.
  match type of H with
  | capture_rule _ _ _ _ ?q ≫= _ = _ =>
      assert (open_item q = Some it4) as Ho7
        by (by destruct (duration_words l), (release_words l), (title_words l))
  end.
  inv_bind_as H q8 Hq8.
  rewrite (capture_rule_open _ _ _ _ _ _ _ eq_refl Ho7 Ht Hc) in Hq8. injection Hq8 as <-.
  fold l in H.
  match type of H with
  | on_item _ _ ?q = _ =>
      assert (open_item q = Some it4) as Ho8
        by (by destruct (episode_title_words l), (duration_words l),
                        (release_words l), (title_words l))
  end.
  destruct (on_item_open true _ _ _ _ _
              (fun _ => inline_style_writes unquote true _) Ho8 H)
    as (it5 & _ & -> & _).
  rewrite spec_last_match_eq. fold l.
  destruct (episode_title_words l) eqn:E4, (duration_words l) eqn:E3,
           (release_words l) eqn:E2, (title_words l) eqn:E1;
    cbn; rewrite ?Hf4, ?Hc4; (repeat split; try done);
    intros He Hti; unfold episode_title_words in E4; rewrite He, Hti in E4; done.
Qed.

(** ** A container start tag while an item is open *)

Lemma writes_imdb_id pb d d' : writes pb d d' -> d' !! "imdb_id" = d !! "imdb_id".
Proof.
  induction 1 as [|d d' k v _ IH Hw]; [done|].
  rewrite dict_insert_ne; [done|]. destruct Hw; discriminate.
Qed.

Lemma start_container_root a p classes href media_type imdb_id :
  dict_of_attrs a !! "class" = Some (Some classes) ->
  Str.contains "meta-item-container" classes = true ->
  dict_of_attrs a !! "href" = Some (Some href) ->
  Re.imdb href = Some (media_type, imdb_id) ->
  start_container "a" (dict_of_attrs a) p
  = Ok (set_current_item
          (Some (store_data_attrs (dict_of_attrs a)
                   (set_episode (Re.episode href)
                      (new_item imdb_id media_type
                         (get_attr "title" (dict_of_attrs a)) (Some href)))))
          (set_in_meta_item true p)).
Proof.
  intros Hc Hm Hh Hi. unfold start_container, has_key, get_attr.
  rewrite Hc, Hh. cbn. rewrite Hm. cbn. rewrite Hi. done.
Qed.

(** C10: a container start tag with a parsable identifier replaces the item
    that is still open: the scan goes on exactly as if no item had been
    open, so the replaced item never reaches the output; the start tag
    appends nothing, and the end tag of the container then appends the new
    item. *)
Theorem container_discards_open_item unquote a p classes href media_type imdb_id :
  dict_of_attrs a !! "class" = Some (Some classes) ->
  Str.contains "meta-item-container" classes = true ->
  dict_of_attrs a !! "href" = Some (Some href) ->
  Re.imdb href = Some (media_type, imdb_id) ->
  (forall evs,
     feed unquote (StartTag "a" a :: evs) p
     = feed unquote (StartTag "a" a :: evs) (set_current_item None p))
  /\ (forall p',
        handle_starttag unquote "a" a p = Ok p' ->
        items p' = items p
        /\ in_meta_item p' = true
        /\ exists it,
             current_item p' = Some it
             /\ it !! "imdb_id" = Some (VStr imdb_id)
             /\ exists p'',
                  handle_endtag "a" p' = Ok p''
                  /\ items p'' = (items p ++ [strip_none it])%list
                  /\ current_item p'' = None).
Proof.
  intros Hc Hm Hh Hi.
  pose proof (start_container_root a p _ _ _ _ Hc Hm Hh Hi) as Hs.
  pose proof (start_container_root a (set_current_item None p) _ _ _ _ Hc Hm Hh Hi)
    as Hs0.
  split.
  - intros evs. cbn. unfold handle_starttag. by rewrite Hs, Hs0.
  - intros p' H. apply handle_starttag_steps in H as (p1 & H1 & Hi1 & Hm1 & Hw).
    rewrite Hs in H1. injection H1 as <-. cbn in Hi1, Hm1, Hw.
    destruct (current_item p') as [it|] eqn:Hcur; [|done].
    split; [done|]. split; [done|]. exists it. split; [done|].
    assert (it !! "imdb_id" = Some (VStr imdb_id)) as Hid.
    { rewrite (writes_imdb_id _ _ _ Hw). apply new_item_lookups. }
    split; [done|].
    assert (open_item p' = Some it) as Ho.
    { apply open_item_intro; [done|]. intros ->. by rewrite lookup_empty in Hid. }
    unfold handle_endtag. cbn. rewrite Hm1, Ho. cbn. eexists. split; [done|].
    cbn. by rewrite Hi1.
Qed.

(** ** The poster URL *)

Section Poster.
Variable unquote : string -> string.

Lemma watched_icon_poster g ad it it' :
  guarded g (watched_icon ad) it = Ok it' -> it' !! "poster_url" = it !! "poster_url".
Proof.
  unfold guarded, watched_icon. destruct g; [|by intros [= <-]].
  intros H. inv_bind H. injection H as <-. destruct x; [|done].
  by rewrite dict_insert_ne.
Qed.

Lemma progress_bar_poster g ad it it' :
  guarded g (progress_bar ad) it = Ok it' -> it' !! "poster_url" = it !! "poster_url".
Proof.
  unfold guarded, progress_bar. destruct g; [|by intros [= <-]].
  intros H. inv_bind H. inv_bind_as H b Hb. destruct b; [|by injection H as <-].
  inv_bind_as H m Hmt. destruct m; [|by injection H as <-].
  inv_bind_as H f Hf. injection H as <-. by rewrite dict_insert_ne.
Qed.

Lemma poster_style_poster tag ad it it' :
  guarded (String.eqb tag "div" && has_key "class" ad) (poster_style unquote ad) it
  = Ok it' ->
  it' !! "poster_url"
  = match poster_class_match tag ad with
    | Some u => Some (VStr (unquote u))
    | None => it !! "poster_url"
    end.
Proof.
  unfold guarded, poster_class_match, poster_style.
  destruct (_ && _); [|by intros [= <-]].
  destruct (get_attr "class" ad) as [classes|]; [|done]. cbn.
  destruct (_ || _); [|intros [= <-]; by destruct (get_attr "style" ad)].
  destruct (get_attr "style" ad) as [style|]; [|done]. cbn.
  assert (forall d : dict,
            match Re.bg_url style with
            | Some g1 => <["poster_url" := VStr (unquote g1)]> d
            | None => d
            end !! "poster_url"
            = match Re.bg_url style with
              | Some u => Some (VStr (unquote u))
              | None => d !! "poster_url"
              end) as Hu.
  { intros d. destruct (Re.bg_url style); [by rewrite dict_insert_eq|done]. }
  destruct (Str.contains "poster-shape" classes); [|intros [= <-]; apply Hu].
  intros [= <-]. destruct (Re.poster_shape classes); [|apply Hu].
  rewrite dict_insert_ne by done. apply Hu.
Qed.

End Poster.

(** ** The scanner and the transformer together *)


(** ** The claims on concrete inputs *)

Example lower_ex : Str.lower "Poster-IMAGE" = "poster-image".
Proof. reflexivity. Qed.

Example strip_ex : Str.strip "  a b  " = "a b".
Proof. reflexivity. Qed.

Example imdb_ex :
  Re.imdb "#/detail/series/tt5875444:5:3" = Some ("series", "tt5875444").
Proof. vm_compute. reflexivity. Qed.

Example episode_ex : Re.episode "#/detail/series/tt5875444:5:3" = Some ("5", "3").
Proof. vm_compute. reflexivity. Qed.

Example width_ex : Re.width "height: 3px; width:  45.5%" = Some "45.5".
Proof. vm_compute. reflexivity. Qed.

Example year_ex : Re.year "x2019 1999a 20201 (1987)" = Some "1987".
Proof. vm_compute. reflexivity. Qed.

Example py_float_ex : py_float "0.1" = Ok (S754_finite false 7205759403792794 (-56)).
Proof. vm_compute. reflexivity. Qed.

Example py_float_two_dots : py_float "1.2.3" = Raise ValueError.
Proof. vm_compute. reflexivity. Qed.

(** With [--min-progress 50], an item with a progress of 30 has no entry. *)
Example export_drops_30 :
  (r ← export clock0 args_min_50 [first_item doc_progress_30]; Ok (r.1, length r.2))
  = Ok ([Found 1 1 0 0 0; Exported 0], 0%nat).
Proof. vm_compute. reflexivity. Qed.

(** The scenario of the specification: a series link with season and
    episode and a progress of 45.5 is dropped by [--watched-only]. *)
Example export_watched_only :
  (r ← export clock0 (mkArgs false false true (S754_zero false)) [first_item doc_episode];
   Ok (r.1, length r.2))
  = Ok ([Found 1 0 0 1 0; Exported 0], 0%nat).
Proof. vm_compute. reflexivity. Qed.

Lemma main_empty_input_witness :
  main unquote_plain (tokens_of doc_no_title) clock0 args_min_50 "  "
  = Exit 1 [EmptyInput].
Proof.
  apply (main_empty_input unquote_plain (tokens_of doc_no_title) clock0 args_min_50 "  ").
  reflexivity.
Defined.

Lemma transformer_kind_witness :
  numeric_progress (first_item doc_episode) = true
  /\ exists t tick' e,
       convert_item clock0 true true (first_item doc_episode) 0 = Ok (t, tick')
       /\ format_item t = Ok e
       /\ t !! "type" = Some (if present "season" (first_item doc_episode)
                                 && present "episode" (first_item doc_episode)
                              then VStr "episode"
                              else get "type" VNone (first_item doc_episode))
       /\ e !! "type" = t !! "type"
       /\ (get "type" VNone (first_item doc_episode) <> VStr "episode" ->
           e !! "type" = Some (VStr "episode")
           <-> present "season" (first_item doc_episode)
               && present "episode" (first_item doc_episode) = true).
Proof.
  assert (numeric_progress (first_item doc_episode) = true) as H
    by (vm_compute; reflexivity).
  split; [exact H|].
  exact (transformer_kind clock0 true true (first_item doc_episode) 0 H).
Defined.

Lemma transformer_watched_at_witness :
  numeric_progress (first_item doc_progress_150) = true
  /\ exists t tick' w,
       convert_item clock0 true false (first_item doc_progress_150) 0 = Ok (t, tick')
       /\ is_watched (first_item doc_progress_150) = Ok w
       /\ (truthy w = true <->
           truthy (get "is_watched" (VBool false) (first_item doc_progress_150)) = true
           \/ py_gt (get "progress" (VInt 0) (first_item doc_progress_150)) (VInt 90)
              = Ok true)
       /\ t !! "watched_at" =
            (if truthy w
             then Some (VStr (if false then "unknown"
                              else clock0 (if true then 1%nat else 0%nat) +:+ "Z"))
             else None)
       /\ exists e, format_item t = Ok e /\ e !! "watched_at" = t !! "watched_at".
Proof.
  assert (numeric_progress (first_item doc_progress_150) = true) as H
    by (vm_compute; reflexivity).
  split; [exact H|].
  exact (transformer_watched_at clock0 true false (first_item doc_progress_150) 0 H).
Defined.

Lemma export_filters_witness :
  Forall (fun i => numeric_progress i = true)
         [first_item doc_progress_30; first_item doc_progress_60]
  /\ exists stderr output kept,
       export clock0 args_min_50 [first_item doc_progress_30; first_item doc_progress_60]
       = Ok (stderr, output)
       /\ kept `sublist_of` [first_item doc_progress_30; first_item doc_progress_60]
       /\ Forall2 (entry_of clock0 args_min_50) kept output
       /\ Forall (passes_filters args_min_50) kept.
Proof.
  assert (Forall (fun i => numeric_progress i = true)
            [first_item doc_progress_30; first_item doc_progress_60]) as H
    by (repeat constructor; vm_compute; reflexivity).
  split; [exact H|].
  exact (export_filters clock0 args_min_50
           [first_item doc_progress_30; first_item doc_progress_60] H).
Defined.

(** The claim C3 fails on two poster elements in one item: the first sets
    the poster URL, the second overwrites it. *)
Lemma later_poster_overwrites :
  exists it0 it,
    feed unquote_plain doc_open_poster init
    = Ok (mkParser [] (Some it0) true false false None)
    /\ it0 !! "poster_url" = Some (VStr "http://img/first.png")
    /\ feed unquote_plain doc_two_posters init
       = Ok (mkParser [it] None false false false None)
    /\ it !! "poster_url" = Some (VStr "http://img/second.png").
Proof. eexists _, _. by_computation. Qed.

Lemma open_of_Some p : has_open_item p = true -> open_item p = Some (open_of p).
Proof. unfold has_open_item, open_of. by destruct (open_item p). Qed.

(** The second poster element of [doc_two_posters] gives the URL of the
    item, as the theorem tells. *)
Example poster_class_match_ex :
  poster_class_match "div" (dict_of_attrs poster_attrs) = Some "http://img/second.png".
Proof. vm_compute. reflexivity. Qed.

Lemma capture_target_witness :
  is_text_tag "span" = true
  /\ get_attr "class" (dict_of_attrs episode_title_attrs) = Some "episode-title"
  /\ open_item (scanned doc_open_item) = Some (open_of (scanned doc_open_item))
  /\ handle_starttag unquote_plain "span" episode_title_attrs (scanned doc_open_item)
     = Ok (after_start "span" episode_title_attrs (scanned doc_open_item))
  /\ current_text_field (after_start "span" episode_title_attrs (scanned doc_open_item))
     = Some "episode_title".
Proof.
  assert (is_text_tag "span" = true) as H1 by reflexivity.
  assert (get_attr "class" (dict_of_attrs episode_title_attrs) = Some "episode-title")
    as H2 by (vm_compute; reflexivity).
  assert (open_item (scanned doc_open_item) = Some (open_of (scanned doc_open_item)))
    as H3 by (apply open_of_Some; vm_compute; reflexivity).
  assert (handle_starttag unquote_plain "span" episode_title_attrs (scanned doc_open_item)
          = Ok (after_start "span" episode_title_attrs (scanned doc_open_item)))
    as H4 by (vm_compute; reflexivity).
  assert (Str.contains "episode" (Str.lower "episode-title") = true) as H5
    by (vm_compute; reflexivity).
  assert (Str.contains "title" (Str.lower "episode-title") = true) as H6
    by (vm_compute; reflexivity).
  repeat (split; [assumption|]).
  exact (proj2 (proj2 (capture_target unquote_plain "span" episode_title_attrs
           (scanned doc_open_item)
           (after_start "span" episode_title_attrs (scanned doc_open_item))
           (open_of (scanned doc_open_item)) "episode-title" H1 H2 H3 H4)) H5 H6).
Defined.

Lemma container_discards_open_item_witness :
  dict_of_attrs container_attrs !! "class" = Some (Some "meta-item-container")
  /\ Str.contains "meta-item-container" "meta-item-container" = true
  /\ dict_of_attrs container_attrs !! "href" = Some (Some "#/detail/movie/tt7654321")
  /\ Re.imdb "#/detail/movie/tt7654321" = Some ("movie", "tt7654321")
  /\ forall evs,
       feed unquote_plain (StartTag "a" container_attrs :: evs) (scanned doc_open_item)
       = feed unquote_plain (StartTag "a" container_attrs :: evs)
           (set_current_item None (scanned doc_open_item)).
Proof.
  assert (dict_of_attrs container_attrs !! "class" = Some (Some "meta-item-container"))
    as H1 by (vm_compute; reflexivity).
  assert (Str.contains "meta-item-container" "meta-item-container" = true)
    as H2 by (vm_compute; reflexivity).
  assert (dict_of_attrs container_attrs !! "href"
          = Some (Some "#/detail/movie/tt7654321"))
    as H3 by (vm_compute; reflexivity).
  assert (Re.imdb "#/detail/movie/tt7654321" = Some ("movie", "tt7654321"))
    as H4 by (vm_compute; reflexivity).
  repeat (split; [assumption|]).
  exact (proj1 (container_discards_open_item unquote_plain container_attrs
                  (scanned doc_open_item) "meta-item-container"
                  "#/detail/movie/tt7654321" "movie" "tt7654321" H1 H2 H3 H4)).
Defined.

(** The item that was open is gone from the output: the first container is
    replaced by the second, and only the second is appended. *)
Example discarded_item_ex :
  exists it,
    feed unquote_plain (doc_open_item ++ [StartTag "a" container_attrs; EndTag "a"]) init
    = Ok (mkParser [it] None false false false None)
    /\ it !! "imdb_id" = Some (VStr "tt7654321").
Proof. eexists. by_computation. Qed.

(** * Further properties *)

(** ** The transformer: the entry of one item *)

Lemma lookup_ins_if_ne b k v (t : dict) j : k <> j -> ins_if b k v t !! j = t !! j.
Proof. intros. unfold ins_if. destruct b; [by rewrite dict_insert_ne|done]. Qed.

Lemma lookup_ins_if_eq b k v (t : dict) :
  ins_if b k v t !! k = if b then Some v else t !! k.
Proof. unfold ins_if. destruct b; [by rewrite dict_insert_eq|done]. Qed.

Lemma lookup_copy_if_truthy_eq k k' item (t : dict) :
  copy_if_truthy k k' item t !! k'
  = if truthy (get k VNone item) then Some (get k VNone item) else t !! k'.
Proof.
  unfold copy_if_truthy. destruct (truthy _); [by rewrite dict_insert_eq|done].
Qed.

Ltac lookups' :=
  repeat first
    [ rewrite lookup_copy_if_truthy_ne by discriminate
    | rewrite lookup_ins_if_ne by discriminate
    | rewrite dict_insert_ne by discriminate
    | rewrite lookup_copy_if_truthy_eq
    | rewrite lookup_ins_if_eq
    | rewrite dict_insert_eq
    | rewrite lookup_empty ].

(** [convert_item] in closed form. *)
Lemma convert_item_eq now_isoformat add mark item tick :
  convert_item now_isoformat add mark item tick
  = w ← is_watched item;
    hp ← py_gt (get "progress" (VInt 0) item) (VInt 0);
    Ok (trakt_item_of now_isoformat add mark item tick w hp,
        (tick + clock_reads add mark w)%nat).
Proof.
  unfold convert_item, trakt_item_of, clock_reads, ins_if.
  destruct (is_not_none _ && is_not_none _), add, mark;
    (destruct (is_watched item) as [w|]; [|done]); cbn;
    destruct (truthy w); cbn;
    (destruct (py_gt _ _) as [hp|]; [|done]); cbn;
    repeat f_equal; lia.
Qed.

Lemma numeric_progress_false item n :
  numeric_progress item = false ->
  py_gt (get "progress" (VInt 0) item) (VInt n) = Raise TypeError.
Proof.
  unfold numeric_progress, py_gt, py_cmp. by destruct (num_of _).
Qed.

Lemma is_watched_raises item e : is_watched item = Raise e -> e = TypeError.
Proof.
  unfold is_watched, py_or. destruct (truthy _); [done|].
  unfold py_gt, py_cmp. destruct (num_of _); cbn; congruence.
Qed.

(** X1: [convert_to_trakt_format] fails on an item exactly when its progress
    is not a number, and then with a [TypeError]; a missing progress is the
    default 0 and does not fail. *)
Theorem convert_item_type_error now_isoformat add mark item tick :
  match convert_item now_isoformat add mark item tick with
  | Ok _ => numeric_progress item = true
  | Raise e => e = TypeError /\ numeric_progress item = false
  end.
Proof.
  rewrite convert_item_eq. destruct (numeric_progress item) eqn:Hn.
  - destruct (is_watched_total item Hn) as [w ->].
    destruct (py_gt_int_total item 0 Hn) as [hp ->]. done.
  - rewrite (numeric_progress_false item 0 Hn).
    destruct (is_watched item) as [w|e] eqn:Hw; cbn; [done|].
    by apply is_watched_raises in Hw.
Qed.

Lemma convert_item_Ok now_isoformat add mark item tick t tick' :
  convert_item now_isoformat add mark item tick = Ok (t, tick') ->
  exists w hp,
    is_watched item = Ok w
    /\ py_gt (get "progress" (VInt 0) item) (VInt 0) = Ok hp
    /\ t = trakt_item_of now_isoformat add mark item tick w hp
    /\ tick' = (tick + clock_reads add mark w)%nat.
Proof.
  rewrite convert_item_eq. intros H.
  destruct (is_watched item) as [w|]; [|done]. cbn in H.
  destruct (py_gt _ _) as [hp|]; [|done]. cbn in H.
  injection H as <- <-. by exists w, hp.
Qed.

Lemma map_fold_insert_lookup_gen {V} (cond : string -> V -> bool) (val : V -> pyval)
    (e : dict) (m : gmap string V) j :
  map_fold (fun key value e => if cond key value then <[key := val value]> e else e)
           e m !! j
  = match m !! j with
    | Some v => if cond j v then Some (val v) else e !! j
    | None => e !! j
    end.
Proof.
  revert j.
  apply (map_fold_weak_ind
           (fun r m' => forall j, r !! j = match m' !! j with
                                         | Some v => if cond j v then Some (val v)
                                                     else e !! j
                                         | None => e !! j
                                         end)).
  - intros j. by rewrite lookup_empty.
  - intros i x m' r Hi IH j. destruct (decide (i = j)) as [->|Hne].
    + rewrite lookup_insert_eq. destruct (cond j x).
      * by rewrite lookup_insert_eq.
      * by rewrite IH, Hi.
    + rewrite (lookup_insert_ne m') by done. rewrite <- IH.
      destruct (cond i x); [by rewrite lookup_insert_ne|done].
Qed.

(** [format_item] in closed form. *)
Lemma format_item_Ok t e :
  format_item t = Ok e ->
  exists imdb_id type,
    t !! "imdb_id" = Some imdb_id /\ t !! "type" = Some type
    /\ forall j,
         e !! j
         = match t !! j with
           | Some v => if Str.startswith "_" j && is_not_none v then Some v
                       else format_base t imdb_id type !! j
           | None => format_base t imdb_id type !! j
           end.
Proof.
  unfold format_item, getitem. intros H.
  destruct (t !! "imdb_id") as [i|]; cbn in H; [|done].
  destruct (t !! "type") as [ty|]; cbn in H; [|done].
  injection H as <-. exists i, ty. split; [done|]. split; [done|].
  intros j.
  apply (map_fold_insert_lookup_gen
           (fun key value => Str.startswith "_" key && is_not_none value) id).
Qed.

Ltac lookups_ne :=
  repeat first
    [ rewrite lookup_copy_if_truthy_ne by done
    | rewrite lookup_copy_if_present_ne by done
    | rewrite lookup_ins_if_ne by done
    | rewrite dict_insert_ne by done ].

(** The base entry has the fields of the schema only. *)
Lemma format_base_other t imdb_id type j :
  j ∉ schema_keys -> format_base t imdb_id type !! j = None.
Proof.
  unfold schema_keys. rewrite !not_elem_of_cons.
  intros (H1 & H2 & H3 & H4 & H5 & H6 & H7 & H8 & H9 & _).
  unfold format_base. cbv zeta.
  destruct (bool_decide _), (has_key "rating" t); lookups_ne; apply lookup_empty.
Qed.

Lemma underscore_not_schema j : Str.startswith "_" j = true -> j ∉ schema_keys.
Proof.
  intros Hj. unfold schema_keys. rewrite !not_elem_of_cons.
  repeat split; try (intros ->; discriminate). apply not_elem_of_nil.
Qed.

(** The fields the base entry copies from the converted item. *)
Lemma format_base_copied t imdb_id type j :
  t !! "imdb_id" = Some imdb_id -> t !! "type" = Some type ->
  j ∈ ["watchlisted_at"; "watched_at"; "type"; "imdb_id"] ->
  format_base t imdb_id type !! j = t !! j.
Proof.
  intros Hi Ht. rewrite !elem_of_cons. unfold format_base. cbv zeta.
  intros [->|[->|[->|[->|[]%elem_of_nil]]]];
    destruct (bool_decide _), (has_key "rating" t); lookups;
    rewrite ?lookup_copy_if_present_eq by (lookups; apply lookup_empty);
    lookups; done.
Qed.

Section Entry.
Variable now_isoformat : nat -> string.

(** X2: with [add_watchlist] every entry, watched or not, has
    [watchlisted_at], the clock reading followed by [Z]; without it no entry
    has the field.  The formatter keeps it. *)
Theorem transformer_watchlisted_at add mark item tick :
  numeric_progress item = true ->
  exists t tick' e,
    convert_item now_isoformat add mark item tick = Ok (t, tick')
    /\ format_item t = Ok e
    /\ t !! "watchlisted_at"
       = (if add then Some (VStr (now_isoformat tick +:+ "Z")) else None)
    /\ e !! "watchlisted_at" = t !! "watchlisted_at".
Proof.
  intros Hn.
  destruct (convert_item_total now_isoformat add mark item tick Hn) as (t & tick' & Hc).
  pose proof (convert_item_type _ _ _ _ _ _ _ Hc) as Ht.
  pose proof (convert_item_imdb_id _ _ _ _ _ _ _ Hc) as Hi.
  destruct (format_item_total t) as [e He]; [by eexists..|].
  exists t, tick', e. split; [done|]. split; [done|].
  apply convert_item_Ok in Hc as (w & hp & _ & _ & -> & _).
  assert (trakt_item_of now_isoformat add mark item tick w hp !! "watchlisted_at"
          = (if add then Some (VStr (now_isoformat tick +:+ "Z")) else None)) as Hwl.
  { unfold trakt_item_of. cbv zeta. lookups'. by destruct add. }
  split; [done|].
  destruct (format_item_Ok _ _ He) as (i & ty & Hi' & Ht' & Hj).
  rewrite Hj, Hwl, (format_base_copied _ _ _ _ Hi' Ht'), Hwl
    by (rewrite !elem_of_cons; auto).
  by destruct add.
Qed.

End Entry.

Section Pipeline.
Variable now_isoformat : nat -> string.

(** X3: the diagnostic fields of an entry: [_href], [_poster_url], [_year],
    [_duration] and [_episode_title] are there exactly when the item's field
    is truthy, and [_progress] exactly when the progress is above 0, each
    with the item's value. *)
Theorem transformer_diagnostics add mark item tick :
  numeric_progress item = true ->
  exists t tick' e hp,
    convert_item now_isoformat add mark item tick = Ok (t, tick')
    /\ format_item t = Ok e
    /\ py_gt (get "progress" (VInt 0) item) (VInt 0) = Ok hp
    /\ e !! "_progress" = (if hp then Some (get "progress" (VInt 0) item) else None)
    /\ forall k k', (k, k') ∈ diagnostic_fields ->
         e !! k' = if truthy (get k VNone item) then Some (get k VNone item) else None.
Proof.
  intros Hn.
  destruct (convert_item_total now_isoformat add mark item tick Hn) as (t & tick' & Hc).
  pose proof (convert_item_type _ _ _ _ _ _ _ Hc) as Ht.
  pose proof (convert_item_imdb_id _ _ _ _ _ _ _ Hc) as Hi.
  destruct (format_item_total t) as [e He]; [by eexists..|].
  destruct (convert_item_Ok _ _ _ _ _ _ _ Hc) as (w & hp & _ & Hhp & Heq & _).
  exists t, tick', e, hp. split; [done|]. split; [done|]. split; [done|].
  destruct (format_item_Ok _ _ He) as (i & ty & _ & _ & Hj).
  assert (forall j v, Str.startswith "_" j = true ->
            t !! j = (if truthy v then Some v else None) ->
            e !! j = if truthy v then Some v else None) as Hcopy.
  { intros j v Hu Hl. rewrite Hj, Hl, Hu.
    rewrite (format_base_other _ _ _ _ (underscore_not_schema j Hu)).
    destruct (truthy v) eqn:Hv; [|done]. by destruct v. }
  split.
  - rewrite Hj. rewrite (format_base_other t i ty "_progress")
      by (by apply underscore_not_schema).
    subst t. unfold trakt_item_of. cbv zeta. lookups'. destruct hp; [|done].
    cbn. unfold py_gt, py_cmp in Hhp.
    by destruct (get "progress" (VInt 0) item).
  - intros k k'. unfold diagnostic_fields. rewrite !elem_of_cons.
    intros [[= -> ->]|[[= -> ->]|[[= -> ->]|[[= -> ->]|[[= -> ->]|[]%elem_of_nil]]]]];
      (apply Hcopy; [done|]); subst t; unfold trakt_item_of; cbv zeta; lookups';
      done.
Qed.

Lemma convert_from_cons now add mark item l k :
  convert_from now add mark (item :: l) k
  = r ← convert_item now add mark item k;
    rs ← convert_from now add mark l r.2;
    Ok (r.1 :: rs.1, rs.2).
Proof.
  cbn [convert_from]. destruct (convert_item _ _ _ _ _) as [[t k']|]; [|done].
  cbn. by destruct (convert_from _ _ _ l k') as [[ts k'']|].
Qed.

Lemma convert_from_no_clock now1 now2 l k1 k2 :
  match convert_from now1 false true l k1, convert_from now2 false true l k2 with
  | Ok (ts1, _), Ok (ts2, _) => ts1 = ts2
  | Raise e1, Raise e2 => e1 = e2
  | _, _ => False
  end.
Proof.
  revert k1 k2. induction l as [|item l IH]; intros k1 k2; [done|].
  rewrite !convert_from_cons, !convert_item_eq.
  destruct (is_watched item) as [w|]; [|done]. cbn [mbind res_bind].
  destruct (py_gt _ _) as [hp|]; [|done]. cbn [mbind res_bind fst snd].
  specialize (IH (k1 + clock_reads false true w)%nat (k2 + clock_reads false true w)%nat).
  destruct (convert_from now1 _ _ l _) as [[ts1 ?]|], (convert_from now2 _ _ l _)
    as [[ts2 ?]|]; cbn; try done.
  by subst.
Qed.

(** X4: the converted and formatted entries are one per item, in the order
    of the items, each with the identifier of its item. *)
Theorem transformer_order add mark l :
  Forall (fun i => numeric_progress i = true) l ->
  exists ts out,
    convert_to_trakt_format now_isoformat l add mark = Ok ts
    /\ format_for_trakt_import ts = Ok out
    /\ Forall2 (fun item e => e !! "imdb_id" = Some (get "imdb_id" VNone item)) l out.
Proof.
  intros Hl.
  destruct (convert_from_spec now_isoformat add mark l 0%nat Hl) as (ts & k & Hc & Hts).
  destruct (format_converted now_isoformat _ _ _ _ Hts) as (out & Ho & Hout).
  exists ts, out. unfold convert_to_trakt_format. rewrite Hc. cbn.
  split; [done|]. split; [done|].
  eapply Forall2_impl; [exact Hout|]. intros item e (k1 & t & k2 & Hci & Hf).
  rewrite (format_item_lookup t e "imdb_id" Hf) by auto.
  by eapply convert_item_imdb_id.
Qed.

End Pipeline.

(** X5: without the watchlist timestamp and with unknown dates marked, the
    conversion never reads the clock: its result is the same for every
    clock. *)
Theorem convert_without_clock now1 now2 l :
  convert_to_trakt_format now1 l false true = convert_to_trakt_format now2 l false true.
Proof.
  unfold convert_to_trakt_format.
  pose proof (convert_from_no_clock now1 now2 l 0%nat 0%nat) as H.
  destruct (convert_from now1 _ _ l _) as [[ts1 ?]|], (convert_from now2 _ _ l _)
    as [[ts2 ?]|]; cbn; try done; by subst.
Qed.

(** X6: [format_for_trakt_import] fails on an item exactly when it has no
    [imdb_id] or no [type], and then with a [KeyError]. *)
Theorem format_item_key_error t :
  match format_item t with
  | Ok _ => is_Some (t !! "imdb_id") /\ is_Some (t !! "type")
  | Raise e => e = KeyError /\ (t !! "imdb_id" = None \/ t !! "type" = None)
  end.
Proof.
  unfold format_item, getitem.
  destruct (t !! "imdb_id") as [i|]; cbn; [|auto].
  destruct (t !! "type") as [ty|]; cbn; [|auto]. split; by eexists.
Qed.

(** X7: besides the fields of the schema, an entry has only the fields of
    the item whose name starts with an underscore and whose value is not
    [None]; no other field of the item reaches the output. *)
Theorem format_item_fields t e j :
  format_item t = Ok e ->
  j ∉ schema_keys ->
  e !! j = if Str.startswith "_" j then not_none (t !! j) else None.
Proof.
  intros (i & ty & _ & _ & Hj)%format_item_Ok Hs.
  rewrite Hj, (format_base_other _ _ _ _ Hs).
  destruct (Str.startswith "_" j); destruct (t !! j) as [[]|]; done.
Qed.

(** X8: an entry has [season] and [episode] exactly when its type is
    [episode]; they are then the item's values, [None] when the item has
    none. *)
Theorem format_item_episode t e ty j :
  format_item t = Ok e ->
  t !! "type" = Some ty ->
  j = "season" \/ j = "episode" ->
  e !! j = if bool_decide (ty = VStr "episode") then Some (get j VNone t) else None.
Proof.
  intros (i & ty' & Hi & Ht & Hj)%format_item_Ok Hty Hse.
  assert (ty' = ty) as -> by congruence.
  assert (Str.startswith "_" j = false) as Hu by (by destruct Hse as [-> | ->]).
  rewrite Hj, Hu. cbn.
  assert (format_base t i ty !! j
          = if bool_decide (ty = VStr "episode") then Some (get j VNone t) else None)
    as ->.
  { unfold format_base. cbv zeta.
    destruct Hse as [-> | ->], (bool_decide _), (has_key "rating" t); lookups;
      rewrite ?lookup_empty; done. }
  by destruct (t !! j).
Qed.

(** ** The command: what a run writes *)

Lemma filter_res_length {A} (f : A -> res bool) l r :
  filter_res f l = Ok r -> (length r <= length l)%nat.
Proof.
  revert r. induction l as [|a l IH]; cbn; intros r H.
  - by injection H as <-.
  - destruct (f a) as [b|]; cbn in H; [|done].
    destruct (filter_res f l) as [r'|]; cbn in H; [|done].
    injection H as <-. specialize (IH r' eq_refl). destruct b; cbn; lia.
Qed.

(** The run on items whose progress is a number: the diagnostics, the
    items kept and their entries. *)
Lemma export_run now_isoformat a l :
  Forall (fun i => numeric_progress i = true) l ->
  exists movies shows episodes watched kept output,
    export now_isoformat a l
    = Ok ([Found (length l) movies shows episodes watched; Exported (length output)],
          output)
    /\ kept `sublist_of` l
    /\ Forall2 (entry_of now_isoformat a) kept output
    /\ (py_gt (VFloat (min_progress a)) (VInt 0) = Ok false ->
        watched_only a = false -> kept = l).
Proof.
  set (P := fun i : dict => numeric_progress i = true).
  intros Hl. unfold export.
  destruct (count_res_total P
    (fun i => Ok (bool_decide (get "type" VNone i = VStr "movie"))) l Hl)
    as [n1 ->]; [eauto|]. cbn.
  destruct (count_res_total P
    (fun i => Ok (bool_decide (get "type" VNone i = VStr "show")
                  && negb (truthy (get "season" VNone i)))) l Hl)
    as [n2 ->]; [eauto|]. cbn.
  destruct (count_res_total P
    (fun i => Ok (is_not_none (get "season" VNone i))) l Hl)
    as [n3 ->]; [eauto|]. cbn.
  destruct (count_res_total P
    (fun i => w ← py_or (get "is_watched" VNone i)
                  (b ← py_gt (get "progress" (VInt 0) i) (VInt 90); Ok (VBool b));
              Ok (truthy w)) l Hl) as [n4 ->].
  { intros i Hi. unfold py_or. destruct (truthy (get "is_watched" VNone i)).
    - cbn. eauto.
    - destruct (py_gt_int_total i 90 Hi) as [b ->]. cbn. eauto. }
  cbn.
  assert (exists b, py_gt (VFloat (min_progress a)) (VInt 0) = Ok b) as [bm Hbm].
  { apply py_cmp_total; [destruct (min_progress a)|]; by eexists. }
  rewrite Hbm. cbn.
  assert (exists l1, (if bm then filter_res (fun item => py_ge (get "progress" (VInt 0) item)
                                   (VFloat (min_progress a))) l else Ok l) = Ok l1
            /\ l1 `sublist_of` l /\ Forall P l1 /\ (bm = false -> l1 = l))
    as (l1 & -> & Hs1 & HP1 & He1).
  { destruct bm.
    - destruct (filter_res_spec P (fun item => py_ge (get "progress" (VInt 0) item)
                  (VFloat (min_progress a))) l Hl) as (r & Hr & ? & ? & Hall).
      { intros i Hi. by apply py_ge_float_total. }
      exists r. by repeat split.
    - exists l. by repeat split. }
  cbn.
  assert (exists l2, (if watched_only a
                      then filter_res (fun item => w ← is_watched item; Ok (truthy w)) l1
                      else Ok l1) = Ok l2
            /\ l2 `sublist_of` l1 /\ Forall P l2 /\ (watched_only a = false -> l2 = l1))
    as (l2 & -> & Hs2 & HP2 & He2).
  { destruct (watched_only a).
    - destruct (filter_res_spec P (fun item => w ← is_watched item; Ok (truthy w))
                  l1 HP1) as (r & Hr & ? & ? & Hall).
      { intros i Hi. destruct (is_watched_total i Hi) as [w ->]. cbn. eauto. }
      exists r. by repeat split.
    - exists l1. by repeat split. }
  cbn. unfold convert_to_trakt_format.
  destruct (convert_from_spec now_isoformat (negb (no_watchlist a))
              (negb (use_current_date a)) l2 0%nat HP2) as (ts & tk & -> & Hts).
  cbn.
  destruct (format_converted now_isoformat _ _ _ _ Hts) as (out & -> & Hout).
  cbn. exists n1, n2, n3, n4, l2, out. split; [done|].
  split; [by etrans|]. split.
  - eapply Forall2_impl; [exact Hout|]. intros item e (k & t & k' & ? & ?).
    by exists k, t, k'.
  - intros Hgt Hw. assert (bm = false) as Hb by congruence.
    by rewrite (He2 Hw), (He1 Hb).
Qed.

(** X9: when [min_progress] is not above 0 and [watched_only] is not set,
    nothing is dropped: the output has one entry per item, in order, whatever
    optional fields the items lack. *)
Theorem export_no_filters now_isoformat a l :
  Forall (fun i => numeric_progress i = true) l ->
  py_gt (VFloat (min_progress a)) (VInt 0) = Ok false ->
  watched_only a = false ->
  exists stderr output,
    export now_isoformat a l = Ok (stderr, output)
    /\ Forall2 (entry_of now_isoformat a) l output.
Proof.
  intros Hl Hm Hw.
  destruct (export_run now_isoformat a l Hl)
    as (n1 & n2 & n3 & n4 & kept & out & He & _ & Hout & Hk).
  rewrite (Hk Hm Hw) in Hout. eauto.
Qed.

Section Main.
Variable unquote : string -> string.
Variable tokenize : string -> list event.
Variable now_isoformat : nat -> string.

(** X10: the run ends with the NoItemsFound failure (exit status 1, nothing
    written) exactly when the input has a character that is no whitespace
    and the scanner returns no item. *)
Theorem main_no_items a html_content :
  main unquote tokenize now_isoformat a html_content = Exit 1 [NoItemsFound]
  <-> whitespace_only html_content = false
      /\ parse_stremio_html unquote tokenize html_content = Ok [].
Proof.
  unfold main. rewrite <- (not_true_iff_false (whitespace_only _)), <- strip_empty_iff.
  destruct (Str.nonempty (Str.strip html_content)); cbn.
  - destruct (parse_stremio_html _ _ _) as [[|it l]|e].
    + split; [by split|done].
    + split; [|by intros [_ ?]].
      destruct (export _ _ _) as [[? ?]|?]; discriminate.
    + split; [discriminate|by intros [_ ?]].
  - split; [discriminate|]. by intros [? _].
Qed.


End Main.

(** ** The scanner: what each handler stores *)

Lemma fwrites_trans d1 d2 d3 : fwrites d1 d2 -> fwrites d2 d3 -> fwrites d1 d3.
Proof.
  intros H12 H23. induction H23 as [|d d' k v _ IH Hw]; [done|].
  econstructor; [by apply IH|done].
Qed.

Lemma fwrites_one d k v : fwrite k v -> fwrites d (<[k := v]> d).
Proof. intros. econstructor; [constructor|done]. Qed.

Lemma fwrites_if d k v (b : bool) :
  fwrite k v -> fwrites d (if b then <[k := v]> d else d).
Proof. destruct b; [apply fwrites_one|constructor]. Qed.

Ltac text_field := apply F_text; unfold text_fields; rewrite !elem_of_cons; auto 10.

Section FBlocks.
Variable unquote : string -> string.

Lemma watched_icon_fwrites ad it it' :
  watched_icon ad it = Ok it' -> fwrites it it'.
Proof.
  unfold watched_icon. intros H. inv_bind H. injection H as <-.
  apply fwrites_if. constructor.
Qed.

Lemma progress_bar_fwrites ad it it' :
  progress_bar ad it = Ok it' -> fwrites it it'.
Proof.
  unfold progress_bar. intros H. inv_bind_as H b1 Hb1. inv_bind_as H b Hb.
  destruct b; [|injection H as <-; constructor].
  inv_bind_as H m Hm. destruct m as [g1|]; [|injection H as <-; constructor].
  inv_bind_as H f Hf. injection H as <-. apply fwrites_one. by econstructor.
Qed.

Lemma poster_style_fwrites ad it it' :
  poster_style unquote ad it = Ok it' -> fwrites it it'.
Proof.
  unfold poster_style. intros H. inv_bind_as H l Hl.
  destruct (_ || _); [|injection H as <-; constructor].
  inv_bind_as H m Hm. inv_bind_as H b Hb.
  assert (fwrites it (match m with
                      | Some g1 => <["poster_url" := VStr (unquote g1)]> it
                      | None => it end)) as Hw.
  { destruct m; [apply fwrites_one; text_field|constructor]. }
  destruct b; [|by injection H as <-].
  inv_bind_as H sm Hsm. injection H as <-.
  destruct sm; [|done]. econstructor; [exact Hw|text_field].
Qed.

Lemma img_tag_fwrites ad it it' :
  img_tag unquote ad it = Ok it' -> fwrites it it'.
Proof.
  unfold img_tag. intros H. inv_bind_as H b Hb. inv_bind_as H b' Hb'.
  injection H as <-.
  assert (fwrites it (if b then <["poster_url" :=
                                   VStr (unquote (default "" (get_attr "src" ad)))]> it
                      else it)) as Hw by (apply fwrites_if; text_field).
  destruct b'; [|done].
  unfold attr_and_unset in Hb'.
  destruct (get_attr "alt" ad) as [alt|]; [|done].
  econstructor; [exact Hw|text_field].
Qed.

Lemma inline_style_fwrites ad it it' :
  inline_style unquote ad it = Ok it' -> fwrites it it'.
Proof.
  unfold inline_style. intros H. inv_bind_as H hb Hhb. inv_bind_as H b Hb.
  destruct b; [|injection H as <-; constructor].
  inv_bind_as H m Hm. injection H as <-.
  destruct m; [apply fwrites_one; text_field|constructor].
Qed.

Lemma store_text_fwrites field text it it' :
  store_text field text it = Ok it' -> fwrites it it'.
Proof.
  unfold store_text. intros H.
  repeat case_bool_decide.
  - injection H as <-.
    destruct (Re.year text) as [g0|] eqn:Hy.
    + econstructor; [apply fwrites_one; text_field|by econstructor].
    + apply fwrites_one; text_field.
  - injection H as <-. apply fwrites_one; text_field.
  - injection H as <-. apply fwrites_one; text_field.
  - inv_bind_as H cur Hcur. injection H as <-.
    destruct (truthy cur); [constructor|apply fwrites_one; text_field].
  - injection H as <-. constructor.
Qed.

Lemma fstep_refl p : fstep p p.
Proof.
  unfold fstep. destruct (current_item p); repeat split; constructor.
Qed.

Lemma fstep_trans p1 p2 p3 : fstep p1 p2 -> fstep p2 p3 -> fstep p1 p3.
Proof.
  unfold fstep. intros (Hi & Hm & Hc) (Hi' & Hm' & Hc').
  split; [congruence|]. split; [congruence|].
  destruct (current_item p1), (current_item p2), (current_item p3); try done.
  by eapply fwrites_trans.
Qed.

Lemma on_item_fstep (g : bool) f p p' :
  (forall it it', f it = Ok it' -> fwrites it it') ->
  on_item g f p = Ok p' -> fstep p p'.
Proof.
  intros Hf. unfold on_item.
  destruct (open_item p) as [it|] eqn:Ho; [|intros [= <-]; apply fstep_refl].
  destruct g; [|intros [= <-]; apply fstep_refl].
  intros H. inv_bind_as H it' Hit'. injection H as <-.
  apply open_item_Some in Ho as [Hc _].
  unfold fstep. cbn. rewrite Hc. auto.
Qed.

Lemma capture_rule_fstep words field tag ad p p' :
  capture_rule words field tag ad p = Ok p' -> fstep p p'.
Proof.
  intros [-> | ->]%capture_rule_cases; [apply fstep_refl|].
  unfold fstep. cbn. destruct (current_item p); repeat split; constructor.
Qed.

(** A start tag first may start an item, then stores fields in the open
    item. *)
Lemma handle_starttag_fsteps tag a p p' :
  handle_starttag unquote tag a p = Ok p' ->
  exists p1, start_container tag (dict_of_attrs a) p = Ok p1 /\ fstep p1 p'.
Proof.
  unfold handle_starttag. intros H. inv_bind_as H p1 H1. exists p1. split; [done|].
  inv_bind_as H q1 Hq1. inv_bind_as H q2 Hq2. inv_bind_as H q3 Hq3.
  inv_bind_as H q4 Hq4. inv_bind_as H q5 Hq5. inv_bind_as H q6 Hq6.
  inv_bind_as H q7 Hq7. inv_bind_as H q8 Hq8.
  apply (on_item_fstep _ _ _ _ (watched_icon_fwrites _)) in Hq1.
  apply (on_item_fstep _ _ _ _ (progress_bar_fwrites _)) in Hq2.
  apply (on_item_fstep _ _ _ _ (poster_style_fwrites _)) in Hq3.
  apply (on_item_fstep _ _ _ _ (img_tag_fwrites _)) in Hq4.
  apply capture_rule_fstep in Hq5, Hq6, Hq7, Hq8.
  apply (on_item_fstep _ _ _ _ (inline_style_fwrites _)) in H.
  repeat (eapply fstep_trans; [eassumption|]). apply fstep_refl.
Qed.

Lemma handle_data_fstep data p p' : handle_data data p = Ok p' -> fstep p p'.
Proof. apply on_item_fstep, store_text_fwrites. Qed.

End FBlocks.

(** A container start tag either leaves the open item alone or replaces it
    by the item of its link target. *)
Lemma start_container_inv tag ad p p' :
  start_container tag ad p = Ok p' ->
  items p' = items p
  /\ (current_item p' = current_item p
      \/ exists classes href media_type imdb_id,
           tag = "a"
           /\ get_attr "class" ad = Some classes
           /\ Str.contains "meta-item-container" classes = true
           /\ get_attr "href" ad = Some href
           /\ Re.imdb href = Some (media_type, imdb_id)
           /\ current_item p' = Some (root_item ad href media_type imdb_id)).
Proof.
  unfold start_container. intros H.
  destruct (String.eqb_spec tag "a") as [->|]; [|injection H as <-; auto].
  destruct (has_key "class" ad); [|injection H as <-; auto]. cbn in H.
  destruct (get_attr "class" ad) as [classes|] eqn:Hc; [|done]. cbn in H.
  destruct (Str.contains "meta-item-container" classes) eqn:Hm;
    [|injection H as <-; auto].
  destruct (get_attr "href" ad) as [href|] eqn:Hh; [|done]. cbn in H.
  destruct (Re.imdb href) as [[media_type imdb_id]|] eqn:Hi;
    [|injection H as <-; auto].
  cbn in H. injection H as <-. cbn. split; [done|]. right.
  by exists classes, href, media_type, imdb_id.
Qed.

(** ** Invariants of the scanner, from the link target on *)

Section Scan.
Variable unquote : string -> string.
Variable base : list dict.
Variables P Q : dict -> Prop.
Hypothesis P_root : forall ad href media_type imdb_id,
  Re.imdb href = Some (media_type, imdb_id) -> P (root_item ad href media_type imdb_id).
Hypothesis P_fwrite : forall d k v, fwrite k v -> P d -> P (<[k := v]> d).
Hypothesis P_Q : forall d, P d -> Q (strip_none d).

Lemma P_fwrites d d' : fwrites d d' -> P d -> P d'.
Proof. induction 1; eauto. Qed.

Lemma fstep_keeps p p' : fstep p p' -> inv base P Q p -> inv base P Q p'.
Proof.
  unfold fstep, inv. intros (Hi & _ & Hc) [HQ HP]. rewrite Hi. split; [done|].
  intros it' Hit'. rewrite Hit' in Hc.
  destruct (current_item p) as [it|]; [|done]. eauto using P_fwrites.
Qed.

Lemma handle_keeps e p p' :
  handle unquote e p = Ok p' -> inv base P Q p -> inv base P Q p'.
Proof.
  destruct e as [tag a|tag|data]; cbn; intros H Hinv.
  - apply handle_starttag_fsteps in H as (p1 & H1 & Hs).
    apply (fstep_keeps p1 p'); [done|].
    apply start_container_inv in H1
      as [Hi [Hc|(c & h & m & i & _ & _ & _ & _ & Him & Hc)]];
      destruct Hinv as [HQ HP]; (split; [by rewrite Hi|]); rewrite Hc; [done|].
    intros it [= <-]. by apply P_root.
  - apply handle_endtag_cases in H as [[Hi Hc]|(it & Hit & Hi & Hc)];
      destruct Hinv as [(new & Hn & HQ) HP]; split; rewrite ?Hi, ?Hc; try done;
      [eauto|].
    exists (new ++ [strip_none it])%list. rewrite Hn, app_assoc. split; [done|].
    apply Forall_app. split; [done|]. repeat constructor. auto.
  - apply handle_data_fstep in H. by apply (fstep_keeps p).
Qed.

Lemma feed_keeps evs p p' :
  feed unquote evs p = Ok p' -> inv base P Q p -> inv base P Q p'.
Proof.
  revert p. induction evs as [|e evs IH]; cbn; intros p H Hinv.
  - by injection H as <-.
  - inv_bind_as H q Hq. eauto using handle_keeps.
Qed.

End Scan.

Lemma scanned_items unquote P Q evs p :
  (forall ad href media_type imdb_id,
     Re.imdb href = Some (media_type, imdb_id) -> P (root_item ad href media_type imdb_id)) ->
  (forall d k v, fwrite k v -> P d -> P (<[k := v]> d)) ->
  (forall d, P d -> Q (strip_none d)) ->
  feed unquote evs init = Ok p ->
  Forall Q (items p) /\ forall it, current_item p = Some it -> P it.
Proof.
  intros H1 H2 H3 Hf.
  destruct (feed_keeps unquote [] P Q H1 H2 H3 evs init p Hf (inv_init P Q))
    as [(new & Hn & HQ) HP].
  cbn in Hn. by subst.
Qed.

(** ** The scanner: identity, order and number of the items *)

Lemma fwrite_key k v :
  fwrite k v ->
  (k ∉ ["href"; "imdb_id"; "type"; "season"; "episode"])
  /\ Str.startswith "data-" k = false
  /\ v <> VNone.
Proof.
  destruct 1 as [| | k s Hk |]; try (repeat split; [|done..];
    rewrite !not_elem_of_cons; repeat split; try discriminate; apply not_elem_of_nil).
  unfold text_fields in Hk. rewrite !elem_of_cons in Hk.
  destruct Hk as [->|[->|[->|[->|[->|[->|[]%elem_of_nil]]]]]];
    (repeat split; [|done..]);
    rewrite !not_elem_of_cons; repeat split; try discriminate; apply not_elem_of_nil.
Qed.

Lemma fwrite_lookup_ne (d : dict) k v j :
  fwrite k v -> j ∈ ["href"; "imdb_id"; "type"; "season"; "episode"] ->
  <[k := v]> d !! j = d !! j.
Proof.
  intros (Hk & _)%fwrite_key Hj. apply dict_insert_ne. by intros ->.
Qed.

Lemma imdb_shape href media_type imdb_id :
  Re.imdb href = Some (media_type, imdb_id) ->
  (media_type = "movie" \/ media_type = "series")
  /\ exists ds, imdb_id = "tt" +:+ ds /\ digits ds = true.
Proof.
  unfold Re.imdb. intros (s' & H)%search_Some. unfold Re.imdb_at in H.
  apply bind_Some in H as (r & _ & H).
  apply bind_Some in H as ([media r1] & Hm & H).
  apply bind_Some in H as (r2 & _ & H).
  apply bind_Some in H as ([ds r3] & Hd & H).
  injection H as <- <-. split.
  - destruct (Str.strip_prefix "movie" r); [injection Hm as <- _; by left|].
    apply bind_Some in Hm as (r' & _ & Hm). injection Hm as <- _. by right.
  - exists ds. split; [done|]. unfold digits.
    rewrite (some_of_forallb _ _ _ _ Hd), andb_true_r.
    unfold Str.some_of in Hd. destruct (Str.span Str.is_digit r2) as [a b].
    destruct (Str.nonempty a) eqn:Ha; [|done]. by injection Hd as <- _.
Qed.

Lemma root_item_from_link_target ad href media_type imdb_id :
  Re.imdb href = Some (media_type, imdb_id) ->
  from_link_target (Some VNone) (root_item ad href media_type imdb_id).
Proof.
  intros Hi. exists href, media_type, imdb_id. unfold root_item.
  destruct (new_item_lookups ad (Re.episode href) imdb_id media_type
              (get_attr "title" ad) href) as (H1 & H2 & H3 & _ & _ & _ & Hs & He).
  split; [done|]. split; [done|]. split; [done|]. split; [done|].
  rewrite Hs, He. unfold set_episode.
  destruct (Re.episode href) as [[se ep]|]; unfold new_item; lookups; done.
Qed.

Lemma from_link_target_fwrite d k v :
  fwrite k v -> from_link_target (Some VNone) d -> from_link_target (Some VNone) (<[k := v]> d).
Proof.
  intros Hw (href & m & i & H1 & H2 & H3 & H4 & H5). exists href, m, i.
  rewrite !(fwrite_lookup_ne d k v) by first [done | rewrite !elem_of_cons; auto 10].
  done.
Qed.

Lemma from_link_target_strip d :
  from_link_target (Some VNone) d -> from_link_target None (strip_none d).
Proof.
  intros (href & m & i & H1 & H2 & H3 & H4 & H5). exists href, m, i.
  rewrite !strip_none_lookup, H1, H3, H4. repeat split; try done.
  destruct (Re.episode href) as [[se ep]|]; destruct H5 as [-> ->]; done.
Qed.

(** X12: the identifier, the kind, the season and the episode of every item
    the scanner produces are the ones the patterns find in the link target
    the item keeps in [href]: the identifier is [tt] and one or more digits,
    the kind is [movie], or [show] for a series. *)
Theorem scanner_identity unquote evs p :
  feed unquote evs init = Ok p ->
  Forall (fun it =>
            from_link_target None it
            /\ exists ds kind,
                 it !! "imdb_id" = Some (VStr ("tt" +:+ ds)) /\ digits ds = true
                 /\ it !! "type" = Some (VStr kind)
                 /\ (kind = "movie" \/ kind = "show"))
         (items p).
Proof.
  intros H.
  destruct (scanned_items unquote _ _ evs p root_item_from_link_target
              from_link_target_fwrite from_link_target_strip H) as [HQ _].
  eapply Forall_impl; [exact HQ|]. intros it Hit. split; [done|].
  destruct Hit as (href & m & i & _ & Hi & Hid & Hty & _).
  destruct (imdb_shape _ _ _ Hi) as [Hm (ds & -> & Hds)].
  exists ds, (kind_of m). repeat split; try done.
  unfold kind_of. destruct Hm as [-> | ->]; cbn; auto.
Qed.

(** X13: the scanner only appends: the items produced so far stay as they
    are, in their order, whatever events follow. *)
Theorem feed_appends unquote evs p p' :
  feed unquote evs p = Ok p' ->
  exists new, items p' = (items p ++ new)%list.
Proof.
  intros H.
  destruct (feed_keeps unquote (items p) (fun _ => True) (fun _ => True)
              (fun _ _ _ _ _ => I) (fun _ _ _ _ _ => I) (fun _ _ => I) evs p p' H)
    as [(new & Hn & _) _]; [|eauto].
  split; [|done]. exists []. split; [by rewrite app_nil_r|constructor].
Qed.

Lemma fstep_count p p' :
  fstep p p' -> length (items p') = length (items p) /\ open_count p' = open_count p.
Proof.
  intros (Hi & _ & Hc). rewrite Hi. split; [done|]. unfold open_count.
  by destruct (current_item p), (current_item p').
Qed.

Lemma handle_count unquote e p p' :
  handle unquote e p = Ok p' ->
  (length (items p') + open_count p'
   <= length (items p) + open_count p + (if container_start e then 1 else 0))%nat.
Proof.
  destruct e as [tag a|tag|data]; cbn [handle]; intros H.
  - apply handle_starttag_fsteps in H as (p1 & H1 & [-> ->]%fstep_count).
    apply start_container_inv in H1
      as [-> [Hc|(c & h & m & i & -> & Hcl & Hm & Hh & Hi & Hc)]].
    + unfold open_count. rewrite Hc. lia.
    + unfold container_start. rewrite Hcl, Hh, Hm, Hi. cbn.
      unfold open_count. rewrite Hc. destruct (current_item p); lia.
  - apply handle_endtag_cases in H as [[-> Hc]|(it & Hit & -> & Hc)];
      unfold open_count; rewrite Hc; [lia|]. rewrite Hit, length_app. cbn. lia.
  - apply handle_data_fstep in H as [-> ->]%fstep_count. cbn. lia.
Qed.

(** X14: every item comes from a container start tag of its own: the
    scanner produces at most as many items as the document has start tags
    of an [a] with the container class and an identifier in its link
    target. *)
Theorem feed_count unquote evs p p' :
  feed unquote evs p = Ok p' ->
  (length (items p') + open_count p'
   <= length (items p) + open_count p + length (List.filter container_start evs))%nat.
Proof.
  revert p. induction evs as [|e evs IH]; cbn [feed]; intros p H.
  - injection H as <-. cbn. lia.
  - inv_bind_as H q Hq. apply handle_count in Hq. apply IH in H.
    cbn [List.filter]. destruct (container_start e); cbn [length] in *; lia.
Qed.

(** ** The scanner: markup outside an item, and what makes it raise *)

Lemma open_item_None p : current_item p = None -> open_item p = None.
Proof. unfold open_item. by intros ->. Qed.

Lemma res_bind_Ok {A B} (a : A) (f : A -> res B) : Ok a ≫= f = f a.
Proof. done. Qed.

Lemma on_item_closed g f p : open_item p = None -> on_item g f p = Ok p.
Proof. unfold on_item. by intros ->. Qed.

Lemma on_item_false f p : on_item false f p = Ok p.
Proof. unfold on_item. by destruct (open_item p). Qed.

Lemma capture_rule_closed words field tag ad p :
  open_item p = None -> capture_rule words field tag ad p = Ok p.
Proof. unfold capture_rule. by intros ->. Qed.

(** X15: while no item is open, a start tag other than [a] and a text
    change nothing and raise nothing, whatever their attributes are. *)
Theorem outside_item_ignored unquote p :
  current_item p = None ->
  (forall tag a, String.eqb tag "a" = false -> handle_starttag unquote tag a p = Ok p)
  /\ (forall data, handle_data data p = Ok p).
Proof.
  intros Ho%open_item_None. split.
  - intros tag a Ha. unfold handle_starttag.
    rewrite start_container_other by done.
    repeat (rewrite res_bind_Ok;
            rewrite ?on_item_closed, ?capture_rule_closed by done).
    done.
  - intros data. by apply on_item_closed.
Qed.

(** X16: a class attribute without a value makes the scanner raise: a
    [TypeError] on an [a], in any state, and on a [div] while an item is
    open, an [AttributeError] on a [span] or [p] while an item is open. *)
Theorem valueless_class_raises unquote a p :
  dict_of_attrs a !! "class" = Some None ->
  handle_starttag unquote "a" a p = Raise TypeError
  /\ (forall it, open_item p = Some it ->
        handle_starttag unquote "div" a p = Raise TypeError
        /\ handle_starttag unquote "span" a p = Raise AttributeError
        /\ handle_starttag unquote "p" a p = Raise AttributeError).
Proof.
  intros Hc. split.
  - unfold handle_starttag, start_container, has_key, get_attr. by rewrite Hc.
  - intros it Ho.
    assert (has_key "class" (dict_of_attrs a) = true) as Hk
      by (unfold has_key; by rewrite Hc).
    assert (get_attr "class" (dict_of_attrs a) = None) as Hg
      by (unfold get_attr; by rewrite Hc).
    repeat split; unfold handle_starttag;
      rewrite start_container_other by done; rewrite res_bind_Ok, Hk.
    + assert (on_item (String.eqb "div" "div" && true)
                (watched_icon (dict_of_attrs a)) p = Raise TypeError) as ->; [|done].
      unfold on_item, watched_icon. by rewrite Ho, Hg.
    + change (String.eqb "span" "div") with false.
      change (String.eqb "span" "img") with false.
      repeat rewrite on_item_false, res_bind_Ok.
      assert (capture_rule title_words "title_text" "span" (dict_of_attrs a) p
              = Raise AttributeError) as ->; [|done].
      unfold capture_rule. by rewrite Ho, Hk, Hg.
    + change (String.eqb "p" "div") with false.
      change (String.eqb "p" "img") with false.
      repeat rewrite on_item_false, res_bind_Ok.
      assert (capture_rule title_words "title_text" "p" (dict_of_attrs a) p
              = Raise AttributeError) as ->; [|done].
      unfold capture_rule. by rewrite Ho, Hk, Hg.
Qed.

Lemma py_float_raises s e : py_float s = Raise e -> e = ValueError.
Proof.
  unfold py_float. destruct (Str.span Str.is_digit s) as [ip r].
  destruct r as [|c fp].
  - destruct (Str.nonempty ip); congruence.
  - destruct (Str.span Str.is_digit fp) as [fd r']. destruct (_ && _); congruence.
Qed.

(** X17: a progress bar whose width is no decimal number (no digit, or more
    than one dot) makes the scanner raise a [ValueError] while an item is
    open. *)
Theorem malformed_width_raises unquote a p it classes style g1 e :
  open_item p = Some it ->
  get_attr "class" (dict_of_attrs a) = Some classes ->
  Str.contains "progress-bar" classes = true ->
  get_attr "style" (dict_of_attrs a) = Some style ->
  Re.width style = Some g1 ->
  py_float g1 = Raise e ->
  handle_starttag unquote "div" a p = Raise ValueError.
Proof.
  intros Ho Hc Hpb Hs Hw Hf. apply py_float_raises in Hf as Hv. subst e.
  assert (has_key "class" (dict_of_attrs a) = true) as Hk.
  { unfold has_key, get_attr in *. destruct (dict_of_attrs a !! "class"); [done|].
    cbn in Hc. injection Hc as <-. done. }
  unfold handle_starttag. rewrite start_container_other by done.
  rewrite res_bind_Ok, Hk. change (String.eqb "div" "div" && true) with true.
  destruct (on_item true (watched_icon (dict_of_attrs a)) p) as [q1|] eqn:Hq1.
  2: { unfold on_item, watched_icon in Hq1. rewrite Ho, Hc in Hq1. done. }
  destruct (on_item_open true _ _ _ _ _ (fun _ => watched_icon_writes true _) Ho Hq1)
    as (it1 & _ & -> & Ho1).
  rewrite res_bind_Ok.
  assert (on_item true (progress_bar (dict_of_attrs a))
            (set_current_item (Some it1) p) = Raise ValueError) as ->; [|done].
  unfold on_item. rewrite Ho1.
  unfold progress_bar. rewrite Hc, Hs. cbn. rewrite Hpb. cbn. rewrite Hw. cbn.
  by rewrite Hf.
Qed.

(** X18: a container start tag whose link target has no identifier starts no
    item: met while no item is open, it and its end tag leave the output and
    the open item as they were. *)
Theorem container_without_identifier unquote a p classes href :
  current_item p = None ->
  get_attr "class" (dict_of_attrs a) = Some classes ->
  Str.contains "meta-item-container" classes = true ->
  get_attr "href" (dict_of_attrs a) = Some href ->
  Re.imdb href = None ->
  feed unquote [StartTag "a" a; EndTag "a"] p = Ok (set_in_meta_item false p).
Proof.
  intros Hcur Hc Hm Hh Hi.
  assert (has_key "class" (dict_of_attrs a) = true) as Hk.
  { unfold has_key, get_attr in *. destruct (dict_of_attrs a !! "class"); [done|].
    cbn in Hc. injection Hc as <-. done. }
  assert (handle_starttag unquote "a" a p = Ok (set_in_meta_item true p)) as Hst.
  { assert (start_container "a" (dict_of_attrs a) p = Ok (set_in_meta_item true p))
      as Hsc.
    { unfold start_container. rewrite Hk, Hc. cbn. rewrite Hm, Hh. cbn.
      by rewrite Hi. }
    assert (open_item (set_in_meta_item true p) = None) as Ho
      by (by apply open_item_None).
    unfold handle_starttag. rewrite Hsc.
    repeat (rewrite res_bind_Ok;
            rewrite ?on_item_closed, ?capture_rule_closed by done).
    done. }
  cbn [feed handle]. rewrite Hst. cbn [mbind res_bind].
  unfold handle_endtag, open_item. cbn. rewrite Hcur. by destruct p.
Qed.

(** ** The scanner: the year *)

Lemma year_at_range prev s y :
  Re.year_at prev s = Some y -> 1900 <= Str.int_of_digits y <= 2099.
Proof.
  unfold Re.year_at. destruct s as [|a [|b [|c [|d r]]]]; try done.
  destruct (_ && _ && _ && _ && _) eqn:E; [|done]. intros [= <-].
  rewrite !andb_true_iff, orb_true_iff, !andb_true_iff, !Z.eqb_eq in E.
  destruct E as [[[[_ Hab] Hc] Hd] _].
  unfold Str.is_digit, Str.between in Hc, Hd.
  rewrite andb_true_iff, !Z.leb_le in Hc, Hd.
  unfold Str.int_of_digits. cbn [list_ascii_of_string fold_left].
  unfold Str.digit_val. lia.
Qed.

Lemma year_range text g0 :
  Re.year text = Some g0 -> 1900 <= Str.int_of_digits g0 <= 2099.
Proof.
  unfold Re.year. generalize false.
  induction text as [|c r IH]; intros prev; cbn [Re.year_from].
  - done.
  - destruct (Re.year_at prev (String c r)) as [y|] eqn:E.
    + intros [= <-]. by eapply year_at_range.
    + apply IH.
Qed.

Lemma root_item_year ad href media_type imdb_id :
  year_in_range (Some VNone) (root_item ad href media_type imdb_id).
Proof.
  left. unfold root_item. rewrite store_data_attrs_lookup by done.
  rewrite set_episode_lookup_ne by done. unfold new_item. by lookups.
Qed.

Lemma year_in_range_fwrite d k v :
  fwrite k v -> year_in_range (Some VNone) d -> year_in_range (Some VNone) (<[k := v]> d).
Proof.
  intros Hw Hy. destruct Hw as [| s f Hf | k s Hk | text g0 Hg].
  - unfold year_in_range. by rewrite dict_insert_ne.
  - unfold year_in_range. by rewrite dict_insert_ne.
  - assert (k <> "year") as Hne.
    { intros ->. unfold text_fields in Hk. rewrite !elem_of_cons in Hk.
      destruct Hk as [?|[?|[?|[?|[?|[?|[]%elem_of_nil]]]]]]; discriminate. }
    unfold year_in_range. by rewrite dict_insert_ne.
  - right. exists (Str.int_of_digits g0). rewrite dict_insert_eq.
    split; [done|]. by eapply year_range.
Qed.

Lemma year_in_range_strip d :
  year_in_range (Some VNone) d -> year_in_range None (strip_none d).
Proof.
  unfold year_in_range. rewrite strip_none_lookup.
  intros [-> | (y & -> & Hy)]; [by left|right; eauto].
Qed.

(** X19: the year of every item the scanner produces is, when the item has
    one, an integer from 1900 to 2099. *)
Theorem scanner_year unquote evs p :
  feed unquote evs init = Ok p -> Forall (year_in_range None) (items p).
Proof.
  intros H.
  by destruct (scanned_items unquote _ _ evs p (fun ad href m i _ => root_item_year ad href m i)
                 year_in_range_fwrite year_in_range_strip H).
Qed.

(** ** The scanner: the data attributes of a container *)

Lemma start_container_starts ad p classes href media_type imdb_id :
  get_attr "class" ad = Some classes ->
  Str.contains "meta-item-container" classes = true ->
  get_attr "href" ad = Some href ->
  Re.imdb href = Some (media_type, imdb_id) ->
  start_container "a" ad p
  = Ok (set_current_item (Some (root_item ad href media_type imdb_id))
          (set_in_meta_item true p)).
Proof.
  intros Hc Hm Hh Hi.
  assert (has_key "class" ad = true) as Hk.
  { unfold has_key, get_attr in *. destruct (ad !! "class"); [done|].
    cbn in Hc. injection Hc as <-. done. }
  unfold start_container. rewrite Hk, Hc. cbn. rewrite Hm, Hh. cbn. by rewrite Hi.
Qed.

Lemma new_item_no_data imdb_id media_type title href em j :
  Str.startswith "data-" j = true ->
  set_episode em (new_item imdb_id media_type title href) !! j = None.
Proof.
  intros Hj.
  rewrite set_episode_lookup_ne by (intros ->; discriminate).
  unfold new_item.
  repeat (rewrite dict_insert_ne by (intros <-; discriminate)).
  apply lookup_empty.
Qed.

Lemma root_item_data ad href media_type imdb_id j :
  Str.startswith "data-" j = true ->
  root_item ad href media_type imdb_id !! j = of_attr <$> ad !! j.
Proof.
  intros Hj. unfold root_item, store_data_attrs.
  rewrite (map_fold_insert_lookup_gen (fun key _ => Str.startswith "data-" key) of_attr).
  rewrite Hj. destruct (ad !! j); [done|]. by apply new_item_no_data.
Qed.

Lemma fwrites_data d d' j :
  fwrites d d' -> Str.startswith "data-" j = true -> d' !! j = d !! j.
Proof.
  intros H Hj. induction H as [|d d' k v _ IH Hw]; [done|].
  apply fwrite_key in Hw as (_ & Hk & _).
  rewrite dict_insert_ne; [done|]. intros ->. congruence.
Qed.

(** X20: a start tag that starts an item stores every attribute whose name
    starts with [data-] in the item, under its name and with its value
    ([None] when it has none), and no other field of such a name. *)
Theorem data_attributes_stored unquote a p p' :
  container_start (StartTag "a" a) = true ->
  handle_starttag unquote "a" a p = Ok p' ->
  exists it,
    current_item p' = Some it
    /\ forall k, Str.startswith "data-" k = true ->
         it !! k = of_attr <$> dict_of_attrs a !! k.
Proof.
  unfold container_start. cbn [String.eqb Ascii.eqb Bool.eqb andb].
  destruct (get_attr "class" (dict_of_attrs a)) as [classes|] eqn:Hc; [|done].
  destruct (get_attr "href" (dict_of_attrs a)) as [href|] eqn:Hh; [|done].
  destruct (Str.contains "meta-item-container" classes) eqn:Hm; [|done].
  destruct (Re.imdb href) as [[media_type imdb_id]|] eqn:Hi; [|done].
  intros _ (p1 & H1 & Hs)%handle_starttag_fsteps.
  rewrite (start_container_starts _ _ _ _ _ _ Hc Hm Hh Hi) in H1.
  injection H1 as <-. destruct Hs as (_ & _ & Hw). cbn in Hw.
  destruct (current_item p') as [it|]; [|done]. exists it. split; [done|].
  intros k Hk. rewrite (fwrites_data _ _ _ Hw Hk). by apply root_item_data.
Qed.

(** ** The scanner: the first title stays *)

Section Title.
Variable unquote : string -> string.
Variable t : pyval.
Hypothesis t_truthy : truthy t = true.


Lemma watched_icon_title ad it it' :
  watched_icon ad it = Ok it' -> it !! "title" = Some t -> it' !! "title" = Some t.
Proof.
  unfold watched_icon. intros H Ht. inv_bind_as H b Hb. injection H as <-.
  destruct b; [by rewrite dict_insert_ne|done].
Qed.

Lemma progress_bar_title ad it it' :
  progress_bar ad it = Ok it' -> it !! "title" = Some t -> it' !! "title" = Some t.
Proof.
  unfold progress_bar. intros H Ht. inv_bind_as H b1 Hb1. inv_bind_as H b Hb.
  destruct b; [|by injection H as <-].
  inv_bind_as H m Hm. destruct m as [g1|]; [|by injection H as <-].
  inv_bind_as H f Hf. injection H as <-. by rewrite dict_insert_ne.
Qed.

Lemma poster_style_title ad it it' :
  poster_style unquote ad it = Ok it' -> it !! "title" = Some t -> it' !! "title" = Some t.
Proof.
  unfold poster_style. intros H Ht. inv_bind_as H l Hl.
  destruct (_ || _); [|by injection H as <-].
  inv_bind_as H m Hm. inv_bind_as H b Hb.
  assert ((match m with
           | Some g1 => <["poster_url" := VStr (unquote g1)]> it
           | None => it end) !! "title" = Some t) as Ht'.
  { destruct m; [by rewrite dict_insert_ne|done]. }
  destruct b; [|by injection H as <-].
  inv_bind_as H sm Hsm. injection H as <-.
  destruct sm; [by rewrite dict_insert_ne|done].
Qed.

Lemma img_tag_title ad it it' :
  img_tag unquote ad it = Ok it' -> it !! "title" = Some t -> it' !! "title" = Some t.
Proof.
  unfold img_tag. intros H Ht. inv_bind_as H b Hb. inv_bind_as H b' Hb'.
  injection H as <-.
  assert ((if b then <["poster_url" := VStr (unquote (default "" (get_attr "src" ad)))]> it
           else it) !! "title" = Some t) as Ht'.
  { destruct b; [by rewrite dict_insert_ne|done]. }
  unfold attr_and_unset, getitem in Hb'. rewrite Ht' in Hb'.
  destruct (truthy (of_attr (get_attr "alt" ad))).
  - cbn in Hb'. rewrite t_truthy in Hb'. by injection Hb' as <-.
  - by injection Hb' as <-.
Qed.

Lemma inline_style_title ad it it' :
  inline_style unquote ad it = Ok it' -> it !! "title" = Some t -> it' !! "title" = Some t.
Proof.
  unfold inline_style. intros H Ht. inv_bind_as H hb Hhb. inv_bind_as H b Hb.
  destruct b; [|by injection H as <-].
  inv_bind_as H m Hm. injection H as <-.
  destruct m; [by rewrite dict_insert_ne|done].
Qed.

Lemma store_text_title field text it it' :
  store_text field text it = Ok it' -> it !! "title" = Some t -> it' !! "title" = Some t.
Proof.
  unfold store_text. intros H Ht.
  repeat case_bool_decide.
  - injection H as <-.
    destruct (Re.year text); by rewrite !dict_insert_ne.
  - injection H as <-. by rewrite dict_insert_ne.
  - injection H as <-. by rewrite dict_insert_ne.
  - unfold getitem in H. rewrite Ht in H. cbn in H. rewrite t_truthy in H.
    by injection H as <-.
  - by injection H as <-.
Qed.

Lemma on_item_title (g : bool) f p p' :
  (forall it it', f it = Ok it' -> it !! "title" = Some t -> it' !! "title" = Some t) ->
  on_item g f p = Ok p' -> title_open t p -> title_open t p'.
Proof.
  intros Hf. unfold on_item.
  destruct (open_item p) as [it|] eqn:Ho; [|by intros [= <-]].
  destruct g; [|by intros [= <-]].
  intros H Hp. inv_bind_as H it' Hit'. injection H as <-.
  apply open_item_Some in Ho as [Hc _].
  intros it2 [= <-]. eauto.
Qed.

Lemma capture_rule_title words field tag ad p p' :
  capture_rule words field tag ad p = Ok p' -> title_open t p -> title_open t p'.
Proof. by intros [-> | ->]%capture_rule_cases. Qed.

Lemma handle_title e p p' :
  container_start e = false ->
  handle unquote e p = Ok p' -> title_open t p -> title_open t p'.
Proof.
  destruct e as [tag a|tag|data]; cbn [handle]; intros He H Hp.
  - unfold handle_starttag in H. inv_bind_as H p1 H1.
    assert (title_open t p1) as Hp1.
    { apply start_container_inv in H1
        as [_ [Hc|(c & h & m & i & -> & Hcl & Hm & Hh & Hi & _)]].
      - unfold title_open. by rewrite Hc.
      - unfold container_start in He. by rewrite Hcl, Hh, Hm, Hi in He. }
    inv_bind_as H q1 Hq1. inv_bind_as H q2 Hq2. inv_bind_as H q3 Hq3.
    inv_bind_as H q4 Hq4. inv_bind_as H q5 Hq5. inv_bind_as H q6 Hq6.
    inv_bind_as H q7 Hq7. inv_bind_as H q8 Hq8.
    apply (on_item_title _ _ _ _ (watched_icon_title _)) in Hq1; [|done].
    apply (on_item_title _ _ _ _ (progress_bar_title _)) in Hq2; [|done].
    apply (on_item_title _ _ _ _ (poster_style_title _)) in Hq3; [|done].
    apply (on_item_title _ _ _ _ (img_tag_title _)) in Hq4; [|done].
    apply capture_rule_title in Hq5; [|done].
    apply capture_rule_title in Hq6; [|done].
    apply capture_rule_title in Hq7; [|done].
    apply capture_rule_title in Hq8; [|done].
    by apply (on_item_title _ _ _ _ (inline_style_title _)) in H.
  - apply handle_endtag_cases in H as [[_ Hc]|(it & _ & _ & Hc)];
      unfold title_open; rewrite Hc; [done|]. by intros.
  - by apply (on_item_title _ _ _ _ (store_text_title _ _)) in H.
Qed.

End Title.

(** X21: the first title stays: once the open item has a title that is not
    empty, no image, text or other markup inside the item changes it; only
    a start tag that starts a new item does. *)
Theorem title_kept unquote evs p p' it t :
  open_item p = Some it ->
  it !! "title" = Some t ->
  truthy t = true ->
  Forall (fun e => container_start e = false) evs ->
  feed unquote evs p = Ok p' ->
  forall it', current_item p' = Some it' -> it' !! "title" = Some t.
Proof.
  intros [Hc _]%open_item_Some Ht Htt Hevs.
  assert (title_open t p) as Hp by (intros ? ?; congruence).
  clear Hc Ht. revert p Hp. induction Hevs as [|e evs He _ IH]; cbn [feed]; intros p Hp H.
  - by injection H as <-.
  - inv_bind_as H q Hq. apply (IH q); [|done]. by eapply handle_title.
Qed.

(** ** The scanner: documents on which it raises nothing *)

Lemma dict_of_attrs_In a k v : dict_of_attrs a !! k = Some v -> In (k, v) a.
Proof.
  unfold dict_of_attrs.
  assert (forall (m : gmap string (option string)),
            foldl (fun m kv => <[kv.1 := kv.2]> m) m a !! k = Some v ->
            m !! k = Some v \/ In (k, v) a) as H.
  { induction a as [|[k' v'] a IH]; cbn; intros m Hm; [auto|].
    apply IH in Hm as [Hm|Hm]; [|auto].
    destruct (decide (k' = k)) as [->|Hne].
    - rewrite lookup_insert_eq in Hm. injection Hm as ->. auto.
    - rewrite lookup_insert_ne in Hm by done. auto. }
  intros Hk. destruct (H ∅ Hk) as [Hm|Hm]; [by rewrite lookup_empty in Hm|done].
Qed.

Lemma valued_get_attr a k :
  forallb (fun kv : string * option string =>
             match kv.2 with Some _ => true | None => false end) a = true ->
  exists s, get_attr k (dict_of_attrs a) = Some s.
Proof.
  intros Hv. unfold get_attr.
  destruct (dict_of_attrs a !! k) as [v|] eqn:E; cbn; [|eauto].
  apply dict_of_attrs_In in E. rewrite forallb_forall in Hv.
  specialize (Hv _ E). cbn in Hv. destruct v; [eauto|done].
Qed.

Lemma keyed_fwrite d k v : fwrite k v -> keyed d -> keyed (<[k := v]> d).
Proof.
  intros _ [H1 H2]. split.
  - destruct (decide (k = "title")) as [->|];
      [rewrite dict_insert_eq|rewrite dict_insert_ne by done]; eauto.
  - destruct (decide (k = "poster_url")) as [->|];
      [rewrite dict_insert_eq|rewrite dict_insert_ne by done]; eauto.
Qed.

Lemma root_item_keyed ad href media_type imdb_id :
  keyed (root_item ad href media_type imdb_id).
Proof.
  unfold keyed, root_item. rewrite !store_data_attrs_lookup by done.
  rewrite !set_episode_lookup_ne by done. unfold new_item. lookups. eauto.
Qed.

Lemma fstep_keyed p p' : fstep p p' -> keyed_open p -> keyed_open p'.
Proof.
  intros (_ & _ & Hc) Hp it' Hit'. rewrite Hit' in Hc.
  destruct (current_item p) as [it|] eqn:E; [|done].
  exact (P_fwrites keyed keyed_fwrite it it' Hc (Hp it E)).
Qed.

Section Total.
Variable unquote : string -> string.
Variable ad : gmap string (option string).
Hypothesis valued : forall k, exists s, get_attr k ad = Some s.
Hypothesis width_ok : forall style g1,
  get_attr "style" ad = Some style -> Re.width style = Some g1 ->
  exists f, py_float g1 = Ok f.

Lemma start_container_total tag p : exists p', start_container tag ad p = Ok p'.
Proof.
  destruct (valued "class") as [c Hc], (valued "href") as [h Hh].
  unfold start_container. rewrite Hc, Hh.
  destruct (_ && _); [|eauto]. cbn [py_in re_search mbind res_bind].
  destruct (Str.contains _ _); [|eauto].
  destruct (Re.imdb h) as [[m i]|]; eauto.
Qed.

Lemma watched_icon_total it : exists it', watched_icon ad it = Ok it'.
Proof.
  destruct (valued "class") as [c Hc]. unfold watched_icon. rewrite Hc.
  cbn [py_in mbind res_bind]. eauto.
Qed.

Lemma progress_bar_total it : exists it', progress_bar ad it = Ok it'.
Proof.
  destruct (valued "class") as [c Hc], (valued "style") as [s Hs].
  unfold progress_bar. rewrite Hc, Hs. cbn [py_in py_lower re_search mbind res_bind].
  assert (exists it', match Re.width s with
                      | Some g1 => f ← py_float g1; Ok (<["progress" := VFloat f]> it)
                      | None => Ok it
                      end = Ok it') as [it' Hit'].
  { destruct (Re.width s) as [g1|] eqn:E; [|eauto].
    destruct (width_ok s g1 Hs E) as [f ->]. cbn [mbind res_bind]. eauto. }
  destruct (Str.contains "progress-bar" c); cbn [mbind res_bind].
  - eauto.
  - destruct (Str.contains "progressBar" (Str.lower c)); eauto.
Qed.

Lemma poster_style_total it : exists it', poster_style unquote ad it = Ok it'.
Proof.
  destruct (valued "class") as [c Hc], (valued "style") as [s Hs].
  unfold poster_style. rewrite Hc, Hs. cbn [py_in py_lower re_search mbind res_bind].
  destruct (_ || _); [|eauto].
  destruct (Str.contains "poster-shape" c); eauto.
Qed.

Lemma img_tag_total it : keyed it -> exists it', img_tag unquote ad it = Ok it'.
Proof.
  intros [[t Ht] [u Hu]]. unfold img_tag, attr_and_unset, getitem. rewrite Hu.
  destruct (truthy (of_attr (get_attr "src" ad))); cbn [mbind res_bind];
    [destruct (negb (truthy u)); rewrite ?dict_insert_ne by done|];
    rewrite Ht; destruct (truthy (of_attr (get_attr "alt" ad)));
    cbn [mbind res_bind]; eauto.
Qed.

Lemma inline_style_total it : keyed it -> exists it', inline_style unquote ad it = Ok it'.
Proof.
  intros [_ [u Hu]]. destruct (valued "style") as [s Hs].
  unfold inline_style, getitem. rewrite Hs, Hu.
  cbn [py_in re_search mbind res_bind].
  destruct (Str.contains "background-image" s); cbn [mbind res_bind]; [|eauto].
  destruct (negb (truthy u)); eauto.
Qed.

Lemma capture_rule_total words field tag p :
  exists p', capture_rule words field tag ad p = Ok p'.
Proof.
  destruct (valued "class") as [c Hc]. unfold capture_rule. rewrite Hc.
  destruct (open_item p); [|eauto]. destruct (_ && _); eauto.
Qed.

Lemma on_item_total (g : bool) f p :
  (forall it, keyed it -> exists it', f it = Ok it') ->
  keyed_open p -> exists p', on_item g f p = Ok p'.
Proof.
  intros Hf Hp. unfold on_item.
  destruct (open_item p) as [it|] eqn:Ho; [|eauto].
  destruct g; [|eauto].
  apply open_item_Some in Ho as [Hc _].
  destruct (Hf it (Hp it Hc)) as [it' ->]. cbn. eauto.
Qed.

Lemma capture_rule_keyed words field tag p p' :
  capture_rule words field tag ad p = Ok p' -> keyed_open p -> keyed_open p'.
Proof. by intros [-> | ->]%capture_rule_cases. Qed.

Lemma start_container_keyed tag p p' :
  start_container tag ad p = Ok p' -> keyed_open p -> keyed_open p'.
Proof.
  intros [_ [Hc|(c & h & m & i & _ & _ & _ & _ & _ & Hc)]]%start_container_inv Hp;
    unfold keyed_open; rewrite Hc; [done|].
  intros it [= <-]. apply root_item_keyed.
Qed.

End Total.

Lemma handle_starttag_total unquote tag a p :
  plain_event (StartTag tag a) = true ->
  keyed_open p ->
  exists p', handle_starttag unquote tag a p = Ok p'.
Proof.
  cbn [plain_event]. intros [[Hv Hw]%andb_prop _]%andb_prop Hp.
  assert (forall k, exists s, get_attr k (dict_of_attrs a) = Some s) as valued
    by (intros k; by apply valued_get_attr).
  assert (forall style g1,
            get_attr "style" (dict_of_attrs a) = Some style -> Re.width style = Some g1 ->
            exists f, py_float g1 = Ok f) as width_ok.
  { intros style g1 Hs Hg. rewrite Hs, Hg in Hw.
    destruct (py_float g1); [eauto|done]. }
  set (ad := dict_of_attrs a) in *.
  assert (forall (g : bool) f q q',
            (forall it it', f it = Ok it' -> fwrites it it') ->
            on_item g f q = Ok q' -> keyed_open q -> keyed_open q') as Hon.
  { intros g f q q' Hf Hq. by apply fstep_keyed, (on_item_fstep g f). }
  unfold handle_starttag. fold ad.
  destruct (start_container_total ad valued tag p) as [p0 H0].
  rewrite H0, res_bind_Ok.
  assert (keyed_open p0) as K0 by (by eapply start_container_keyed).
  destruct (on_item_total (String.eqb tag "div" && has_key "class" ad)
              (watched_icon ad) p0) as [p1 H1];
    [intros; by apply watched_icon_total|done|].
  rewrite H1, res_bind_Ok.
  assert (keyed_open p1) as K1
    by (eapply Hon; [apply watched_icon_fwrites|exact H1|done]).
  destruct (on_item_total (String.eqb tag "div" && has_key "class" ad)
              (progress_bar ad) p1) as [p2 H2];
    [intros; by apply progress_bar_total|done|].
  rewrite H2, res_bind_Ok.
  assert (keyed_open p2) as K2
    by (eapply Hon; [apply progress_bar_fwrites|exact H2|done]).
  destruct (on_item_total (String.eqb tag "div" && has_key "class" ad)
              (poster_style unquote ad) p2) as [p3 H3];
    [intros; by apply poster_style_total|done|].
  rewrite H3, res_bind_Ok.
  assert (keyed_open p3) as K3
    by (eapply Hon; [apply poster_style_fwrites|exact H3|done]).
  destruct (on_item_total (String.eqb tag "img") (img_tag unquote ad) p3) as [p4 H4];
    [intros; by apply img_tag_total|done|].
  rewrite H4, res_bind_Ok.
  assert (keyed_open p4) as K4
    by (eapply Hon; [apply img_tag_fwrites|exact H4|done]).
  destruct (capture_rule_total ad valued title_words "title_text" tag p4) as [p5 H5].
  rewrite H5, res_bind_Ok.
  assert (keyed_open p5) as K5 by (by eapply capture_rule_keyed).
  destruct (capture_rule_total ad valued release_words "release_info" tag p5) as [p6 H6].
  rewrite H6, res_bind_Ok.
  assert (keyed_open p6) as K6 by (by eapply capture_rule_keyed).
  destruct (capture_rule_total ad valued duration_words "duration" tag p6) as [p7 H7].
  rewrite H7, res_bind_Ok.
  assert (keyed_open p7) as K7 by (by eapply capture_rule_keyed).
  destruct (capture_rule_total ad valued episode_title_words "episode_title" tag p7)
    as [p8 H8].
  rewrite H8, res_bind_Ok.
  assert (keyed_open p8) as K8 by (by eapply capture_rule_keyed).
  apply on_item_total; [|done]. intros; by apply inline_style_total.
Qed.

Lemma handle_data_total data p : keyed_open p -> exists p', handle_data data p = Ok p'.
Proof.
  intros Hp. apply on_item_total; [|done].
  intros it [[t Ht] _]. unfold store_text, getitem. rewrite Ht.
  repeat case_bool_decide; cbn; eauto.
Qed.

Lemma handle_keyed unquote e p p' :
  handle unquote e p = Ok p' -> keyed_open p -> keyed_open p'.
Proof.
  destruct e as [tag a|tag|data]; cbn [handle]; intros H Hp.
  - apply handle_starttag_fsteps in H as (p1 & H1 & Hs).
    apply (fstep_keyed p1); [done|]. by eapply start_container_keyed.
  - apply handle_endtag_cases in H as [[_ Hc]|(it & _ & _ & Hc)];
      unfold keyed_open; rewrite Hc; [done|]. by intros.
  - apply handle_data_fstep in H. by apply (fstep_keyed p).
Qed.

Lemma feed_total unquote evs p :
  Forall (fun e => plain_event e = true) evs ->
  keyed_open p ->
  exists p', feed unquote evs p = Ok p'.
Proof.
  intros Hevs. revert p. induction Hevs as [|e evs He _ IH]; cbn [feed]; intros p Hp.
  - eauto.
  - assert (exists q, handle unquote e p = Ok q) as [q Hq].
    { destruct e as [tag a|tag|data]; cbn [handle].
      - by apply handle_starttag_total.
      - unfold handle_endtag. destruct (_ && _); eauto.
      - by apply handle_data_total. }
    rewrite Hq, res_bind_Ok. apply IH. by eapply handle_keyed.
Qed.

(** ** The scanner: the watched flag *)

Lemma root_item_lookup ad href media_type imdb_id j :
  Str.startswith "data-" j = false -> j <> "season" -> j <> "episode" ->
  root_item ad href media_type imdb_id !! j
  = new_item imdb_id media_type (get_attr "title" ad) (Some href) !! j.
Proof.
  intros Hd Hs He. unfold root_item.
  by rewrite store_data_attrs_lookup, set_episode_lookup_ne.
Qed.

Lemma root_item_unwatched ad href media_type imdb_id :
  watched_is false (root_item ad href media_type imdb_id).
Proof.
  unfold watched_is. rewrite root_item_lookup by done. unfold new_item. by lookups.
Qed.

Lemma watched_is_fwrite b d k v :
  fwrite k v -> watched_is b d -> exists b', watched_is b' (<[k := v]> d).
Proof.
  unfold watched_is. intros Hw Hd. destruct Hw as [| s f Hf | k s Hk | text g0 Hg].
  - exists true. by rewrite dict_insert_eq.
  - exists b. by rewrite dict_insert_ne.
  - exists b. rewrite dict_insert_ne; [done|]. intros ->.
    unfold text_fields in Hk. rewrite !elem_of_cons in Hk.
    destruct Hk as [?|[?|[?|[?|[?|[?|[]%elem_of_nil]]]]]]; discriminate.
  - exists b. by rewrite dict_insert_ne.
Qed.

Section Unwatched.
Variable unquote : string -> string.

Lemma progress_bar_watched ad it it' :
  progress_bar ad it = Ok it' -> it' !! "is_watched" = it !! "is_watched".
Proof.
  unfold progress_bar. intros H. inv_bind_as H b1 Hb1. inv_bind_as H b Hb.
  destruct b; [|by injection H as <-].
  inv_bind_as H m Hm. destruct m as [g1|]; [|by injection H as <-].
  inv_bind_as H f Hf. injection H as <-. by rewrite dict_insert_ne.
Qed.

Lemma poster_style_watched ad it it' :
  poster_style unquote ad it = Ok it' -> it' !! "is_watched" = it !! "is_watched".
Proof.
  unfold poster_style. intros H. inv_bind_as H l Hl.
  destruct (_ || _); [|by injection H as <-].
  inv_bind_as H m Hm. inv_bind_as H b Hb.
  assert ((match m with
           | Some g1 => <["poster_url" := VStr (unquote g1)]> it
           | None => it end) !! "is_watched" = it !! "is_watched") as Hw.
  { destruct m; [by rewrite dict_insert_ne|done]. }
  destruct b; [|by injection H as <-].
  inv_bind_as H sm Hsm. injection H as <-.
  destruct sm; [by rewrite dict_insert_ne|done].
Qed.

Lemma img_tag_watched ad it it' :
  img_tag unquote ad it = Ok it' -> it' !! "is_watched" = it !! "is_watched".
Proof.
  unfold img_tag. intros H. inv_bind_as H b Hb. inv_bind_as H b' Hb'.
  injection H as <-.
  assert ((if b then <["poster_url" := VStr (unquote (default "" (get_attr "src" ad)))]> it
           else it) !! "is_watched" = it !! "is_watched") as Hw.
  { destruct b; [by rewrite dict_insert_ne|done]. }
  destruct b'; [by rewrite dict_insert_ne|done].
Qed.

Lemma inline_style_watched ad it it' :
  inline_style unquote ad it = Ok it' -> it' !! "is_watched" = it !! "is_watched".
Proof.
  unfold inline_style. intros H. inv_bind_as H hb Hhb. inv_bind_as H b Hb.
  destruct b; [|by injection H as <-].
  inv_bind_as H m Hm. injection H as <-.
  destruct m; [by rewrite dict_insert_ne|done].
Qed.

Lemma store_text_watched field text it it' :
  store_text field text it = Ok it' -> it' !! "is_watched" = it !! "is_watched".
Proof.
  unfold store_text. intros H.
  repeat case_bool_decide.
  - injection H as <-. destruct (Re.year text); by rewrite !dict_insert_ne.
  - injection H as <-. by rewrite dict_insert_ne.
  - injection H as <-. by rewrite dict_insert_ne.
  - inv_bind_as H cur Hcur. injection H as <-.
    destruct (truthy cur); [done|by rewrite dict_insert_ne].
  - by injection H as <-.
Qed.

Lemma on_item_watched (g : bool) f p p' :
  (g = true -> forall it it', f it = Ok it' -> it' !! "is_watched" = it !! "is_watched") ->
  on_item g f p = Ok p' -> unwatched_open p -> unwatched_open p'.
Proof.
  intros Hf. unfold on_item.
  destruct (open_item p) as [it|] eqn:Ho; [|by intros [= <-]].
  destruct g; [|by intros [= <-]].
  intros H Hp. inv_bind_as H it' Hit'. injection H as <-.
  apply open_item_Some in Ho as [Hc _].
  intros it2 [= <-]. unfold watched_is. rewrite (Hf eq_refl _ _ Hit'). by apply Hp.
Qed.

Lemma capture_rule_watched words field tag ad p p' :
  capture_rule words field tag ad p = Ok p' -> unwatched_open p -> unwatched_open p'.
Proof. by intros [-> | ->]%capture_rule_cases. Qed.

Lemma handle_unwatched e p p' :
  watched_markup e = false ->
  handle unquote e p = Ok p' -> unwatched_open p -> unwatched_open p'.
Proof.
  destruct e as [tag a|tag|data]; cbn [handle watched_markup]; intros He H Hp.
  - unfold handle_starttag in H. inv_bind_as H p1 H1.
    assert (unwatched_open p1) as Hp1.
    { apply start_container_inv in H1
        as [_ [Hc|(c & h & m & i & _ & _ & _ & _ & _ & Hc)]];
        unfold unwatched_open; rewrite Hc; [done|].
      intros it [= <-]. apply root_item_unwatched. }
    inv_bind_as H q1 Hq1. inv_bind_as H q2 Hq2. inv_bind_as H q3 Hq3.
    inv_bind_as H q4 Hq4. inv_bind_as H q5 Hq5. inv_bind_as H q6 Hq6.
    inv_bind_as H q7 Hq7. inv_bind_as H q8 Hq8.
    apply on_item_watched in Hq1; [|clear Hq1|done].
    2: { intros Hg it it' Hw. apply andb_prop in Hg as [Hg _]. rewrite Hg in He.
         unfold watched_icon in Hw.
         destruct (get_attr "class" (dict_of_attrs a)) as [c|]; [|done].
         cbn in He, Hw. rewrite He in Hw. by injection Hw as <-. }
    apply (on_item_watched _ _ _ _ (fun _ => progress_bar_watched _)) in Hq2; [|done].
    apply (on_item_watched _ _ _ _ (fun _ => poster_style_watched _)) in Hq3; [|done].
    apply (on_item_watched _ _ _ _ (fun _ => img_tag_watched _)) in Hq4; [|done].
    apply capture_rule_watched in Hq5; [|done].
    apply capture_rule_watched in Hq6; [|done].
    apply capture_rule_watched in Hq7; [|done].
    apply capture_rule_watched in Hq8; [|done].
    by apply (on_item_watched _ _ _ _ (fun _ => inline_style_watched _)) in H.
  - apply handle_endtag_cases in H as [[_ Hc]|(it & _ & _ & Hc)];
      unfold unwatched_open; rewrite Hc; [done|]. by intros.
  - by apply (on_item_watched _ _ _ _ (fun _ => store_text_watched _ _)) in H.
Qed.

Lemma handle_unwatched_items e p p' :
  handle unquote e p = Ok p' -> unwatched_open p ->
  Forall (watched_is false) (items p) -> Forall (watched_is false) (items p').
Proof.
  destruct e as [tag a|tag|data]; cbn [handle]; intros H Hp Hi.
  - apply handle_starttag_fsteps in H as (p1 & H1 & (-> & _)).
    by apply start_container_inv in H1 as [-> _].
  - apply handle_endtag_cases in H as [[-> _]|(it & Hit & -> & _)]; [done|].
    apply Forall_app. split; [done|]. repeat constructor.
    unfold watched_is. rewrite strip_none_lookup. by rewrite (Hp it Hit).
  - by apply handle_data_fstep in H as (-> & _).
Qed.

Lemma feed_unwatched evs p p' :
  Forall (fun e => watched_markup e = false) evs ->
  feed unquote evs p = Ok p' ->
  unwatched_open p -> Forall (watched_is false) (items p) ->
  Forall (watched_is false) (items p').
Proof.
  intros Hevs. revert p. induction Hevs as [|e evs He _ IH]; cbn [feed]; intros p H Hp Hi.
  - by injection H as <-.
  - inv_bind_as H q Hq. apply (IH q); [done|by eapply handle_unwatched|].
    by eapply handle_unwatched_items.
Qed.

End Unwatched.

(** X23: the watched flag of every item the scanner produces is a boolean,
    and it is [False] for every item of a document that has no [div] with
    the watched icon class. *)
Theorem scanner_watched_flag unquote evs p :
  feed unquote evs init = Ok p ->
  Forall (fun it => exists b, watched_is b it) (items p)
  /\ (Forall (fun e => watched_markup e = false) evs ->
      Forall (watched_is false) (items p)).
Proof.
  intros H. split.
  - destruct (scanned_items unquote (fun it => exists b, watched_is b it)
                (fun it => exists b, watched_is b it) evs p) as [HQ _]; try done.
    + intros ad href m i _. exists false. apply root_item_unwatched.
    + intros d k v Hw [b Hb]. by eapply watched_is_fwrite.
    + intros d [b Hb]. exists b. unfold watched_is. rewrite strip_none_lookup.
      by rewrite Hb.
  - intros Hevs. by apply (feed_unwatched unquote evs init p).
Qed.

(** ** The scanner: the text fields *)

Lemma root_item_text_typed ad href media_type imdb_id :
  text_typed (Some VNone) (root_item ad href media_type imdb_id).
Proof.
  intros k Hk. unfold text_fields in Hk. rewrite !elem_of_cons in Hk.
  destruct Hk as [->|[->|[->|[->|[->|[->|[]%elem_of_nil]]]]]];
    rewrite root_item_lookup by done; unfold new_item; lookups; auto.
  destruct (get_attr "title" ad); cbn; eauto.
Qed.

Lemma text_typed_fwrite d k v :
  fwrite k v -> text_typed (Some VNone) d -> text_typed (Some VNone) (<[k := v]> d).
Proof.
  intros Hw Hd j Hj. destruct (decide (k = j)) as [->|Hne].
  - rewrite dict_insert_eq. destruct Hw as [| s f Hf | k s Hk | text g0 Hg]; eauto;
      unfold text_fields in Hj; rewrite !elem_of_cons in Hj;
      destruct Hj as [?|[?|[?|[?|[?|[?|[]%elem_of_nil]]]]]]; discriminate.
  - rewrite dict_insert_ne by done. by apply Hd.
Qed.

Lemma text_typed_strip d :
  text_typed (Some VNone) d -> text_typed None (strip_none d).
Proof.
  intros Hd k Hk. rewrite strip_none_lookup.
  destruct (Hd k Hk) as [-> | [s ->]]; eauto.
Qed.

(** X24: the poster URL, the poster shape, the title, the release info, the
    duration and the episode title of every item the scanner produces are
    strings, where the item has them. *)
Theorem scanner_text_fields unquote evs p :
  feed unquote evs init = Ok p -> Forall (text_typed None) (items p).
Proof.
  intros H.
  by destruct (scanned_items unquote _ _ evs p
                 (fun ad href m i _ => root_item_text_typed ad href m i)
                 text_typed_fwrite text_typed_strip H).
Qed.

(** ** The scanner: text after a label *)


(** ** Instances of the properties on the example documents *)

Lemma is_ok_value {A} (d : A) (r : res A) : is_ok r = true -> r = Ok (value_or d r).
Proof. by destruct r. Qed.

Lemma transformer_watchlisted_at_witness :
  numeric_progress (first_item doc_episode) = true
  /\ exists t tick' e,
       convert_item clock0 true false (first_item doc_episode) 0 = Ok (t, tick')
       /\ format_item t = Ok e
       /\ t !! "watchlisted_at"
          = (if true then Some (VStr (clock0 0%nat +:+ "Z")) else None)
       /\ e !! "watchlisted_at" = t !! "watchlisted_at".
Proof.
  assert (numeric_progress (first_item doc_episode) = true) as H
    by (vm_compute; reflexivity).
  split; [exact H|].
  exact (transformer_watchlisted_at clock0 true false (first_item doc_episode) 0%nat H).
Defined.

Lemma transformer_diagnostics_witness :
  numeric_progress (first_item doc_episode) = true
  /\ exists t tick' e hp,
       convert_item clock0 true true (first_item doc_episode) 0 = Ok (t, tick')
       /\ format_item t = Ok e
       /\ py_gt (get "progress" (VInt 0) (first_item doc_episode)) (VInt 0) = Ok hp
       /\ e !! "_progress"
          = (if hp then Some (get "progress" (VInt 0) (first_item doc_episode)) else None)
       /\ forall k k', (k, k') ∈ diagnostic_fields ->
            e !! k' = if truthy (get k VNone (first_item doc_episode))
                      then Some (get k VNone (first_item doc_episode)) else None.
Proof.
  assert (numeric_progress (first_item doc_episode) = true) as H
    by (vm_compute; reflexivity).
  split; [exact H|].
  exact (transformer_diagnostics clock0 true true (first_item doc_episode) 0%nat H).
Defined.

Lemma transformer_order_witness :
  Forall (fun i => numeric_progress i = true)
         [first_item doc_progress_30; first_item doc_progress_60]
  /\ exists ts out,
       convert_to_trakt_format clock0
         [first_item doc_progress_30; first_item doc_progress_60] true true = Ok ts
       /\ format_for_trakt_import ts = Ok out
       /\ Forall2 (fun item e => e !! "imdb_id" = Some (get "imdb_id" VNone item))
                  [first_item doc_progress_30; first_item doc_progress_60] out.
Proof.
  assert (Forall (fun i => numeric_progress i = true)
            [first_item doc_progress_30; first_item doc_progress_60]) as H
    by (repeat constructor; vm_compute; reflexivity).
  split; [exact H|].
  exact (transformer_order clock0 true true
           [first_item doc_progress_30; first_item doc_progress_60] H).
Defined.

Lemma format_item_fields_witness :
  format_item converted_episode = Ok (value_or ∅ (format_item converted_episode))
  /\ ("note" ∉ schema_keys)
  /\ value_or ∅ (format_item converted_episode) !! "note"
     = if Str.startswith "_" "note" then not_none (converted_episode !! "note") else None.
Proof.
  assert (format_item converted_episode
          = Ok (value_or ∅ (format_item converted_episode))) as H1
    by (apply is_ok_value; vm_compute; reflexivity).
  assert ("note" ∉ schema_keys) as H2
    by (apply (bool_decide_unpack _); vm_compute; exact I).
  split; [exact H1|]. split; [exact H2|].
  exact (format_item_fields converted_episode
           (value_or ∅ (format_item converted_episode)) "note" H1 H2).
Defined.

Lemma format_item_episode_witness :
  format_item converted_episode = Ok (value_or ∅ (format_item converted_episode))
  /\ converted_episode !! "type" = Some (VStr "episode")
  /\ value_or ∅ (format_item converted_episode) !! "season"
     = if bool_decide (VStr "episode" = VStr "episode")
       then Some (get "season" VNone converted_episode) else None.
Proof.
  assert (format_item converted_episode
          = Ok (value_or ∅ (format_item converted_episode))) as H1
    by (apply is_ok_value; vm_compute; reflexivity).
  assert (converted_episode !! "type" = Some (VStr "episode")) as H2
    by (vm_compute; reflexivity).
  split; [exact H1|]. split; [exact H2|].
  exact (format_item_episode converted_episode
           (value_or ∅ (format_item converted_episode)) (VStr "episode") "season"
           H1 H2 (or_introl eq_refl)).
Defined.

Lemma export_no_filters_witness :
  Forall (fun i => numeric_progress i = true)
         [first_item doc_no_title; first_item doc_progress_60]
  /\ exists stderr output,
       export clock0 args_default [first_item doc_no_title; first_item doc_progress_60]
       = Ok (stderr, output)
       /\ Forall2 (entry_of clock0 args_default)
                  [first_item doc_no_title; first_item doc_progress_60] output.
Proof.
  assert (Forall (fun i => numeric_progress i = true)
            [first_item doc_no_title; first_item doc_progress_60]) as H
    by (repeat constructor; vm_compute; reflexivity).
  assert (py_gt (VFloat (min_progress args_default)) (VInt 0) = Ok false) as H1
    by (vm_compute; reflexivity).
  assert (watched_only args_default = false) as H2 by reflexivity.
  split; [exact H|].
  exact (export_no_filters clock0 args_default
           [first_item doc_no_title; first_item doc_progress_60] H H1 H2).
Defined.

Lemma main_no_items_witness :
  main unquote_plain (tokens_of []) clock0 args_default "<html></html>"
  = Exit 1 [NoItemsFound].
Proof.
  apply (main_no_items unquote_plain (tokens_of []) clock0 args_default "<html></html>").
  split; reflexivity.
Defined.

Lemma scanner_identity_witness :
  feed unquote_plain doc_episode init
  = Ok (value_or init (feed unquote_plain doc_episode init))
  /\ Forall (fun it =>
               from_link_target None it
               /\ exists ds kind,
                    it !! "imdb_id" = Some (VStr ("tt" +:+ ds)) /\ digits ds = true
                    /\ it !! "type" = Some (VStr kind)
                    /\ (kind = "movie" \/ kind = "show"))
            (items (value_or init (feed unquote_plain doc_episode init))).
Proof.
  assert (feed unquote_plain doc_episode init
          = Ok (value_or init (feed unquote_plain doc_episode init))) as H
    by (apply is_ok_value; vm_compute; reflexivity).
  split; [exact H|].
  exact (scanner_identity unquote_plain doc_episode
           (value_or init (feed unquote_plain doc_episode init)) H).
Defined.

Lemma feed_appends_witness :
  feed unquote_plain doc_progress_60 (scanned doc_progress_30)
  = Ok (value_or init (feed unquote_plain doc_progress_60 (scanned doc_progress_30)))
  /\ exists new,
       items (value_or init (feed unquote_plain doc_progress_60 (scanned doc_progress_30)))
       = (items (scanned doc_progress_30) ++ new)%list.
Proof.
  assert (feed unquote_plain doc_progress_60 (scanned doc_progress_30)
          = Ok (value_or init
                  (feed unquote_plain doc_progress_60 (scanned doc_progress_30)))) as H
    by (apply is_ok_value; vm_compute; reflexivity).
  split; [exact H|].
  exact (feed_appends unquote_plain doc_progress_60 (scanned doc_progress_30)
           (value_or init (feed unquote_plain doc_progress_60 (scanned doc_progress_30)))
           H).
Defined.

Lemma feed_count_witness :
  feed unquote_plain doc_two_posters init
  = Ok (value_or init (feed unquote_plain doc_two_posters init))
  /\ (length (items (value_or init (feed unquote_plain doc_two_posters init)))
      + open_count (value_or init (feed unquote_plain doc_two_posters init))
      <= length (items init) + open_count init
         + length (List.filter container_start doc_two_posters))%nat.
Proof.
  assert (feed unquote_plain doc_two_posters init
          = Ok (value_or init (feed unquote_plain doc_two_posters init))) as H
    by (apply is_ok_value; vm_compute; reflexivity).
  split; [exact H|].
  exact (feed_count unquote_plain doc_two_posters init
           (value_or init (feed unquote_plain doc_two_posters init)) H).
Defined.

Lemma outside_item_ignored_witness :
  current_item init = None
  /\ (forall tag a, String.eqb tag "a" = false ->
        handle_starttag unquote_plain tag a init = Ok init)
  /\ (forall data, handle_data data init = Ok init).
Proof.
  assert (current_item init = None) as H by reflexivity.
  split; [exact H|].
  exact (outside_item_ignored unquote_plain init H).
Defined.

Lemma valueless_class_raises_witness :
  dict_of_attrs valueless_class !! "class" = Some None
  /\ handle_starttag unquote_plain "a" valueless_class (scanned doc_open_item)
     = Raise TypeError
  /\ (forall it, open_item (scanned doc_open_item) = Some it ->
        handle_starttag unquote_plain "div" valueless_class (scanned doc_open_item)
        = Raise TypeError
        /\ handle_starttag unquote_plain "span" valueless_class (scanned doc_open_item)
           = Raise AttributeError
        /\ handle_starttag unquote_plain "p" valueless_class (scanned doc_open_item)
           = Raise AttributeError).
Proof.
  assert (dict_of_attrs valueless_class !! "class" = Some None) as H
    by (vm_compute; reflexivity).
  split; [exact H|].
  exact (valueless_class_raises unquote_plain valueless_class (scanned doc_open_item) H).
Defined.

Lemma malformed_width_raises_witness :
  open_item (scanned doc_open_item) = Some (open_of (scanned doc_open_item))
  /\ get_attr "class" (dict_of_attrs malformed_width) = Some "progress-bar"
  /\ Str.contains "progress-bar" "progress-bar" = true
  /\ get_attr "style" (dict_of_attrs malformed_width) = Some "width: 1.2.3%"
  /\ Re.width "width: 1.2.3%" = Some "1.2.3"
  /\ py_float "1.2.3" = Raise ValueError
  /\ handle_starttag unquote_plain "div" malformed_width (scanned doc_open_item)
     = Raise ValueError.
Proof.
  assert (open_item (scanned doc_open_item) = Some (open_of (scanned doc_open_item)))
    as H1 by (apply open_of_Some; vm_compute; reflexivity).
  assert (get_attr "class" (dict_of_attrs malformed_width) = Some "progress-bar")
    as H2 by (vm_compute; reflexivity).
  assert (Str.contains "progress-bar" "progress-bar" = true) as H3
    by (vm_compute; reflexivity).
  assert (get_attr "style" (dict_of_attrs malformed_width) = Some "width: 1.2.3%")
    as H4 by (vm_compute; reflexivity).
  assert (Re.width "width: 1.2.3%" = Some "1.2.3") as H5 by (vm_compute; reflexivity).
  assert (py_float "1.2.3" = Raise ValueError) as H6 by (vm_compute; reflexivity).
  repeat (split; [assumption|]).
  exact (malformed_width_raises unquote_plain malformed_width (scanned doc_open_item)
           (open_of (scanned doc_open_item)) "progress-bar" "width: 1.2.3%" "1.2.3"
           ValueError H1 H2 H3 H4 H5 H6).
Defined.

Lemma container_without_identifier_witness :
  current_item init = None
  /\ get_attr "class" (dict_of_attrs addons_link) = Some "meta-item-container"
  /\ Str.contains "meta-item-container" "meta-item-container" = true
  /\ get_attr "href" (dict_of_attrs addons_link) = Some "#/addons"
  /\ Re.imdb "#/addons" = None
  /\ feed unquote_plain [StartTag "a" addons_link; EndTag "a"] init
     = Ok (set_in_meta_item false init).
Proof.
  assert (current_item init = None) as H1 by reflexivity.
  assert (get_attr "class" (dict_of_attrs addons_link) = Some "meta-item-container")
    as H2 by (vm_compute; reflexivity).
  assert (Str.contains "meta-item-container" "meta-item-container" = true) as H3
    by (vm_compute; reflexivity).
  assert (get_attr "href" (dict_of_attrs addons_link) = Some "#/addons") as H4
    by (vm_compute; reflexivity).
  assert (Re.imdb "#/addons" = None) as H5 by (vm_compute; reflexivity).
  repeat (split; [assumption|]).
  exact (container_without_identifier unquote_plain addons_link init
           "meta-item-container" "#/addons" H1 H2 H3 H4 H5).
Defined.

Lemma scanner_year_witness :
  feed unquote_plain doc_year init
  = Ok (value_or init (feed unquote_plain doc_year init))
  /\ Forall (year_in_range None)
            (items (value_or init (feed unquote_plain doc_year init))).
Proof.
  assert (feed unquote_plain doc_year init
          = Ok (value_or init (feed unquote_plain doc_year init))) as H
    by (apply is_ok_value; vm_compute; reflexivity).
  split; [exact H|].
  exact (scanner_year unquote_plain doc_year
           (value_or init (feed unquote_plain doc_year init)) H).
Defined.

Lemma data_attributes_stored_witness :
  container_start (StartTag "a" titled_attrs) = true
  /\ handle_starttag unquote_plain "a" titled_attrs init
     = Ok (value_or init (handle_starttag unquote_plain "a" titled_attrs init))
  /\ exists it,
       current_item (value_or init (handle_starttag unquote_plain "a" titled_attrs init))
       = Some it
       /\ forall k, Str.startswith "data-" k = true ->
            it !! k = of_attr <$> dict_of_attrs titled_attrs !! k.
Proof.
  assert (container_start (StartTag "a" titled_attrs) = true) as H1
    by (vm_compute; reflexivity).
  assert (handle_starttag unquote_plain "a" titled_attrs init
          = Ok (value_or init (handle_starttag unquote_plain "a" titled_attrs init)))
    as H2 by (apply is_ok_value; vm_compute; reflexivity).
  split; [exact H1|]. split; [exact H2|].
  exact (data_attributes_stored unquote_plain titled_attrs init
           (value_or init (handle_starttag unquote_plain "a" titled_attrs init)) H1 H2).
Defined.

Lemma title_kept_witness :
  open_item (after_start "a" titled_attrs init)
  = Some (open_of (after_start "a" titled_attrs init))
  /\ open_of (after_start "a" titled_attrs init) !! "title" = Some (VStr "Dune")
  /\ truthy (VStr "Dune") = true
  /\ Forall (fun e => container_start e = false) doc_other_titles
  /\ feed unquote_plain doc_other_titles (after_start "a" titled_attrs init)
     = Ok (value_or init
             (feed unquote_plain doc_other_titles (after_start "a" titled_attrs init)))
  /\ forall it',
       current_item
         (value_or init
            (feed unquote_plain doc_other_titles (after_start "a" titled_attrs init)))
       = Some it' ->
       it' !! "title" = Some (VStr "Dune").
Proof.
  assert (open_item (after_start "a" titled_attrs init)
          = Some (open_of (after_start "a" titled_attrs init))) as H1
    by (apply open_of_Some; vm_compute; reflexivity).
  assert (open_of (after_start "a" titled_attrs init) !! "title" = Some (VStr "Dune"))
    as H2 by (vm_compute; reflexivity).
  assert (truthy (VStr "Dune") = true) as H3 by (vm_compute; reflexivity).
  assert (Forall (fun e => container_start e = false) doc_other_titles) as H4
    by (repeat constructor; vm_compute; reflexivity).
  assert (feed unquote_plain doc_other_titles (after_start "a" titled_attrs init)
          = Ok (value_or init
                  (feed unquote_plain doc_other_titles
                     (after_start "a" titled_attrs init)))) as H5
    by (apply is_ok_value; vm_compute; reflexivity).
  repeat (split; [assumption|]).
  exact (title_kept unquote_plain doc_other_titles (after_start "a" titled_attrs init)
           (value_or init
              (feed unquote_plain doc_other_titles (after_start "a" titled_attrs init)))
           (open_of (after_start "a" titled_attrs init)) (VStr "Dune")
           H1 H2 H3 H4 H5).
Defined.

Lemma scanner_watched_flag_witness :
  feed unquote_plain doc_progress_30 init
  = Ok (value_or init (feed unquote_plain doc_progress_30 init))
  /\ Forall (fun it => exists b, watched_is b it)
            (items (value_or init (feed unquote_plain doc_progress_30 init)))
  /\ (Forall (fun e => watched_markup e = false) doc_progress_30 ->
      Forall (watched_is false)
             (items (value_or init (feed unquote_plain doc_progress_30 init)))).
Proof.
  assert (feed unquote_plain doc_progress_30 init
          = Ok (value_or init (feed unquote_plain doc_progress_30 init))) as H
    by (apply is_ok_value; vm_compute; reflexivity).
  split; [exact H|].
  exact (scanner_watched_flag unquote_plain doc_progress_30
           (value_or init (feed unquote_plain doc_progress_30 init)) H).
Defined.

Lemma scanner_text_fields_witness :
  feed unquote_plain doc_two_posters init
  = Ok (value_or init (feed unquote_plain doc_two_posters init))
  /\ Forall (text_typed None)
            (items (value_or init (feed unquote_plain doc_two_posters init))).
Proof.
  assert (feed unquote_plain doc_two_posters init
          = Ok (value_or init (feed unquote_plain doc_two_posters init))) as H
    by (apply is_ok_value; vm_compute; reflexivity).
  split; [exact H|].
  exact (scanner_text_fields unquote_plain doc_two_posters
           (value_or init (feed unquote_plain doc_two_posters init)) H).
Defined.


(** * The span of an entity *)

(** ** One handler call, exactly *)

Lemma open_item_eq p q : current_item q = current_item p -> open_item q = open_item p.
Proof. unfold open_item. by intros ->. Qed.

Lemma fwrites_nonempty d d' : fwrites d d' -> d <> ∅ -> d' <> ∅.
Proof. destruct 1; [done|]. intros _. apply insert_non_empty. Qed.

Lemma root_item_nonempty ad href media_type imdb_id :
  root_item ad href media_type imdb_id <> ∅.
Proof.
  intros H.
  assert (root_item ad href media_type imdb_id !! "imdb_id" = Some (VStr imdb_id)) as Hl
    by apply new_item_lookups.
  by rewrite H, lookup_empty in Hl.
Qed.

(** A start tag starts an item exactly when it is a container start. *)
Lemma start_container_exact tag a p p1 :
  start_container tag (dict_of_attrs a) p = Ok p1 ->
  items p1 = items p
  /\ if container_start (StartTag tag a)
     then tag = "a" /\ in_meta_item p1 = true
          /\ exists href media_type imdb_id,
               current_item p1
               = Some (root_item (dict_of_attrs a) href media_type imdb_id)
     else current_item p1 = current_item p
          /\ (in_meta_item p = true -> in_meta_item p1 = true).
Proof.
  unfold start_container, container_start, has_key, get_attr.
  destruct (String.eqb_spec tag "a") as [->|]; [|by intros [= <-]].
  destruct (default (Some "") (dict_of_attrs a !! "href")) as [href|];
    destruct (dict_of_attrs a !! "class") as [[classes|]|]; cbn;
    try done; try (by intros [= <-]).
  - destruct (Str.contains "meta-item-container" classes); [|by intros [= <-]].
    cbn. destruct (Re.imdb href) as [[media_type imdb_id]|]; [|by intros [= <-]].
    cbn. intros [= <-]. cbn. repeat split; eauto.
  - destruct (Str.contains "meta-item-container" classes); [done|by intros [= <-]].
Qed.

Lemma capture_rule_not_text words field tag ad p :
  is_text_tag tag = false -> capture_rule words field tag ad p = Ok p.
Proof. intros Ht. unfold capture_rule. rewrite Ht. by destruct (open_item p). Qed.

Section Exact.
Variable unquote : string -> string.

(** On an [a], only the container block and the inline style block run. *)
Lemma handle_starttag_a a p :
  handle_starttag unquote "a" a p
  = p1 ← start_container "a" (dict_of_attrs a) p;
    on_item (has_key "style" (dict_of_attrs a))
            (inline_style unquote (dict_of_attrs a)) p1.
Proof.
  unfold handle_starttag.
  destruct (start_container "a" (dict_of_attrs a) p) as [p1|]; [|done].
  rewrite !res_bind_Ok.
  change (String.eqb "a" "div") with false. change (String.eqb "a" "img") with false.
  cbn [andb].
  repeat rewrite on_item_false, res_bind_Ok.
  by repeat rewrite capture_rule_not_text, res_bind_Ok by done.
Qed.

(** What a container start tag leaves: the new item after the inline style
    of the tag itself. *)
Lemma container_start_item a p p' :
  container_start (StartTag "a" a) = true ->
  handle_starttag unquote "a" a p = Ok p' ->
  items p' = items p
  /\ in_meta_item p' = true
  /\ exists href media_type imdb_id it',
       guarded (has_key "style" (dict_of_attrs a))
               (inline_style unquote (dict_of_attrs a))
               (root_item (dict_of_attrs a) href media_type imdb_id) = Ok it'
       /\ open_item p' = Some it'.
Proof.
  intros Hcs H. rewrite handle_starttag_a in H. inv_bind_as H p1 H1.
  destruct (start_container_exact "a" a p p1 H1) as [Hi Hc]. rewrite Hcs in Hc.
  destruct Hc as (_ & Hm & href & m & i & Hc).
  assert (open_item p1 = Some (root_item (dict_of_attrs a) href m i)) as Ho
    by (apply open_item_intro; [done|apply root_item_nonempty]).
  pose proof (on_item_fstep _ _ _ _ (inline_style_fwrites unquote _) H)
    as (Hi' & Hm' & Hw).
  rewrite Hc in Hw. destruct (current_item p') as [it'|] eqn:Hc'; [|done].
  split; [congruence|]. split; [congruence|].
  exists href, m, i, it'. split.
  - unfold on_item in H. rewrite Ho in H. unfold guarded.
    destruct (has_key "style" (dict_of_attrs a)).
    + inv_bind_as H it1 H1'. injection H as <-. cbn in Hc'. congruence.
    + injection H as <-. congruence.
  - apply open_item_intro; [done|].
    eapply fwrites_nonempty; [exact Hw|apply root_item_nonempty].
Qed.

(** The open item goes through the five item blocks, on any tag. *)
Lemma starttag_blocks tag a p p1 p' it :
  start_container tag (dict_of_attrs a) p = Ok p1 ->
  open_item p1 = Some it ->
  handle_starttag unquote tag a p = Ok p' ->
  let ad := dict_of_attrs a in
  let is_div_class := String.eqb tag "div" && has_key "class" ad in
  exists it1 it2 it3 it4 it5,
    guarded is_div_class (watched_icon ad) it = Ok it1
    /\ guarded is_div_class (progress_bar ad) it1 = Ok it2
    /\ guarded is_div_class (poster_style unquote ad) it2 = Ok it3
    /\ guarded (String.eqb tag "img") (img_tag unquote ad) it3 = Ok it4
    /\ guarded (has_key "style" ad) (inline_style unquote ad) it4 = Ok it5
    /\ current_item p' = Some it5.
Proof.
  intros Hs Ho H. cbv zeta. unfold handle_starttag in H.
  rewrite Hs, res_bind_Ok in H.
  inv_bind_as H q1 Hq1.
  destruct (on_item_open true _ _ _ _ _ (fun _ => watched_icon_writes true _) Ho Hq1)
    as (it1 & H1 & -> & Ho1).
  inv_bind_as H q2 Hq2.
  destruct (on_item_open true _ _ _ _ _
              (fun _ a b Hp => writes_mono _ _ _ (progress_bar_writes _ a b Hp)) Ho1 Hq2)
    as (it2 & H2 & -> & Ho2).
  inv_bind_as H q3 Hq3.
  destruct (on_item_open true _ _ _ _ _
              (fun _ => poster_style_writes unquote true _) Ho2 Hq3)
    as (it3 & H3 & -> & Ho3).
  inv_bind_as H q4 Hq4.
  destruct (on_item_open true _ _ _ _ _
              (fun _ => img_tag_writes unquote true _) Ho3 Hq4)
    as (it4 & H4 & -> & Ho4).
  inv_bind_as H q5 Hq5. inv_bind_as H q6 Hq6.
  inv_bind_as H q7 Hq7. inv_bind_as H q8 Hq8.
  assert (open_item q8 = Some it4) as Ho5.
  { apply capture_rule_cases in Hq5, Hq6, Hq7, Hq8.
    destruct Hq5 as [->| ->], Hq6 as [->| ->], Hq7 as [->| ->], Hq8 as [->| ->];
      done. }
  destruct (on_item_open true _ _ _ _ _
              (fun _ => inline_style_writes unquote true _) Ho5 H)
    as (it5 & H5 & -> & Ho6).
  exists it1, it2, it3, it4, it5. done.
Qed.

(** An event that neither starts nor finalizes an item leaves the output
    alone and keeps an open item open. *)
Lemma handle_inside e p q :
  container_start e = false -> e <> EndTag "a" ->
  handle unquote e p = Ok q ->
  items q = items p
  /\ (in_meta_item p = true -> in_meta_item q = true)
  /\ (current_item p = None -> current_item q = None)
  /\ (forall it, open_item p = Some it -> exists it', open_item q = Some it').
Proof.
  intros Hcs Hne H. destruct e as [tag a|tag|data]; cbn [handle] in H.
  - apply handle_starttag_fsteps in H as (p1 & H1 & Hi & Hm & Hw).
    destruct (start_container_exact tag a p p1 H1) as [Hi1 Hc]. rewrite Hcs in Hc.
    destruct Hc as [Hc Hm1]. rewrite Hc in Hw.
    split; [congruence|]. split; [intros; rewrite Hm; auto|]. split.
    + intros Hn. rewrite Hn in Hw. by destruct (current_item q).
    + intros it [Hit Hne']%open_item_Some. rewrite Hit in Hw.
      destruct (current_item q) as [it'|] eqn:Hq; [|done].
      exists it'. apply open_item_intro; [done|]. by eapply fwrites_nonempty.
  - assert (String.eqb tag "a" = false) as Ha.
    { destruct (String.eqb_spec tag "a") as [->|]; done. }
    unfold handle_endtag in H. rewrite Ha in H. cbn in H. injection H as <-.
    destruct (is_text_tag tag); repeat split; eauto.
  - apply handle_data_fstep in H as (Hi & Hm & Hw).
    split; [done|]. split; [congruence|]. split.
    + intros Hn. rewrite Hn in Hw. by destruct (current_item q).
    + intros it [Hit Hne']%open_item_Some. rewrite Hit in Hw.
      destruct (current_item q) as [it'|] eqn:Hq; [|done].
      exists it'. apply open_item_intro; [done|]. by eapply fwrites_nonempty.
Qed.

(** The end tag of an [a]. *)
Lemma handle_endtag_open p q it :
  in_meta_item p = true -> open_item p = Some it ->
  handle_endtag "a" p = Ok q ->
  items q = (items p ++ [strip_none it])%list /\ current_item q = None.
Proof.
  intros Hm Ho. unfold handle_endtag. cbn. rewrite Hm, Ho. by intros [= <-].
Qed.

Lemma handle_endtag_closed p q :
  current_item p = None ->
  handle_endtag "a" p = Ok q ->
  items q = items p /\ current_item q = None.
Proof.
  intros Hc. unfold handle_endtag, open_item. cbn. rewrite Hc.
  destruct (in_meta_item p); by intros [= <-].
Qed.

End Exact.

(** ** The items of a scan and the spans of the document *)

Section Spans.
Variable unquote : string -> string.
Variable R : dict -> span -> Prop.
Hypothesis R_root : forall a href media_type imdb_id it,
  container_start (StartTag "a" a) = true ->
  guarded (has_key "style" (dict_of_attrs a)) (inline_style unquote (dict_of_attrs a))
          (root_item (dict_of_attrs a) href media_type imdb_id) = Ok it ->
  R it (a, []).
Hypothesis R_step : forall e p p' it it' a body,
  container_start e = false -> e <> EndTag "a" ->
  open_item p = Some it ->
  handle unquote e p = Ok p' ->
  current_item p' = Some it' ->
  R it (a, body) -> R it' (a, (body ++ [e])%list).

Lemma inside_tracks e p q cur :
  container_start e = false -> e <> EndTag "a" ->
  handle unquote e p = Ok q -> tracks R p cur ->
  items q = items p /\ tracks R q (extend e cur).
Proof.
  intros Hcs Hne H Ht.
  destruct (handle_inside unquote e p q Hcs Hne H) as (Hi & Hm & Hn & Ho).
  split; [done|]. destruct cur as [[a body]|]; cbn in Ht |- *; [|auto].
  destruct Ht as (Hmp & it & Hit & HR). split; [auto|].
  destruct (Ho it Hit) as [it' Hit']. exists it'. split; [done|].
  apply open_item_Some in Hit' as Hc. destruct Hc as [Hc _]. eauto.
Qed.

Lemma feed_spans evs p p' cur :
  feed unquote evs p = Ok p' -> tracks R p cur ->
  exists new,
    items p' = (items p ++ new)%list
    /\ Forall2 (fun it s => exists it0, it = strip_none it0 /\ R it0 s)
               new (spans cur evs).
Proof.
  revert p cur. induction evs as [|e evs IH]; intros p cur H Ht; cbn [feed] in H.
  - injection H as <-. exists []. split; [by rewrite app_nil_r|constructor].
  - inv_bind_as H q Hq. destruct e as [tag a|tag|data]; cbn [spans].
    + destruct (container_start (StartTag tag a)) eqn:Hcs.
      * cbn [handle] in Hq.
        assert (tag = "a") as ->.
        { unfold container_start in Hcs.
          destruct (String.eqb_spec tag "a"); [done|discriminate]. }
        destruct (container_start_item unquote a p q Hcs Hq)
          as (Hi & Hm & href & m & i & it' & Hg & Ho).
        destruct (IH q (Some (a, [])) H) as (new & Hn & HF).
        { cbn. split; [done|]. exists it'. split; [done|]. eauto. }
        exists new. by rewrite <- Hi.
      * destruct (inside_tracks (StartTag tag a) p q cur Hcs ltac:(done) Hq Ht) as [Hi Ht'].
        destruct (IH q _ H Ht') as (new & Hn & HF). exists new. by rewrite <- Hi.
    + destruct (String.eqb_spec tag "a") as [->|Hne].
      * cbn [handle] in Hq. destruct cur as [s|]; cbn in Ht.
        -- destruct Ht as (Hm & it & Ho & HR).
           destruct (handle_endtag_open p q it Hm Ho Hq) as [Hi Hc].
           destruct (IH q None H Hc) as (new & Hn & HF).
           exists (strip_none it :: new). split.
           ++ by rewrite Hn, Hi, <- app_assoc.
           ++ constructor; [eauto|done].
        -- destruct (handle_endtag_closed p q Ht Hq) as [Hi Hc].
           destruct (IH q None H Hc) as (new & Hn & HF). exists new. by rewrite <- Hi.
      * assert (EndTag tag <> EndTag "a") as Hne' by congruence.
        destruct (inside_tracks (EndTag tag) p q cur eq_refl Hne' Hq Ht) as [Hi Ht'].
        destruct (IH q _ H Ht') as (new & Hn & HF). exists new. by rewrite <- Hi.
    + destruct (inside_tracks (Data data) p q cur eq_refl ltac:(done) Hq Ht) as [Hi Ht'].
      destruct (IH q _ H Ht') as (new & Hn & HF). exists new. by rewrite <- Hi.
Qed.

(** From the start of a scan: one item per span, in order. *)
Lemma scan_spans evs p :
  feed unquote evs init = Ok p ->
  Forall2 (fun it s => exists it0, it = strip_none it0 /\ R it0 s)
          (items p) (spans None evs).
Proof.
  intros H. destruct (feed_spans evs init p None H) as (new & Hn & HF); [done|].
  cbn in Hn. by rewrite Hn.
Qed.

End Spans.

(** ** The poster URL of an entity *)

Lemma search_weaken {A B} (m1 : string -> option A) (m2 : string -> option B) s a :
  (forall s' a', m1 s' = Some a' -> is_Some (m2 s')) ->
  Str.search m1 s = Some a -> is_Some (Str.search m2 s).
Proof.
  intros Hm. induction s as [|c r IH]; cbn [Str.search].
  - destruct (m1 "") eqn:E1; [|done]. intros _. by destruct (Hm _ _ E1) as [b ->].
  - destruct (m1 (String c r)) eqn:E1.
    + intros _. by destruct (Hm _ _ E1) as [b ->].
    + intros H. destruct (m2 (String c r)); [done|auto].
Qed.

Lemma strip_prefix_app pre suf s r :
  Str.strip_prefix (pre +:+ suf) s = Some r -> is_Some (Str.strip_prefix pre s).
Proof.
  revert s. induction pre as [|a pre IH]; intros s; [done|].
  change (String a pre +:+ suf) with (String a (pre +:+ suf)).
  destruct s as [|b s]; cbn; [done|]. destruct (Ascii.eqb a b); [apply IH|done].
Qed.

(** A style that matches the background-image pattern has the words the
    inline style block looks for first. *)
Lemma bg_url_contains style u :
  Re.bg_url style = Some u -> Str.contains "background-image" style = true.
Proof.
  unfold Re.bg_url, Str.contains. intros H.
  destruct (search_weaken Re.bg_url_at (Str.strip_prefix "background-image") style u)
    as [r ->]; [|done|done].
  intros s' a' Ha. unfold Re.bg_url_at in Ha. apply bind_Some in Ha as (r & Hr & _).
  exact (strip_prefix_app "background-image" ":" s' r Hr).
Qed.

Section PosterExact.
Variable unquote : string -> string.

Lemma img_tag_poster_exact tag ad it it' v :
  guarded (String.eqb tag "img") (img_tag unquote ad) it = Ok it' ->
  it !! "poster_url" = Some v ->
  it' !! "poster_url"
  = Some (match image_source tag ad with
          | Some src => if poster_unset v then VStr (unquote src) else v
          | None => v
          end).
Proof.
  unfold guarded, image_source. destruct (String.eqb tag "img"); [|by intros [= <-]].
  unfold img_tag. intros H Hv. inv_bind_as H b Hb. inv_bind_as H b' Hb'.
  injection H as <-.
  assert ((if b' then <["title" := of_attr (get_attr "alt" ad)]>
                        (if b then <["poster_url" :=
                                      VStr (unquote (default "" (get_attr "src" ad)))]> it
                         else it)
           else if b then <["poster_url" :=
                             VStr (unquote (default "" (get_attr "src" ad)))]> it
                else it) !! "poster_url"
          = (if b then <["poster_url" :=
                          VStr (unquote (default "" (get_attr "src" ad)))]> it
             else it) !! "poster_url") as ->.
  { destruct b'; [by rewrite dict_insert_ne|done]. }
  unfold attr_and_unset, getitem in Hb. rewrite Hv in Hb.
  destruct (get_attr "src" ad) as [src|]; cbn in Hb.
  - destruct (Str.nonempty src); cbn in Hb; injection Hb as <-; [|done].
    unfold poster_unset. destruct (truthy v); cbn; [done|by rewrite dict_insert_eq].
  - by injection Hb as <-.
Qed.

Lemma inline_style_poster_exact ad it it' v :
  guarded (has_key "style" ad) (inline_style unquote ad) it = Ok it' ->
  it !! "poster_url" = Some v ->
  it' !! "poster_url"
  = Some (match inline_background ad with
          | Some u => if poster_unset v then VStr (unquote u) else v
          | None => v
          end).
Proof.
  unfold guarded, inline_background, inline_style, has_key, get_attr.
  intros H Hv. destruct (ad !! "style") as [[style|]|]; cbn in H |- *.
  - unfold getitem in H. rewrite Hv in H.
    destruct (Str.contains "background-image" style) eqn:Hbg; cbn in H.
    + unfold poster_unset. destruct (truthy v); cbn in H |- *.
      * injection H as <-. by destruct (Re.bg_url style).
      * injection H as <-. destruct (Re.bg_url style); [by rewrite dict_insert_eq|done].
    + injection H as <-. destruct (Re.bg_url style) as [u|] eqn:Hu; [|done].
      apply bg_url_contains in Hu. congruence.
  - done.
  - by injection H as <-.
Qed.

Lemma store_text_poster field text it it' :
  store_text field text it = Ok it' -> it' !! "poster_url" = it !! "poster_url".
Proof.
  unfold store_text. intros H.
  repeat case_bool_decide.
  - injection H as <-. destruct (Re.year text); by rewrite !dict_insert_ne.
  - injection H as <-. by rewrite dict_insert_ne.
  - injection H as <-. by rewrite dict_insert_ne.
  - inv_bind_as H cur Hcur. injection H as <-.
    destruct (truthy cur); [done|by rewrite dict_insert_ne].
  - by injection H as <-.
Qed.

(** The poster URL after a start tag, whatever the tag. *)
Lemma starttag_poster tag a p p1 p' it v :
  start_container tag (dict_of_attrs a) p = Ok p1 ->
  open_item p1 = Some it ->
  it !! "poster_url" = Some v ->
  handle_starttag unquote tag a p = Ok p' ->
  exists it',
    current_item p' = Some it'
    /\ it' !! "poster_url" = Some (spec_poster unquote tag (dict_of_attrs a) v).
Proof.
  intros Hs Ho Hv H.
  destruct (starttag_blocks unquote tag a p p1 p' it Hs Ho H)
    as (it1 & it2 & it3 & it4 & it5 & H1 & H2 & H3 & H4 & H5 & Hc).
  exists it5. split; [done|].
  apply watched_icon_poster in H1. apply progress_bar_poster in H2.
  apply poster_style_poster in H3. rewrite H2, H1, Hv in H3.
  assert (it3 !! "poster_url"
          = Some (match poster_class_match tag (dict_of_attrs a) with
                  | Some u => VStr (unquote u)
                  | None => v
                  end)) as H3'.
  { rewrite H3. by destruct (poster_class_match tag (dict_of_attrs a)). }
  apply (img_tag_poster_exact _ _ _ _ _ H4) in H3'.
  by apply (inline_style_poster_exact _ _ _ _ H5) in H3'.
Qed.

Lemma poster_root a href media_type imdb_id it :
  container_start (StartTag "a" a) = true ->
  guarded (has_key "style" (dict_of_attrs a)) (inline_style unquote (dict_of_attrs a))
          (root_item (dict_of_attrs a) href media_type imdb_id) = Ok it ->
  has_poster unquote it (a, []).
Proof.
  intros _ H. unfold has_poster, span_poster. cbn [fst snd fold_left spec_poster_event].
  apply (inline_style_poster_exact _ _ _ VNone) in H; [done|].
  rewrite root_item_lookup by done. unfold new_item. by lookups.
Qed.

Lemma poster_step e p p' it it' a body :
  container_start e = false -> e <> EndTag "a" ->
  open_item p = Some it ->
  handle unquote e p = Ok p' ->
  current_item p' = Some it' ->
  has_poster unquote it (a, body) -> has_poster unquote it' (a, (body ++ [e])%list).
Proof.
  unfold has_poster, span_poster. cbn [fst snd]. intros Hcs Hne Ho H Hc' Hv.
  rewrite app_comm_cons, fold_left_app.
  set (v := fold_left (spec_poster_event unquote) (StartTag "a" a :: body) VNone) in *.
  cbn [fold_left].
  destruct e as [tag a0|tag|data]; cbn [handle spec_poster_event] in *.
  - pose proof (handle_starttag_fsteps unquote tag a0 p p' H) as (p1 & H1 & _).
    destruct (start_container_exact tag a0 p p1 H1) as [_ Hx]. rewrite Hcs in Hx.
    destruct Hx as [Hx _].
    assert (open_item p1 = Some it) as Ho1 by (by rewrite (open_item_eq p p1 Hx)).
    destruct (starttag_poster tag a0 p p1 p' it v H1 Ho1 Hv H) as (it'' & Hc'' & Hp).
    congruence.
  - assert (String.eqb tag "a" = false) as Ha.
    { destruct (String.eqb_spec tag "a") as [->|]; done. }
    apply open_item_Some in Ho as [Hc _].
    unfold handle_endtag in H. rewrite Ha in H. cbn in H. injection H as <-.
    assert (it' = it) as -> by (destruct (is_text_tag tag); cbn in Hc'; congruence).
    done.
  - unfold handle_data, on_item in H. rewrite Ho in H.
    apply open_item_Some in Ho as [Hc _].
    destruct (_ && _).
    + inv_bind_as H it1 H1. injection H as <-. cbn in Hc'. injection Hc' as <-.
      by rewrite (store_text_poster _ _ _ _ H1).
    + injection H as <-. congruence.
Qed.

End PosterExact.

(** C3 (amended): the poster URL of every item the scanner produces is the
    one its span gives: unset ([None]) at the container start tag, then
    updated by every start tag of the span in order, the container's own
    first.  On a start tag, a [div] with a poster, thumbnail or image class
    and a background-image style sets it to the percent-decoded URL,
    whatever it was (the last such match wins); then an image source that
    is not empty, then the background image of any inline style, set it to
    their percent-decoded URL only while it is unset (empty or [None]).  A
    poster URL that is still [None] at the end of the span is left out of
    the item. *)
Theorem poster_url_priority unquote evs p :
  feed unquote evs init = Ok p ->
  Forall2 (fun it s => it !! "poster_url" = not_none (Some (span_poster unquote s)))
          (items p) (spans None evs).
Proof.
  intros H.
  eapply Forall2_impl;
    [exact (scan_spans unquote (has_poster unquote) (poster_root unquote)
              (poster_step unquote) evs p H)|].
  intros it s (it0 & -> & HR). unfold has_poster in HR.
  rewrite strip_none_lookup, HR. unfold not_none.
  by destruct (span_poster unquote s).
Qed.

Lemma poster_url_priority_witness :
  feed unquote_plain doc_two_posters init
  = Ok (value_or init (feed unquote_plain doc_two_posters init))
  /\ Forall2 (fun it s =>
                it !! "poster_url" = not_none (Some (span_poster unquote_plain s)))
             (items (value_or init (feed unquote_plain doc_two_posters init)))
             (spans None doc_two_posters).
Proof.
  assert (feed unquote_plain doc_two_posters init
          = Ok (value_or init (feed unquote_plain doc_two_posters init))) as H
    by (apply is_ok_value; vm_compute; reflexivity).
  split; [exact H|].
  exact (poster_url_priority unquote_plain doc_two_posters
           (value_or init (feed unquote_plain doc_two_posters init)) H).
Defined.

(** The spans of the examples and their poster URLs: the second poster
    element wins; the style of the container itself counts, and an image
    after it does not replace it. *)
Example span_poster_two_ex :
  map (span_poster unquote_plain) (spans None doc_two_posters)
  = [VStr "http://img/second.png"].
Proof. vm_compute. reflexivity. Qed.

Example span_poster_root_ex :
  map (span_poster unquote_plain) (spans None doc_root_style)
  = [VStr "http://img/root.png"]
  /\ first_item doc_root_style !! "poster_url" = Some (VStr "http://img/root.png").
Proof. by_computation. Qed.

(** ** The defaults of an entity *)

Lemma writes_progress_default d d' :
  writes false d d' -> progress_default d -> progress_default d'.
Proof. induction 1; eauto using progress_default_write. Qed.

Lemma Forall2_with_Forall {A B} (P : A -> Prop) (R R' : A -> B -> Prop) l k :
  Forall P l -> Forall2 R l k ->
  (forall x y, P x -> R x y -> R' x y) -> Forall2 R' l k.
Proof.
  intros HP HR Himp. induction HR as [|x y l k Hxy _ IH]; [constructor|].
  apply Forall_cons in HP as [Hx Hl]. constructor; auto.
Qed.

Section Defaults.
Variable unquote : string -> string.

Lemma on_item_keeps k v (g : bool) f p p' :
  (g = true -> forall it it', f it = Ok it' -> it !! k = Some v -> it' !! k = Some v) ->
  on_item g f p = Ok p' ->
  (forall it, current_item p = Some it -> it !! k = Some v) ->
  forall it', current_item p' = Some it' -> it' !! k = Some v.
Proof.
  intros Hf. unfold on_item.
  destruct (open_item p) as [it|] eqn:Ho; [|by intros [= <-]].
  destruct g; [|by intros [= <-]].
  intros H Hp. inv_bind_as H it1 Hit1. injection H as <-.
  apply open_item_Some in Ho as [Hc _].
  intros it2 [= <-]. eauto.
Qed.

Lemma img_tag_no_alt ad it it' :
  match get_attr "alt" ad with Some alt => Str.nonempty alt | None => false end = false ->
  img_tag unquote ad it = Ok it' -> it' !! "title" = it !! "title".
Proof.
  intros Halt. unfold img_tag. intros H. inv_bind_as H b Hb. inv_bind_as H b' Hb'.
  injection H as <-.
  assert (b' = false) as ->.
  { unfold attr_and_unset in Hb'. destruct (get_attr "alt" ad) as [alt|]; cbn in Hb'.
    - rewrite Halt in Hb'. by injection Hb' as <-.
    - by injection Hb' as <-. }
  destruct b; [by rewrite dict_insert_ne|done].
Qed.

(** An event that is no title source leaves the title of the open item as
    it is, whatever it is. *)
Lemma handle_title_fixed t e p p' :
  container_start e = false -> title_source e = false ->
  handle unquote e p = Ok p' -> title_open t p -> title_open t p'.
Proof.
  intros Hcs Hts H Hp. destruct e as [tag a|tag|data]; cbn [handle] in H.
  - unfold handle_starttag in H. inv_bind_as H p1 H1.
    assert (title_open t p1) as Hp1.
    { destruct (start_container_exact tag a p p1 H1) as [_ Hx]. rewrite Hcs in Hx.
      destruct Hx as [Hx _]. unfold title_open. by rewrite Hx. }
    inv_bind_as H q1 Hq1. inv_bind_as H q2 Hq2. inv_bind_as H q3 Hq3.
    inv_bind_as H q4 Hq4. inv_bind_as H q5 Hq5. inv_bind_as H q6 Hq6.
    inv_bind_as H q7 Hq7. inv_bind_as H q8 Hq8.
    apply (on_item_title t _ _ _ _ (watched_icon_title t _)) in Hq1; [|done].
    apply (on_item_title t _ _ _ _ (progress_bar_title t _)) in Hq2; [|done].
    apply (on_item_title t _ _ _ _ (poster_style_title unquote t _)) in Hq3; [|done].
    assert (title_open t q4) as Hp4.
    { unfold title_open.
      apply (on_item_keeps "title" t (String.eqb tag "img")
               (img_tag unquote (dict_of_attrs a)) q3 q4); [|done..].
      intros Hg it it' Hi Hit. cbn in Hts. rewrite Hg in Hts.
      by rewrite (img_tag_no_alt _ _ _ Hts Hi). }
    apply (capture_rule_title t) in Hq5; [|done].
    apply (capture_rule_title t) in Hq6; [|done].
    apply (capture_rule_title t) in Hq7; [|done].
    apply (capture_rule_title t) in Hq8; [|done].
    by apply (on_item_title t _ _ _ _ (inline_style_title unquote t _)) in H.
  - apply handle_endtag_cases in H as [[_ Hc]|(it & _ & _ & Hc)];
      unfold title_open; rewrite Hc; [done|]. by intros.
  - cbn in Hts. unfold handle_data in H. rewrite Hts, andb_false_r in H.
    rewrite on_item_false in H. by injection H as <-.
Qed.

Lemma handle_progress_default e p p' :
  progress_markup e = false ->
  handle unquote e p = Ok p' ->
  (forall it, current_item p = Some it -> progress_default it) ->
  forall it', current_item p' = Some it' -> progress_default it'.
Proof.
  intros He H Hp.
  assert (allowed false e) as Ha by (unfold allowed; congruence).
  apply (handle_inv unquote false (items p) progress_default progress_default
           new_item_progress progress_default_write progress_default_strip
           e p p' Ha H).
  split; [|done]. exists []. split; [by rewrite app_nil_r|constructor].
Qed.

Lemma defaults_root a href media_type imdb_id it :
  container_start (StartTag "a" a) = true ->
  guarded (has_key "style" (dict_of_attrs a)) (inline_style unquote (dict_of_attrs a))
          (root_item (dict_of_attrs a) href media_type imdb_id) = Ok it ->
  span_defaults id it (a, []).
Proof.
  intros _ H.
  set (root := root_item (dict_of_attrs a) href media_type imdb_id) in *.
  assert (root !! "title" = Some (root_title a)
          /\ root !! "is_watched" = Some (VBool false)
          /\ progress_default root) as (Ht & Hw & Hp).
  { destruct (new_item_lookups (dict_of_attrs a) (Re.episode href) imdb_id media_type
                (get_attr "title" (dict_of_attrs a)) href)
      as (_ & _ & _ & H4 & H5 & H6 & _). done. }
  unfold guarded in H. destruct (has_key "style" (dict_of_attrs a)).
  - repeat split; intros _; cbn [fst snd id].
    + by apply (inline_style_title _ _ _ _ _ H).
    + by rewrite (inline_style_watched _ _ _ _ H).
    + apply inline_style_writes with (pb := false) in H.
      by apply (writes_progress_default root).
  - injection H as <-. repeat split; intros _; done.
Qed.

Lemma defaults_step e p p' it it' a body :
  container_start e = false -> e <> EndTag "a" ->
  open_item p = Some it ->
  handle unquote e p = Ok p' ->
  current_item p' = Some it' ->
  span_defaults id it (a, body) -> span_defaults id it' (a, (body ++ [e])%list).
Proof.
  intros Hcs Hne [Hc _]%open_item_Some H Hc' (Ht & Hw & Hp).
  unfold span_defaults in *. cbn [fst snd id] in *.
  assert (forall (P : dict -> Prop), P it ->
            forall it0, current_item p = Some it0 -> P it0) as Hcur.
  { intros P HP it0 Hit0. congruence. }
  repeat split; intros [Hb He%Forall_inv]%Forall_app.
  - apply (handle_title_fixed (root_title a) e p p' Hcs He H); [|done].
    exact (Hcur (fun d => d !! "title" = Some (root_title a)) (Ht Hb)).
  - apply (handle_unwatched unquote e p p' He H); [|done].
    exact (Hcur (watched_is false) (Hw Hb)).
  - apply (handle_progress_default e p p' He H); [|done].
    exact (Hcur progress_default (Hp Hb)).
Qed.

End Defaults.

(** C7 (amended): no field of a finalized item is [None], a field whose
    value is [None] is left out.  The fields whose default is not [None]
    stay: the identifier, the kind, the link target, the watched flag and
    the progress are always there; the watched flag is [False] when the
    span of the item has no watched icon, the progress is [0] when the span
    has no progress bar, and when the span has no image with an alt text
    and no text that is not blank, the title is the title attribute of the
    container: the empty string when the container has no title attribute,
    and left out when the attribute is written without a value. *)
Theorem scanner_no_none unquote evs p :
  feed unquote evs init = Ok p ->
  Forall2 (fun it s => no_none it /\ has_core it /\ span_defaults not_none it s)
          (items p) (spans None evs).
Proof.
  intros H.
  assert (Forall (fun it => no_none it /\ has_core it) (items p)) as Hcore.
  { destruct (inv_items [] has_core (fun it => no_none it /\ has_core it) p)
      as (new & -> & Hnew); [|done].
    apply (feed_inv unquote true [] _ _ new_item_core
             (has_core_write true) has_core_strip evs init p);
      [apply Forall_forall; intros; apply allowed_true|done|apply inv_init]. }
  apply (Forall2_with_Forall _ _ _ _ _ Hcore
           (scan_spans unquote (span_defaults id) (defaults_root unquote)
              (defaults_step unquote) evs p H)).
  intros it s [Hn Hc] (it0 & -> & Ht & Hw & Hp).
  split; [done|]. split; [done|]. unfold span_defaults in *. cbn [id] in *.
  repeat split; intros HF; rewrite strip_none_lookup.
  - rewrite (Ht HF). unfold not_none. by destruct (root_title s.1).
  - by rewrite (Hw HF).
  - by rewrite (Hp HF).
Qed.

Lemma scanner_no_none_witness :
  feed unquote_plain doc_no_title init
  = Ok (value_or init (feed unquote_plain doc_no_title init))
  /\ Forall2 (fun it s => no_none it /\ has_core it /\ span_defaults not_none it s)
             (items (value_or init (feed unquote_plain doc_no_title init)))
             (spans None doc_no_title).
Proof.
  assert (feed unquote_plain doc_no_title init
          = Ok (value_or init (feed unquote_plain doc_no_title init))) as H
    by (apply is_ok_value; vm_compute; reflexivity).
  split; [exact H|].
  exact (scanner_no_none unquote_plain doc_no_title
           (value_or init (feed unquote_plain doc_no_title init)) H).
Defined.

(** The title of a container: the empty string when it has no title
    attribute, no title at all when the attribute has no value. *)
Example root_title_ex :
  map (fun s : span => not_none (Some (root_title s.1))) (spans None doc_no_title)
  = [Some (VStr "")]
  /\ map (fun s : span => not_none (Some (root_title s.1)))
         (spans None doc_valueless_title)
     = [None]
  /\ first_item doc_valueless_title !! "title" = None.
Proof. by_computation. Qed.

(** ** The scanner: calls on which the handlers raise nothing *)

(** X22: the handlers raise nothing on a sequence of calls in which every
    attribute has a value, every width the progress pattern finds in a style
    is a decimal number, and the season and the episode of a link target,
    if it has them, have at most 640 digits each. *)
Theorem scanner_total unquote evs :
  Forall (fun e => plain_event e = true) evs ->
  exists p, feed unquote evs init = Ok p.
Proof.
  intros Hevs. by apply feed_total.
Qed.

Lemma scanner_total_witness :
  Forall (fun e => plain_event e = true) doc_episode
  /\ exists p, feed unquote_plain doc_episode init = Ok p.
Proof.
  assert (Forall (fun e => plain_event e = true) doc_episode) as H
    by (repeat constructor; vm_compute; reflexivity).
  split; [exact H|].
  exact (scanner_total unquote_plain doc_episode H).
Defined.
